(** * tiktokApp: caption annotator and emoji overlay generator

    A shallow embedding of [scripts/whisper_transcribe.py] and
    [scripts/generate_emoji_overlays.py], with the properties the
    specification states about them.

    Python values are modelled as follows.
    - [str]: the list of its Unicode code points ([list N]); [len] is
      [length].  String literals of the scripts are written with [lit] for
      their ASCII part and with explicit code points elsewhere, exactly as
      the source files store them.
    - [int]: [Z].  [float]: IEEE 754 binary64, through the Gallina
      specification [spec_float] of the standard library (precision 53,
      exponent bound 1024).
    - [set] of [str]: [gset]; [dict] from [str]: [gmap].
    - exceptions: the sum type [exn + A]; printing and files: a state
      monad over the file system and the standard output.  Files are
      read in text mode, with universal newlines; the standard output
      and the files written encode as UTF-8 and raise on a lone
      surrogate; opening a file for writing raises for the paths that
      the state lists as denied. *)

From Stdlib Require Import ZArith NArith List String Ascii Bool Lia Decimal.
From Stdlib Require Import Floats.SpecFloat.
From stdpp Require Import base option list gmap.

Local Open Scope Z_scope.

Abbreviation str := (list N).

(** ASCII literal of the source as a code-point string. *)
Definition lit (x : string) : str :=
  List.map N_of_ascii (list_ascii_of_string x).

(* ================================================================== *)
(** ** Python string operations used by the scripts *)
(* ================================================================== *)

Module PyStr.

Definition eqb (a b : str) : bool := bool_decide (a = b).

(** [s.startswith(p)] *)
Fixpoint startswith (p s : str) : bool :=
  match p, s with
  | [], _ => true
  | _ :: _, [] => false
  | a :: p', b :: s' => N.eqb a b && startswith p' s'
  end.

(** [sub in s] *)
Fixpoint contains (sub s : str) : bool :=
  startswith sub s ||
  match s with
  | [] => false
  | _ :: s' => contains sub s'
  end.

(** [any(pattern in word for pattern in patterns)] *)
Definition any_in (patterns : list str) (word : str) : bool :=
  existsb (fun pattern => contains pattern word) patterns.

(** [x in [a, b, ...]] for a list literal of strings *)
Definition in_list (x : str) (l : list str) : bool :=
  existsb (eqb x) l.

(** The scanning loop of [s.split(sep, maxsplit)] for a non-empty
    [sep]: [left] is the number of splits still allowed ([None]: no
    limit), [acc] the piece being read (reversed) and [skip] how many
    characters of an already recognised separator remain to be passed. *)
Fixpoint split_go (sep : str) (left : option nat) (s : str)
         (acc : str) (skip : nat) : list str :=
  match s with
  | [] => [rev acc]
  | c :: s' =>
      match skip with
      | S k => split_go sep left s' acc k
      | O =>
          let allowed := match left with Some O => false | _ => true end in
          if allowed && startswith sep s
          then rev acc ::
               split_go sep (Nat.pred <$> left) s' [] (Nat.pred (length sep))
          else split_go sep left s' (c :: acc) O
      end
  end.

(** [s.split(sep)] *)
Definition split (sep s : str) : list str := split_go sep None s [] O.

(** [s.split(sep, maxsplit)] *)
Definition splitn (sep : str) (maxsplit : nat) (s : str) : list str :=
  split_go sep (Some maxsplit) s [] O.

Fixpoint lstrip_chars (chars s : str) : str :=
  match s with
  | [] => []
  | c :: s' => if existsb (N.eqb c) chars then lstrip_chars chars s' else s
  end.

Definition rstrip_chars (chars s : str) : str :=
  rev (lstrip_chars chars (rev s)).

(** [s.strip(chars)]: both ends. *)
Definition strip_chars (chars s : str) : str :=
  rstrip_chars chars (lstrip_chars chars s).

(** The code points for which [str.isspace] holds; [s.strip()] removes
    them from both ends. *)
Definition whitespace : str :=
  [9; 10; 11; 12; 13; 28; 29; 30; 31; 32; 133; 160; 5760;
   8192; 8193; 8194; 8195; 8196; 8197; 8198; 8199; 8200; 8201; 8202;
   8232; 8233; 8239; 8287; 12288]%N.

(** [s.strip()] *)
Definition strip (s : str) : str := strip_chars whitespace s.

(** [sep.join(l)] *)
Fixpoint join (sep : str) (l : list str) : str :=
  match l with
  | [] => []
  | [x] => x
  | x :: l' => x ++ sep ++ join sep l'
  end.

(** The scanning loop of [s.replace(old, new)] for a non-empty [old]. *)
Fixpoint replace_go (old new s : str) (skip : nat) : str :=
  match s with
  | [] => []
  | c :: s' =>
      match skip with
      | S k => replace_go old new s' k
      | O =>
          if startswith old s
          then new ++ replace_go old new s' (Nat.pred (length old))
          else c :: replace_go old new s' O
      end
  end.

(** [s.replace(old, new)] *)
Definition replace (old new s : str) : str := replace_go old new s O.

Fixpoint uint_digits (d : Decimal.uint) : str :=
  match d with
  | Nil => []
  | D0 d => 48%N :: uint_digits d
  | D1 d => 49%N :: uint_digits d
  | D2 d => 50%N :: uint_digits d
  | D3 d => 51%N :: uint_digits d
  | D4 d => 52%N :: uint_digits d
  | D5 d => 53%N :: uint_digits d
  | D6 d => 54%N :: uint_digits d
  | D7 d => 55%N :: uint_digits d
  | D8 d => 56%N :: uint_digits d
  | D9 d => 57%N :: uint_digits d
  end.

(** Decimal digits of a natural number, ["0"] for zero. *)
Definition digits (n : N) : str :=
  match n with
  | N0 => [48%N]
  | Npos p => uint_digits (Pos.to_uint p)
  end.

(** [f"{z}"] for an [int] *)
Definition of_int (z : Z) : str :=
  if z <? 0 then 45%N :: digits (Z.abs_N z) else digits (Z.abs_N z).

(** [f"{z:02d}"]: zero padding to width two, the sign counting in the
    width. *)
Definition of_int_02d (z : Z) : str :=
  if z <? 0 then 45%N :: digits (Z.abs_N z)
  else if z <? 10 then 48%N :: digits (Z.abs_N z)
  else digits (Z.abs_N z).

(** [f"{n}"] for a non-negative index *)
Definition of_nat (n : nat) : str := digits (N.of_nat n).

(** The text can be encoded as UTF-8: it holds no surrogate code
    point.  [str.encode()], the writes to a file opened in text mode
    and [print] raise [UnicodeEncodeError] on any other text. *)
Definition encodable (s : str) : bool :=
  forallb (fun c => (c <? 0xD800)%N || (0xDFFF <? c)%N) s.

(** Universal newlines, as a read in text mode applies them: [\r\n]
    and a lone [\r] come back as [\n]. *)
Fixpoint universal_newlines (s : str) : str :=
  match s with
  | [] => []
  | c :: s' =>
      if (c =? 13)%N then
        match s' with
        | d :: s'' =>
            if (d =? 10)%N then 10%N :: universal_newlines s''
            else 10%N :: universal_newlines s'
        | [] => [10%N]
        end
      else c :: universal_newlines s'
  end.

End PyStr.

(* ================================================================== *)
(** ** Python exceptions *)
(* ================================================================== *)

Inductive exn :=
| ValueError
| IndexError
| OverflowError
| ZeroDivisionError
| FileNotFoundError
| JSONDecodeError
| UnicodeEncodeError
| PermissionError
| OSError
| SystemExit (code : Z).

(** A computation that returns or raises. *)
Definition result (A : Type) : Type := exn + A.

Definition rbind {A B} (c : result A) (k : A -> result B) : result B :=
  match c with
  | inl e => inl e
  | inr a => k a
  end.

Notation "'let?' x ':=' c 'in' k" := (rbind c (fun x => k))
  (at level 10, x name, c at level 100, k at level 200).

(* ================================================================== *)
(** ** Python floats: IEEE 754 binary64 *)
(* ================================================================== *)

Module PyFloat.

Definition prec : Z := 53.
Definition emax : Z := 1024.

Abbreviation float := spec_float.

Definition add : float -> float -> float := SFadd prec emax.
Definition sub : float -> float -> float := SFsub prec emax.
Definition mul : float -> float -> float := SFmul prec emax.
Definition div : float -> float -> float := SFdiv prec emax.
Definition ltb : float -> float -> bool := SFltb.

(** The double nearest to an integer (ties to even); exact below 2^53. *)
Definition of_Z (z : Z) : float := binary_normalize prec emax z 0 false.

(** Conversion of an [int] operand in mixed arithmetic: an integer too
    large for a double raises [OverflowError]. *)
Definition of_int (z : Z) : result float :=
  match of_Z z with
  | S754_infinity _ => inl OverflowError
  | x => inr x
  end.

Definition is_zero (x : float) : bool :=
  match x with S754_zero _ => true | _ => false end.

Definition sign (x : float) : bool :=
  match x with
  | S754_zero s | S754_infinity s | S754_finite s _ _ => s
  | S754_nan => false
  end.

(** [copysign(0.0, y)] *)
Definition zero_like (y : float) : float := S754_zero (sign y).

(** C [fmod]: the exact remainder of the division of the magnitudes,
    with the sign of [x]. *)
Definition fmod (x y : float) : float :=
  match x, y with
  | S754_nan, _ | _, S754_nan => S754_nan
  | S754_infinity _, _ => S754_nan
  | _, S754_zero _ => S754_nan
  | S754_zero _, _ => x
  | S754_finite _ _ _, S754_infinity _ => x
  | S754_finite sx mx ex, S754_finite _ my ey =>
      let e0 := Z.min ex ey in
      let X := Zpos mx * 2 ^ (ex - e0) in
      let Y := Zpos my * 2 ^ (ey - e0) in
      let R := X mod Y in
      if R =? 0 then S754_zero sx
      else binary_normalize prec emax (cond_Zopp sx R) e0 false
  end.

(** C [floor] *)
Definition floor (x : float) : float :=
  match x with
  | S754_finite s m e =>
      if 0 <=? e then x
      else
        let q := Zpos m / 2 ^ (- e) in
        let r := Zpos m mod 2 ^ (- e) in
        let n := if s then (if r =? 0 then - q else - (q + 1)) else q in
        binary_normalize prec emax n 0 s
  | _ => x
  end.

(** [x % y] on floats (CPython [float_rem]). *)
Definition mod_ (x y : float) : result float :=
  if is_zero y then inl ZeroDivisionError
  else
    let m := fmod x y in
    inr (if is_zero m then zero_like y
         else if negb (Bool.eqb (ltb y (S754_zero false)) (ltb m (S754_zero false)))
              then add m y else m).

(** [x // y] on floats (CPython [float_floor_div]). *)
Definition floordiv (x y : float) : result float :=
  if is_zero y then inl ZeroDivisionError
  else
    let m := fmod x y in
    let d := div (sub x m) y in
    let d :=
      if is_zero m then d
      else if negb (Bool.eqb (ltb y (S754_zero false)) (ltb m (S754_zero false)))
           then sub d (of_Z 1) else d in
    inr (if is_zero d then zero_like (div x y)
         else
           let f := floor d in
           if ltb (div (of_Z 1) (of_Z 2)) (sub d f) then add f (of_Z 1) else f).

(** [int(x)]: truncation towards zero. *)
Definition to_int (x : float) : result Z :=
  match x with
  | S754_zero _ => inr 0
  | S754_nan => inl ValueError
  | S754_infinity _ => inl OverflowError
  | S754_finite s m e =>
      let n := if 0 <=? e then Zpos m * 2 ^ e else Zpos m / 2 ^ (- e) in
      inr (if s then - n else n)
  end.

(** The double nearest to the rational [n / d] ([d > 0]); this is the
    value of a decimal literal with numerator [n] over a power of ten. *)
Definition of_ratio (n : Z) (d : Z) : float :=
  match n with
  | Z0 => S754_zero false
  | _ =>
      let '(q, e, l) := SFdiv_core_binary prec emax (Z.abs n) 0 d 0 in
      binary_round_aux prec emax (n <? 0) q e l
  end.

End PyFloat.

(* ================================================================== *)
(** ** Builtins of the Python runtime that the scripts call

    These are tables and codecs of the interpreter and of its standard
    library (Unicode case mapping, number parsing and printing, the
    [unicode-escape] codec, the JSON reader).  The embedding is stated
    over any implementation of them. *)
(* ================================================================== *)

Class PyBuiltins := {
  (** [s.lower()]; the empty string has no character to map *)
  str_lower : str -> str;
  str_lower_nil : str_lower [] = [];
  (** [s.upper()] *)
  str_upper : str -> str;
  (** [int(s)]; [None] when it raises [ValueError] *)
  int_of_str : str -> option Z;
  (** [float(s)]; [None] when it raises [ValueError] *)
  float_of_str : str -> option PyFloat.float;
  (** [f"{x}"] for a [float] *)
  float_str : PyFloat.float -> str;
  (** [s.encode().decode('unicode-escape')]; [None] when it raises
      [UnicodeEncodeError] or [UnicodeDecodeError] *)
  unicode_escape : str -> option str;
  (** [json.load] on the text of a file, read as a [Dict[str, str]] *)
  json_load : str -> result (gmap str str)
}.

(** A [dict] literal: later entries replace earlier ones. *)
Definition py_dict (l : list (str * str)) : gmap str str :=
  fold_left (fun m kv => <[kv.1 := kv.2]> m) l ∅.

(** A [set] literal. *)
Definition py_set (l : list str) : gset str := list_to_set l.

(** [x in s] for a set *)
Definition mem (x : str) (s : gset str) : bool := bool_decide (x ∈ s).

(** [x in d] for a dict *)
Definition has_key (x : str) (d : gmap str str) : bool :=
  match d !! x with Some _ => true | None => false end.

(* ================================================================== *)
(** ** scripts/whisper_transcribe.py *)
(* ================================================================== *)

Module Transcribe.

Definition MAX_WORD_LENGTH : nat := 100.

Inductive Sentiment := POSITIVE | NEGATIVE | ENERGETIC | NEUTRAL.

(** [Sentiment.X.value] *)
Definition value (x : Sentiment) : str :=
  match x with
  | POSITIVE => lit "positive"
  | NEGATIVE => lit "negative"
  | ENERGETIC => lit "energetic"
  | NEUTRAL => lit "neutral"
  end.

(** The emoji literals of the script, as its file stores them: each is
    the UTF-8 encoding of the glyph named here, read back as
    Windows-1252 text (bytes without a Windows-1252 character are
    absent). *)
Definition SPARKLES : str := [226; 339; 168]%N.
Definition FIRE : str := [240; 376; 8221; 165]%N.
Definition THOUGHT_BALLOON : str := [240; 376; 8217; 173]%N.
Definition DASH : str := [240; 376; 8217; 168]%N.
Definition TROPHY : str := [240; 376; 8224]%N.
Definition BULB : str := [240; 376; 8217; 161]%N.
Definition BUSTS : str := [240; 376; 8216; 165]%N.
Definition ALARM_CLOCK : str := [226; 176]%N.
Definition THINKING : str := [240; 376; 164; 8221]%N.
Definition RED_HEART : str := [226; 164; 239; 184]%N.
Definition SPARKLING_HEART : str := [240; 376; 8217; 8211]%N.
Definition THUMBS_UP : str := [240; 376; 8216]%N.
Definition SMILING : str := [240; 376; 732; 352]%N.

(** The attributes of an [AIEnhancer] object. *)
Record AIEnhancer := {
  filler_words : gset str;
  positive_words : gset str;
  negative_words : gset str;
  energetic_words : gset str;
  emoji_categories : list (str * gmap str str);
  emoji_map : gmap str str;
  emphasis_words : gset str;
  color_schemes : gmap str str
}.

Definition init_filler_words : gset str :=
  py_set (lit <$> ["the"; "a"; "an"; "and"; "or"; "but"; "in"; "on"; "at"; "to"; "for";
                   "le"; "la"; "les"; "un"; "une"; "des"; "de"; "du"; "et"; "ou"; "mais"]%string).

Definition init_positive_words : gset str :=
  py_set [lit "love"; lit "happy"; lit "great"; lit "amazing"; lit "awesome";
          lit "perfect"; lit "best";
          lit "amour"; lit "aimer"; lit "heureux"; lit "heureuse";
          lit "g" ++ [195; 169]%N ++ lit "nial";
          lit "g" ++ [195; 169]%N ++ lit "niale"; lit "super"].

Definition init_negative_words : gset str :=
  py_set [lit "hate"; lit "sad"; lit "bad"; lit "terrible"; lit "awful";
          lit "worst"; lit "horrible";
          lit "d" ++ [195; 169]%N ++ lit "tester"; lit "triste"; lit "mauvais";
          lit "mauvaise"; lit "terrible"; lit "horrible"].

Definition init_energetic_words : gset str :=
  py_set (lit <$> ["fire"; "lit"; "hot"; "crazy"; "wild"; "insane"; "explosive";
                   "feu"; "chaud"; "chaude"; "fou"; "folle"; "dingue"; "sauvage"]%string).

Definition init_emoji_categories : list (str * gmap str str) :=
  [(lit "emotions_positive",
    py_dict [(lit "love", RED_HEART); (lit "heart", SPARKLING_HEART);
             (lit "like", THUMBS_UP); (lit "happy", SMILING);
             (lit "amour", RED_HEART); (lit "coeur", SPARKLING_HEART);
             (lit "c" ++ [197; 8220]%N ++ lit "ur", SPARKLING_HEART);
             (lit "aimer", RED_HEART)])].

Definition init_emphasis_words : gset str :=
  py_set (lit <$> ["important"; "never"; "always"; "must"; "need"; "critical";
                   "important"; "jamais"; "toujours"; "doit"; "besoin"; "critique"]%string).

Definition init_color_schemes : gmap str str :=
  py_dict [(lit "positive", lit "&H0000FFFF"); (lit "negative", lit "&H00FF8080");
           (lit "energetic", lit "&H0000FFFF"); (lit "neutral", lit "&H00FFFFFF");
           (lit "emphasis", lit "&H0000FF00"); (lit "celebration", lit "&H00FF00FF")].

(** [AIEnhancer.__init__]: the flat emoji map is filled from the
    categories in order, [dict.update] letting later entries win. *)
Definition init : AIEnhancer := {|
  filler_words := init_filler_words;
  positive_words := init_positive_words;
  negative_words := init_negative_words;
  energetic_words := init_energetic_words;
  emoji_categories := init_emoji_categories;
  emoji_map := fold_left (fun m cat => cat.2 ∪ m) init_emoji_categories ∅;
  emphasis_words := init_emphasis_words;
  color_schemes := init_color_schemes
|}.

Definition PUNCT : str := lit ".,!?;:".

Section Methods.
Context `{PyBuiltins}.
Variable self : AIEnhancer.

(** [sum(1 for w in words if w in lexicon)] *)
Definition count_in (lexicon : gset str) (words : list str) : nat :=
  length (List.filter (fun w => mem w lexicon) words).

(** [[w.lower().strip('.,!?;:') for w in words_list if w]] *)
Definition words_lower_of (words_list : list str) : list str :=
  List.map (fun w => PyStr.strip_chars PUNCT (str_lower w))
           (List.filter (fun w => negb (PyStr.eqb w [])) words_list).

Definition analyze_sentiment (words_list : list str) : str :=
  match words_list with
  | [] => value NEUTRAL
  | _ =>
      let words_lower := words_lower_of words_list in
      let positive_count := count_in (positive_words self) words_lower in
      let negative_count := count_in (negative_words self) words_lower in
      let energetic_count := count_in (energetic_words self) words_lower in
      if (1 <=? energetic_count)%nat then value ENERGETIC
      else if (negative_count <? positive_count)%nat && (1 <=? positive_count)%nat
           then value POSITIVE
      else if (positive_count <? negative_count)%nat && (1 <=? negative_count)%nat
           then value NEGATIVE
      else value NEUTRAL
  end.

Definition is_important_word (word : str) : bool :=
  if PyStr.eqb word [] || (MAX_WORD_LENGTH <? length word)%nat then false
  else if mem word (filler_words self) then false
  else if mem word (emphasis_words self) then true
  else if mem word (positive_words self) || mem word (negative_words self)
          || mem word (energetic_words self) then true
  else if (5 <=? length word)%nat then true
  else false.

Definition motion_patterns : list str :=
  lit <$> ["ing"; "ed"; "run"; "jump"; "move"; "work"; "er"; "ant"; "ent";
           "courir"; "sauter"; "bouger"; "travailler"]%string.

Definition achievement_patterns : list str :=
  [lit "achiev"; lit "success"; lit "complet"; lit "finish"; lit "accomplish";
   lit "r" ++ [195; 169]%N ++ lit "ussir"; lit "succ" ++ [195; 168]%N ++ lit "s";
   lit "terminer"; lit "accomplir"].

Definition learning_patterns : list str :=
  [lit "learn"; lit "know"; lit "understand"; lit "study"; lit "teach";
   lit "apprendre"; lit "savoir"; lit "comprendre";
   [195; 169]%N ++ lit "tudier"; lit "enseigner"].

Definition social_patterns : list str :=
  [lit "friend"; lit "family"; lit "people"; lit "person"; lit "team";
   lit "ami"; lit "amis"; lit "famille"; lit "gens"; lit "personne";
   [195; 169]%N ++ lit "quipe"].

Definition temporal_patterns : list str :=
  lit <$> ["today"; "tomorrow"; "yesterday"; "time"; "moment";
           "aujourd'hui"; "demain"; "hier"; "temps"; "moment"]%string.

Definition interrogative_patterns : list str :=
  lit <$> ["why"; "how"; "what"; "question"; "wonder";
           "pourquoi"; "comment"; "quoi"; "question"]%string.

Definition assign_smart_emoji (word sentiment : str) : str :=
  match emoji_map self !! word with
  | Some e => e
  | None =>
      if PyStr.eqb sentiment (lit "positive") then SPARKLES
      else if PyStr.eqb sentiment (lit "energetic") then FIRE
      else if PyStr.eqb sentiment (lit "negative") then THOUGHT_BALLOON
      else if PyStr.any_in motion_patterns word then DASH
      else if PyStr.any_in achievement_patterns word then TROPHY
      else if PyStr.any_in learning_patterns word then BULB
      else if PyStr.any_in social_patterns word then BUSTS
      else if PyStr.any_in temporal_patterns word then ALARM_CLOCK
      else if PyStr.any_in interrogative_patterns word then THINKING
      else SPARKLES
  end.

(** [prev_words] and [next_words] are [Optional[List[str]]]. *)
Definition get_contextual_emoji (word : str)
           (prev_words next_words : option (list str)) : option str :=
  match emoji_map self !! word with
  | Some e => Some e
  | None =>
      match prev_words with
      | Some ((_ :: _) as prev) =>
          let prev_text := str_lower (PyStr.join (lit " ") prev) in
          if PyStr.contains (lit "on fire") prev_text
             && PyStr.in_list word [lit "fire"; lit "hot"]
          then Some FIRE
          else if PyStr.contains (lit "love") prev_text
                  && PyStr.in_list word [lit "you"; lit "it"; lit "this"]
          then Some RED_HEART
          else None
      | _ => None
      end
  end.

Definition should_emphasize (word : str) : bool :=
  mem word (emphasis_words self).

End Methods.

(** [format_timestamp_ass]: the integer constants are converted to
    [float] by the mixed arithmetic; [int()] raises on NaN and on the
    infinities. *)
Definition format_timestamp_ass (seconds : PyFloat.float) : result str :=
  let? h := PyFloat.floordiv seconds (PyFloat.of_Z 3600) in
  let? hours := PyFloat.to_int h in
  let? r := PyFloat.mod_ seconds (PyFloat.of_Z 3600) in
  let? m := PyFloat.floordiv r (PyFloat.of_Z 60) in
  let? minutes := PyFloat.to_int m in
  let? s := PyFloat.mod_ seconds (PyFloat.of_Z 60) in
  let? secs := PyFloat.to_int s in
  let? f := PyFloat.mod_ seconds (PyFloat.of_Z 1) in
  let? centisecs := PyFloat.to_int (PyFloat.mul f (PyFloat.of_Z 100)) in
  inr (PyStr.of_int hours ++ lit ":" ++ PyStr.of_int_02d minutes ++ lit ":"
       ++ PyStr.of_int_02d secs ++ lit "." ++ PyStr.of_int_02d centisecs).

(** A word of the external model: its text and its time range. *)
Record Word := { word : str; start : PyFloat.float; end_ : PyFloat.float }.

(** A segment of the external model; [words] is [None] when the
    attribute is missing or is [None]. *)
Record Segment := { words : option (list Word) }.

(** [hasattr(segment, 'words') and segment.words] *)
Definition segment_words (segment : Segment) : list Word :=
  match words segment with
  | Some ws => ws
  | None => []
  end.

(** One [Dialogue:] row before it is written. *)
Record Event := {
  ev_start : str;
  ev_end : str;
  ev_style : str;
  ev_text : str
}.

(** [f"Dialogue: 0,{start_time},{end_time},{style},,0,0,0,,{text}\n"] *)
Definition dialogue_line (e : Event) : str :=
  lit "Dialogue: 0," ++ ev_start e ++ lit "," ++ ev_end e ++ lit ","
  ++ ev_style e ++ lit ",,0,0,0,," ++ ev_text e ++ [10%N].

(** The counters of [transcribe_to_srt] and the rows written so far. *)
Record Loop := {
  word_count : nat;
  emoji_count : nat;
  important_word_count : nat;
  sentiment_stats : gmap str nat;
  written : list Event
}.

Definition loop_start : Loop := {|
  word_count := 0;
  emoji_count := 0;
  important_word_count := 0;
  sentiment_stats := ∅;
  written := []
|}.

Definition color_styles : list str :=
  lit <$> ["Color1"; "Color2"; "Color3"; "Color4"; "Color5"; "Color6"]%string.

Definition celebration_words : list str :=
  [lit "party"; lit "celebrate"; lit "congrats"; lit "congratulations"; lit "birthday";
   lit "f" ++ [195; 170]%N ++ lit "te"; lit "f" ++ [195; 170]%N ++ lit "ter";
   lit "c" ++ [195; 169]%N ++ lit "l" ++ [195; 169]%N ++ lit "brer";
   lit "anniversaire"; lit "f" ++ [195; 169]%N ++ lit "licitations"].

Definition animation_pop : str := lit "\t(0, 150, \fscx125\fscy125)".

(** Truth value of an [Optional[str]]. *)
Definition truthy (emoji : option str) : bool :=
  match emoji with
  | Some (_ :: _) => true
  | _ => false
  end.

Section Emitter.
Context `{PyBuiltins}.
Variable ai : AIEnhancer.

(** [word.word.strip().lower().strip('.,!?;:')] *)
Definition word_lower_of (w : Word) : str :=
  PyStr.strip_chars PUNCT (str_lower (PyStr.strip (word w))).

(** The emoji chosen for a word, with the flag telling that the
    importance-gated path was taken. *)
Definition choose_emoji (word_lower segment_sentiment : str) : option str * bool :=
  let emoji := get_contextual_emoji ai word_lower None None in
  if negb (truthy emoji) && is_important_word ai word_lower
  then (Some (assign_smart_emoji ai word_lower segment_sentiment), true)
  else (emoji, false).

(** The style of the row for the word of index [word_count]. *)
Definition choose_style (word_count : nat) (word_lower : str) : str :=
  let style := nth (word_count mod 6) color_styles [] in
  if should_emphasize ai word_lower then lit "Emphasis"
  else if PyStr.in_list word_lower celebration_words then lit "Celebration"
  else if mem word_lower (energetic_words ai) then lit "Energetic"
  else style.

(** The body of the loop over the words of a segment.  The row is
    written to a file opened with [encoding='utf-8']: [f.write] raises
    [UnicodeEncodeError] on a row that cannot be encoded, and the row is
    not written. *)
Definition process_word (segment_sentiment : str) (st : Loop) (w : Word)
  : result Loop :=
  let? start_time := format_timestamp_ass (start w) in
  let? end_time := format_timestamp_ass (end_ w) in
  let word_clean := PyStr.strip (word w) in
  let word_lower := PyStr.strip_chars PUNCT (str_lower word_clean) in
  let text_raw := str_upper word_clean in
  let text := lit "{" ++ animation_pop ++ lit "}" ++ text_raw in
  let '(emoji, smart) := choose_emoji word_lower segment_sentiment in
  let text :=
    match emoji with
    | Some ((_ :: _) as e) => text ++ lit " {" ++ animation_pop ++ lit "} " ++ e
    | _ => text
    end in
  let text :=
    if should_emphasize ai word_lower
    then SPARKLES ++ lit " " ++ text ++ lit " " ++ SPARKLES
    else text in
  let row := {| ev_start := start_time; ev_end := end_time;
                ev_style := choose_style (word_count st) word_lower;
                ev_text := text |} in
  if PyStr.encodable (dialogue_line row) then
    inr {| word_count := S (word_count st);
           emoji_count := if truthy emoji then S (emoji_count st) else emoji_count st;
           important_word_count :=
             if smart then S (important_word_count st) else important_word_count st;
           sentiment_stats := sentiment_stats st;
           written := written st ++ [row] |}
  else inl UnicodeEncodeError.

(** [for word in segment.words]: an exception leaves the loop with
    the rows written before it. *)
Fixpoint words_loop (segment_sentiment : str) (ws : list Word) (st : Loop)
  : Loop * option exn :=
  match ws with
  | [] => (st, None)
  | w :: ws' =>
      match process_word segment_sentiment st w with
      | inl e => (st, Some e)
      | inr st' => words_loop segment_sentiment ws' st'
      end
  end.

(** [for segment in segments_list] *)
Fixpoint segments_loop (segments_list : list Segment) (st : Loop)
  : Loop * option exn :=
  match segments_list with
  | [] => (st, None)
  | segment :: rest =>
      match segment_words segment with
      | [] => segments_loop rest st
      | ws =>
          let segment_words := word <$> ws in
          let segment_sentiment := analyze_sentiment ai segment_words in
          let st := {| word_count := word_count st;
                       emoji_count := emoji_count st;
                       important_word_count := important_word_count st;
                       sentiment_stats :=
                         <[segment_sentiment :=
                             S (default O (sentiment_stats st !! segment_sentiment))]>
                           (sentiment_stats st);
                       written := written st |} in
          match words_loop segment_sentiment ws st with
          | (st', Some e) => (st', Some e)
          | (st', None) => segments_loop rest st'
          end
      end
  end.

(** The event rows of a run of [transcribe_to_srt] on the segments
    that the external model returned. *)
Definition emitted (segments_list : list Segment) : list Event :=
  written (segments_loop segments_list loop_start).1.

End Emitter.

End Transcribe.

(* ================================================================== *)
(** ** Files and the standard output *)
(* ================================================================== *)

(** The part of the machine the scripts touch: the text of the files
    that exist, by path, as it is stored; the lines printed so far on
    the standard output; and the paths that cannot be opened for
    writing, each with the exception that [open(path, 'w')] raises for
    it ([FileNotFoundError] in a directory that does not exist,
    [PermissionError] on a read-only file).  Once a file is open, a
    write fails only on a text that cannot be encoded. *)
Record World := {
  files : gmap str str;
  stdout : list str;
  denied : gmap str exn
}.

(** A command: it returns or raises, and leaves a new state. *)
Definition IO (A : Type) : Type := World -> result A * World.

Definition ret {A} (a : A) : IO A := fun w => (inr a, w).

Definition raise {A} (e : exn) : IO A := fun w => (inl e, w).

Definition bind {A B} (c : IO A) (k : A -> IO B) : IO B :=
  fun w =>
    match c w with
    | (inl e, w') => (inl e, w')
    | (inr a, w') => k a w'
    end.

Notation "x <- c ;; k" := (bind c (fun x => k))
  (at level 100, c at next level, right associativity).
Notation "c ;; k" := (bind c (fun _ => k))
  (at level 100, right associativity).

(** A pure computation that may raise, run as a command. *)
Definition lift {A} (r : result A) : IO A := fun w => (r, w).

(** [print(line)]: the standard output encodes as UTF-8 and raises on
    a text that holds a surrogate, printing nothing of the line. *)
Definition print (line : str) : IO unit :=
  fun w =>
    if PyStr.encodable line
    then (inr tt, {| files := files w; stdout := stdout w ++ [line];
                     denied := denied w |})
    else (inl UnicodeEncodeError, w).

(** [Path(p).exists()] *)
Definition path_exists (p : str) : IO bool :=
  fun w => (inr (match files w !! p with Some _ => true | None => false end), w).

(** [open(p, 'r').read()]: the read is in text mode, with universal
    newlines. *)
Definition read_text (p : str) : IO str :=
  fun w =>
    match files w !! p with
    | Some content => (inr (PyStr.universal_newlines content), w)
    | None => (inl FileNotFoundError, w)
    end.

(** [with open(p, 'w') as f: f.write(content)].  The open raises for a
    path of [denied]; once the file is open it has been emptied, and the
    write raises on a text that cannot be encoded. *)
Definition write_text (p content : str) : IO unit :=
  fun w =>
    match denied w !! p with
    | Some e => (inl e, w)
    | None =>
        if PyStr.encodable content
        then (inr tt, {| files := <[p := content]> (files w); stdout := stdout w;
                         denied := denied w |})
        else (inl UnicodeEncodeError,
              {| files := <[p := []]> (files w); stdout := stdout w;
                 denied := denied w |})
    end.

(** The exit status of the interpreter after the script body. *)
Definition exit_status {A} (r : result A) : Z :=
  match r with
  | inr _ => 0
  | inl (SystemExit code) => code
  | inl _ => 1
  end.

(* ================================================================== *)
(** ** scripts/generate_emoji_overlays.py *)
(* ================================================================== *)

Module Overlays.

Record EmojiData := {
  emoji : str;
  start : str;
  end_ : str;
  text : str
}.

Definition in_range (lo hi c : N) : bool := (lo <=? c)%N && (c <=? hi)%N.

(** The six character classes of [emoji_pattern]. *)
Definition emoji_class (c : N) : bool :=
  in_range 0x1F600 0x1F64F c || in_range 0x1F300 0x1F5FF c
  || in_range 0x1F680 0x1F6FF c || in_range 0x1F1E0 0x1F1FF c
  || in_range 0x2702 0x27B0 c || in_range 0x24C2 0x1F251 c.

(** [[0-9a-fA-F]] *)
Definition hex_class (c : N) : bool :=
  in_range 48 57 c || in_range 97 102 c || in_range 65 70 c.

(** [[89a-fA-F]] *)
Definition high_class (c : N) : bool :=
  in_range 56 57 c || in_range 97 102 c || in_range 65 70 c.

(** One iteration of the group of [emoji_pattern] at the head of [s]:
    the alternatives in their order, the first that matches giving the
    text captured. *)
Definition group_at (s : str) : option str :=
  match s with
  | c :: rest =>
      if emoji_class c then Some [c]
      else if (c =? 92)%N then
        match rest with
        | 117%N :: a :: b :: c4 :: d :: _ =>
            if hex_class a && hex_class b && hex_class c4 && hex_class d
            then Some (firstn 6 s)
            else None
        | 85%N :: a1 :: a2 :: a3 :: a4 :: a5 :: a6 :: a7 :: a8 :: _ =>
            if forallb hex_class [a1; a2; a3; a4; a5; a6; a7; a8]
            then Some (firstn 10 s)
            else None
        | _ => None
        end
      else None
  | [] => None
  end.

(** The alternative for surrogate halves, [\\ud[89a-fA-F][0-9a-fA-F]{2}],
    comes after [\\u[0-9a-fA-F]{4}] and matches only text that this one
    matches with the same extent; it is tried when the others failed. *)
Definition surrogate_at (s : str) : option str :=
  match s with
  | 92%N :: 117%N :: 100%N :: a :: b :: c :: _ =>
      if high_class a && hex_class b && hex_class c then Some (firstn 6 s) else None
  | _ => None
  end.

Definition token_at (s : str) : option str :=
  match group_at s with
  | Some t => Some t
  | None => surrogate_at s
  end.

(** The greedy repetition [( ... )+] from the head of [s]: the text of
    the last iteration and the number of characters matched; [skip]
    counts the characters of the current iteration still to pass. *)
Fixpoint run_go (s : str) (skip : nat) (last : option str) (n : nat)
  : option str * nat :=
  match s with
  | [] => (last, n)
  | _ :: s' =>
      match skip with
      | S k => run_go s' k last (S n)
      | O =>
          match token_at s with
          | Some tok => run_go s' (Nat.pred (length tok)) (Some tok) (S n)
          | None => (last, n)
          end
      end
  end.

(** [emoji_pattern.findall(text)]: the matches from left to right,
    without overlap; for a pattern with one group each match
    contributes the text of the group, which for a repeated group is
    that of its last iteration. *)
Fixpoint findall_go (s : str) (skip : nat) : list str :=
  match s with
  | [] => []
  | _ :: s' =>
      match skip with
      | S k => findall_go s' k
      | O =>
          match run_go s O None O with
          | (Some tok, n) => tok :: findall_go s' (Nat.pred n)
          | (None, _) => findall_go s' O
          end
      end
  end.

Definition findall (text : str) : list str := findall_go text O.

(** The body of the loop over the lines of the events section. *)
Definition parse_line (line : str) : list EmojiData :=
  if PyStr.startswith (lit "Dialogue:") line then
    let parts := PyStr.splitn (lit ",") 9 line in
    if (length parts <? 10)%nat then []
    else
      let start_time := nth 1 parts [] in
      let end_time := nth 2 parts [] in
      let text := nth 9 parts [] in
      (fun emoji => {| emoji := emoji; start := start_time;
                       end_ := end_time; text := text |}) <$> findall text
  else [].

(** The occurrences in the text of a markup file. *)
Definition parse_content (content : str) : list EmojiData :=
  let events_section :=
    if PyStr.contains (lit "[Events]") content
    then nth 1 (PyStr.split (lit "[Events]") content) []
    else [] in
  concat (parse_line <$> PyStr.split [10%N] events_section).

Definition parse_ass_file (ass_file : str) : IO (list EmojiData) :=
  content <- read_text ass_file ;;
  ret (parse_content content).

Section Generator.
Context `{PyBuiltins}.

Definition time_to_seconds (time_str : str) : result PyFloat.float :=
  let parts := PyStr.split (lit ":") time_str in
  let? hours := from_option inr (inl ValueError) (int_of_str (nth 0 parts [])) in
  let? p1 := from_option inr (inl IndexError) (parts !! 1%nat) in
  let? minutes := from_option inr (inl ValueError) (int_of_str p1) in
  let? p2 := from_option inr (inl IndexError) (parts !! 2%nat) in
  let? seconds := from_option inr (inl ValueError) (float_of_str p2) in
  let? whole := PyFloat.of_int (hours * 3600 + minutes * 60) in
  inr (PyFloat.add whole seconds).

(** The text appended to [overlays] for the occurrence of index [i]. *)
Definition overlay_clause (i : nat) (image_path : str)
           (start_sec end_sec : PyFloat.float) : str :=
  (lit "movie=" ++ image_path ++ lit ":loop=0,setpts=PTS-STARTPTS+"
   ++ float_str start_sec ++ lit "/TB[emoji" ++ PyStr.of_nat i ++ lit "];")
  ++ (lit "[v" ++ PyStr.of_nat i ++ lit "][emoji" ++ PyStr.of_nat i
      ++ lit "]overlay=x=W/2+100:y=H/2:enable='between(t,"
      ++ float_str start_sec ++ lit "," ++ float_str end_sec
      ++ lit ")'[v" ++ PyStr.of_nat (i + 1) ++ lit "]").

(** The glyph looked up for an occurrence: the decoded text, or the
    original one when decoding raises. *)
Definition decoded (data : EmojiData) : str :=
  default (emoji data) (unicode_escape (emoji data)).

Definition warning (emoji : str) : str :=
  lit "Warning: Emoji '" ++ emoji ++ lit "' not found in emoji map".

(** [for i, data in enumerate(emojis_data)], from index [i] on. *)
Fixpoint overlay_loop (emoji_map : gmap str str) (i : nat)
         (emojis_data : list EmojiData) (overlays : list str)
  : IO (list str) :=
  match emojis_data with
  | [] => ret overlays
  | data :: rest =>
      let emoji := decoded data in
      match emoji_map !! emoji with
      | None =>
          print (warning emoji) ;;
          overlay_loop emoji_map (S i) rest overlays
      | Some image_path =>
          start_sec <- lift (time_to_seconds (start data)) ;;
          end_sec <- lift (time_to_seconds (end_ data)) ;;
          overlay_loop emoji_map (S i) rest
            (overlays ++ [overlay_clause i image_path start_sec end_sec])
      end
  end.

(** [Path(emoji_images_dir) / "emoji_map.json"], for a directory name
    without a trailing separator. *)
Definition map_file_of (emoji_images_dir : str) : str :=
  emoji_images_dir ++ lit "/" ++ lit "emoji_map.json".

Definition generate_overlay_filter (emojis_data : list EmojiData)
           (emoji_images_dir : str) : IO str :=
  let map_file := map_file_of emoji_images_dir in
  present <- path_exists map_file ;;
  if negb present then
    print (lit "Error: " ++ map_file ++ lit " not found. Run emoji_to_image.py first!") ;;
    ret []
  else
    content <- read_text map_file ;;
    emoji_map <- lift (json_load content) ;;
    overlays <- overlay_loop emoji_map 0 emojis_data [] ;;
    match overlays with
    | [] => ret []
    | _ => ret (PyStr.join (lit ";") overlays)
    end.

Definition output_file_of (ass_file : str) : str :=
  PyStr.replace (lit ".ass") (lit "_emoji_filter.txt") ass_file.

(** The body run under [if __name__ == "__main__"]; [argv] is
    [sys.argv]. *)
Definition main (argv : list str) : IO unit :=
  if (length argv <? 2)%nat then
    print (lit "Usage: python3 generate_emoji_overlays.py <ass_file>") ;;
    raise (SystemExit 1)
  else
    let ass_file := nth 1 argv [] in
    print ([240; 376; 8220; 8222]%N ++ lit " Parsing: " ++ ass_file) ;;
    emojis_data <- parse_ass_file ass_file ;;
    print ([226; 339; 8220]%N ++ lit " Found "
           ++ PyStr.of_nat (length emojis_data) ++ lit " emoji instances") ;;
    match emojis_data with
    | _ :: _ =>
        filter_str <- generate_overlay_filter emojis_data (lit "emoji_images") ;;
        let output_file := output_file_of ass_file in
        write_text output_file filter_str ;;
        print ([226; 339; 8220]%N ++ lit " Overlay filter saved to: " ++ output_file)
    | [] =>
        print ([226; 353; 160]%N ++ lit " No emojis found in subtitle file")
    end.

End Generator.

End Overlays.

(* ================================================================== *)
(** ** A reference implementation of the builtins

    The examples below are evaluated with these functions.  Each one is
    the builtin on the inputs described in its comment and nothing is
    claimed about it on other inputs. *)
(* ================================================================== *)

Module Reference.

(** [str.lower] and [str.upper] on strings of ASCII code points. *)
Definition lower (s : str) : str :=
  (fun c => if Overlays.in_range 65 90 c then (c + 32)%N else c) <$> s.

Definition upper (s : str) : str :=
  (fun c => if Overlays.in_range 97 122 c then (c - 32)%N else c) <$> s.

Definition digit_val (c : N) : option Z :=
  if Overlays.in_range 48 57 c then Some (Z.of_N c - 48) else None.

(** The number written by a string of ASCII digits read after [acc]. *)
Fixpoint read_digits (s : str) (acc : Z) : option Z :=
  match s with
  | [] => Some acc
  | c :: s' =>
      match digit_val c with
      | Some d => read_digits s' (10 * acc + d)
      | None => None
      end
  end.

Definition unsigned (s : str) : option Z :=
  match s with
  | [] => None
  | _ => read_digits s 0
  end.

(** [int(s)] for an optional sign followed by ASCII digits. *)
Definition int_of (s : str) : option Z :=
  match s with
  | 45%N :: s' => Z.opp <$> unsigned s'
  | 43%N :: s' => unsigned s'
  | _ => unsigned s
  end.

(** [float(s)] for one or more ASCII digits, a point and one or more
    ASCII digits: the double nearest to the decimal number written. *)
Definition float_of (s : str) : option PyFloat.float :=
  match PyStr.split (lit ".") s with
  | [a; b] =>
      match unsigned a, unsigned b with
      | Some x, Some y =>
          Some (PyFloat.of_ratio (x * 10 ^ Z.of_nat (length b) + y)
                                 (10 ^ Z.of_nat (length b)))
      | _, _ => None
      end
  | _ => None
  end.

(** The exact value of a finite double, scaled by [10 ^ d] and rounded
    to the nearest integer, ties to even. *)
Definition scaled (m : positive) (e : Z) (d : Z) : Z :=
  let num := Zpos m * 10 ^ d * (if 0 <=? e then 2 ^ e else 1) in
  let den := if 0 <=? e then 1 else 2 ^ (- e) in
  let q := num / den in
  let r := num mod den in
  match 2 * r ?= den with
  | Lt => q
  | Gt => q + 1
  | Eq => if Z.even q then q else q + 1
  end.

Definition same_finite (x : PyFloat.float) (m : positive) (e : Z) : bool :=
  match x with
  | S754_finite _ m' e' => (m' =? m)%positive && (e' =? e)
  | _ => false
  end.

(** The fewest fractional digits, from [d] up to [d + fuel], with which
    the rounded decimal reads back as the same double. *)
Fixpoint shortest (fuel : nat) (d : nat) (m : positive) (e : Z) : nat * Z :=
  let n := scaled m e (Z.of_nat d) in
  match fuel with
  | O => (d, n)
  | S fuel' =>
      if same_finite (PyFloat.of_ratio n (10 ^ Z.of_nat d)) m e
      then (d, n)
      else shortest fuel' (S d) m e
  end.

Definition pad_left (width : nat) (s : str) : str :=
  repeat 48%N (width - length s) ++ s.

(** Positional notation with the fewest fractional digits, at least
    one, that read back as the same double; this is the [repr] of the
    doubles of the runs below. *)
Definition float_repr (x : PyFloat.float) : str :=
  match x with
  | S754_zero s => (if s then lit "-" else []) ++ lit "0.0"
  | S754_infinity s => (if s then lit "-" else []) ++ lit "inf"
  | S754_nan => lit "nan"
  | S754_finite s m e =>
      let '(d, n) := shortest 17 1 m e in
      let whole := n / 10 ^ Z.of_nat d in
      let frac := n mod 10 ^ Z.of_nat d in
      (if s then lit "-" else []) ++ PyStr.of_int whole ++ lit "."
      ++ pad_left d (PyStr.of_int frac)
  end.

(** The UTF-8 bytes of a code point; surrogates cannot be encoded. *)
Definition utf8 (c : N) : option (list N) :=
  if (c <? 0x80)%N then Some [c]
  else if (c <? 0x800)%N then
    Some [0xC0 + c / 64; 0x80 + c mod 64]%N
  else if Overlays.in_range 0xD800 0xDFFF c then None
  else if (c <? 0x10000)%N then
    Some [0xE0 + c / 4096; 0x80 + (c / 64) mod 64; 0x80 + c mod 64]%N
  else if (c <? 0x110000)%N then
    Some [0xF0 + c / 262144; 0x80 + (c / 4096) mod 64;
          0x80 + (c / 64) mod 64; 0x80 + c mod 64]%N
  else None.

Fixpoint encode (s : str) : option (list N) :=
  match s with
  | [] => Some []
  | c :: s' =>
      match utf8 c, encode s' with
      | Some b, Some bs => Some (b ++ bs)
      | _, _ => None
      end
  end.

Definition hex_val (c : N) : option N :=
  if Overlays.in_range 48 57 c then Some (c - 48)%N
  else if Overlays.in_range 97 102 c then Some (c - 87)%N
  else if Overlays.in_range 65 70 c then Some (c - 55)%N
  else None.

Fixpoint hex_number (s : list N) (acc : N) : option N :=
  match s with
  | [] => Some acc
  | c :: s' =>
      match hex_val c with
      | Some d => hex_number s' (16 * acc + d)
      | None => None
      end
  end.

(** Decoding of bytes by [unicode-escape]: a byte stands for the code
    point of the same number, [\uXXXX] and [\UXXXXXXXX] for the code
    point written; a backslash before anything else is outside this
    function. *)
Fixpoint decode (b : list N) : option str :=
  match b with
  | [] => Some []
  | 92%N :: 117%N :: h1 :: h2 :: h3 :: h4 :: rest =>
      match hex_number [h1; h2; h3; h4] 0, decode rest with
      | Some c, Some r => Some (c :: r)
      | _, _ => None
      end
  | 92%N :: 85%N :: h1 :: h2 :: h3 :: h4 :: h5 :: h6 :: h7 :: h8 :: rest =>
      match hex_number [h1; h2; h3; h4; h5; h6; h7; h8] 0, decode rest with
      | Some c, Some r => if (c <? 0x110000)%N then Some (c :: r) else None
      | _, _ => None
      end
  | 92%N :: _ => None
  | c :: rest => cons c <$> decode rest
  end.

(** [s.encode().decode('unicode-escape')] for a string whose
    backslashes all start a [\uXXXX] or [\UXXXXXXXX] escape. *)
Definition escape (s : str) : option str :=
  match encode s with
  | Some b => decode b
  | None => None
  end.

Definition is_space (c : N) : bool :=
  (c =? 32)%N || (c =? 9)%N || (c =? 10)%N || (c =? 13)%N.

Definition skip_ws (s : str) : str := PyStr.lstrip_chars [32; 9; 10; 13]%N s.

(** A JSON string without escapes, after its opening quote: the text
    and what follows the closing quote. *)
Fixpoint json_string (s : str) (acc : str) : option (str * str) :=
  match s with
  | [] => None
  | 34%N :: rest => Some (rev acc, rest)
  | 92%N :: _ => None
  | c :: rest => if (c <? 32)%N then None else json_string rest (c :: acc)
  end.

(** The members of a JSON object after its opening brace. *)
Fixpoint json_members (fuel : nat) (s : str) (m : gmap str str)
  : option (gmap str str) :=
  match fuel with
  | O => None
  | S fuel' =>
      match skip_ws s with
      | 34%N :: s1 =>
          match json_string s1 [] with
          | Some (k, s2) =>
              match skip_ws s2 with
              | 58%N :: s3 =>
                  match skip_ws s3 with
                  | 34%N :: s4 =>
                      match json_string s4 [] with
                      | Some (v, s5) =>
                          match skip_ws s5 with
                          | 44%N :: s6 => json_members fuel' s6 (<[k := v]> m)
                          | 125%N :: s6 =>
                              match skip_ws s6 with
                              | [] => Some (<[k := v]> m)
                              | _ => None
                              end
                          | _ => None
                          end
                      | None => None
                      end
                  | _ => None
                  end
              | _ => None
              end
          | None => None
          end
      | _ => None
      end
  end.

(** [json.load] of an object whose keys and values are strings written
    without escapes. *)
Definition json (content : str) : result (gmap str str) :=
  match skip_ws content with
  | 123%N :: s1 =>
      match skip_ws s1 with
      | 125%N :: s2 =>
          match skip_ws s2 with
          | [] => inr ∅
          | _ => inl JSONDecodeError
          end
      | _ => from_option inr (inl JSONDecodeError) (json_members (length s1) s1 ∅)
      end
  | _ => inl JSONDecodeError
  end.

#[export] Instance builtins : PyBuiltins := {|
  str_lower := lower;
  str_lower_nil := eq_refl;
  str_upper := upper;
  int_of_str := int_of;
  float_of_str := float_of;
  float_str := float_repr;
  unicode_escape := escape;
  json_load := json
|}.

End Reference.

(* ================================================================== *)
(** ** Notions used to state the properties *)
(* ================================================================== *)

Section Notions.
Context `{PyBuiltins}.
Import Transcribe.

(** The normalisation that [analyze_sentiment] applies to a word:
    lower case, then the punctuation removed from both ends. *)
Definition normalize (w : str) : str := PyStr.strip_chars PUNCT (str_lower w).

(** The normalisation in the words of the specification: lower case,
    then the trailing punctuation removed. *)
Definition normalize_trailing (w : str) : str :=
  PyStr.rstrip_chars PUNCT (str_lower w).

(** [analyze_sentiment] in the words of the specification, with the
    normalisation that removes trailing punctuation only. *)
Definition claimed_sentiment (self : AIEnhancer) (words_list : list str) : str :=
  let ws := normalize_trailing <$> words_list in
  let p := count_in (positive_words self) ws in
  let n := count_in (negative_words self) ws in
  if (1 <=? count_in (energetic_words self) ws)%nat then value ENERGETIC
  else if (n <? p)%nat && (1 <=? p)%nat then value POSITIVE
  else if (p <? n)%nat && (1 <=? n)%nat then value NEGATIVE
  else value NEUTRAL.

(** A markup timestamp converted to seconds and formatted back. *)
Definition round_trip (time_str : str) : result str :=
  let? seconds := Overlays.time_to_seconds time_str in
  format_timestamp_ass seconds.

(** The pattern families of the emoji assigner in their priority
    order, each with its glyph. *)
Definition families : list (list str * str) :=
  [(motion_patterns, DASH); (achievement_patterns, TROPHY);
   (learning_patterns, BULB); (social_patterns, BUSTS);
   (temporal_patterns, ALARM_CLOCK); (interrogative_patterns, THINKING)].

(** First matching family wins, the default glyph otherwise. *)
Definition first_family (word : str) : str :=
  match List.find (fun f => PyStr.any_in f.1 word) families with
  | Some f => f.2
  | None => SPARKLES
  end.

(** The words of a run in the order in which they are emitted. *)
Definition stream (segments_list : list Segment) : list Word :=
  concat (segment_words <$> segments_list).

(** The rotating colour style of the word of index [i]. *)
Definition rotating_style (i : nat) : str :=
  lit "Color" ++ PyStr.of_nat (i mod 6 + 1).

(** The style of an event as the specification words it. *)
Definition style_rule (ai : AIEnhancer) (i : nat) (word_lower : str) : str :=
  if mem word_lower (emphasis_words ai) then lit "Emphasis"
  else if PyStr.in_list word_lower celebration_words then lit "Celebration"
  else if mem word_lower (energetic_words ai) then lit "Energetic"
  else rotating_style i.

(** The emoji choice of the emitter with a plain lookup in the
    word-to-emoji map in place of the context-aware call. *)
Definition choose_emoji_lookup (ai : AIEnhancer) (word_lower segment_sentiment : str)
  : option str * bool :=
  let emoji := emoji_map ai !! word_lower in
  if negb (truthy emoji) && is_important_word ai word_lower
  then (Some (assign_smart_emoji ai word_lower segment_sentiment), true)
  else (emoji, false).

(** The row written for the word [w] of index [i]. *)
Definition event_of_word (ai : AIEnhancer) (i : nat) (w : Word) (ev : Event) : Prop :=
  ev_style ev = choose_style ai i (word_lower_of w)
  /\ (should_emphasize ai (word_lower_of w) = true ->
      exists inner,
        ev_text ev = SPARKLES ++ lit " " ++ inner ++ lit " " ++ SPARKLES).

(** The loop has written the rows of the words [done], in order. *)
Definition rows_of (ai : AIEnhancer) (done : list Word) (st : Loop) : Prop :=
  word_count st = length done
  /\ length (written st) = length done
  /\ forall i w ev, done !! i = Some w -> written st !! i = Some ev ->
                   event_of_word ai i w ev.

(** The lines that the overlay script prints on its way. *)
Definition usage_line : str :=
  lit "Usage: python3 generate_emoji_overlays.py <ass_file>".

Definition parsing_line (ass_file : str) : str :=
  [240; 376; 8220; 8222]%N ++ lit " Parsing: " ++ ass_file.

Definition found_line (n : nat) : str :=
  [226; 339; 8220]%N ++ lit " Found " ++ PyStr.of_nat n ++ lit " emoji instances".

Definition saved_line (output_file : str) : str :=
  [226; 339; 8220]%N ++ lit " Overlay filter saved to: " ++ output_file.

Definition error_line (emoji_images_dir : str) : str :=
  lit "Error: " ++ Overlays.map_file_of emoji_images_dir
  ++ lit " not found. Run emoji_to_image.py first!".

Definition no_emoji_line : str :=
  [226; 353; 160]%N ++ lit " No emojis found in subtitle file".

(** The state [w] after the lines [out] were printed. *)
Definition after_print (w : World) (out : list str) : World :=
  {| files := files w; stdout := stdout w ++ out; denied := denied w |}.

(** Parsing a markup file, then generating the filter. *)
Definition pipeline (ass_file emoji_images_dir : str) : IO str :=
  emojis_data <- Overlays.parse_ass_file ass_file ;;
  Overlays.generate_overlay_filter emojis_data emoji_images_dir.

End Notions.

(* ================================================================== *)
(** ** Concrete runs *)
(* ================================================================== *)

Module Scenario.

Definition lines (l : list str) : str := concat ((fun x => x ++ [10%N]) <$> l).

Definition header : list str :=
  lit <$> ["[Script Info]"; "Title: TikTok Captions"; "ScriptType: v4.00+";
           "WrapStyle: 0"; "PlayResX: 1080"; "PlayResY: 1920"; "";
           "[V4+ Styles]";
           "Format: Name, Fontname, Fontsize, PrimaryColour, SecondaryColour, OutlineColour, BackColour, Bold, Italic, Underline, StrikeOut, ScaleX, ScaleY, Spacing, Angle, BorderStyle, Outline, Shadow, Alignment, MarginL, MarginR, MarginV, Encoding";
           "Style: Yellow,Arial Black,70,&H0000FFFF,&H000000FF,&H00000000,&H00000000,-1,0,0,0,100,100,0,0,1,5,3,5,10,10,10,1";
           "Style: White,Arial Black,70,&H00FFFFFF,&H000000FF,&H00000000,&H00000000,-1,0,0,0,100,100,0,0,1,5,3,5,10,10,10,1";
           "Style: Cyan,Arial Black,70,&H00FFFF00,&H000000FF,&H00000000,&H00000000,-1,0,0,0,100,100,0,0,1,5,3,5,10,10,10,1";
           "";
           "[Events]";
           "Format: Layer, Start, End, Style, Name, MarginL, MarginR, MarginV, Effect, Text";
           "Dialogue: 0,0:00:00.00,0:00:00.50,Yellow,,0,0,0,,HELLO";
           "Dialogue: 0,0:00:00.50,0:00:01.00,White,,0,0,0,,WORLD"]%string.


(** The same file without its last row: no emoji occurs in it. *)
Definition plain_ass : str := lines header.

(** A markup file whose two rows write their glyphs as escapes. *)
Definition escaped_ass : str :=
  lines (header ++
         [lit "Dialogue: 0,0:00:00.50,0:00:01.00,White,,0,0,0,,HI \U0001F600";
          lit "Dialogue: 0,0:00:01.00,0:00:01.50,Cyan,,0,0,0,,TEST \U0001F525"]).

Definition map_file : str := lit "emoji_images/emoji_map.json".

(** The text [{"<fire>": "fire.png"}] of an image map with the fire
    glyph only. *)
Definition fire_map_json : str :=
  lit "{" ++ [34; 0x1F525; 34]%N ++ lit ": " ++ [34%N] ++ lit "fire.png" ++ [34%N]
  ++ lit "}".

(** The occurrence found in [test_ass]. *)
Definition fire_occurrence : Overlays.EmojiData := {|
  Overlays.emoji := [0x1F525]%N;
  Overlays.start := lit "0:00:01.00";
  Overlays.end_ := lit "0:00:01.50";
  Overlays.text := lit "TEST " ++ [0x1F525]%N
|}.

(** Two occurrences written as escapes: a grinning face, for which the
    map [fire_map_json] has no image, then fire, for which it has one. *)
Definition skipped_then_kept : list Overlays.EmojiData :=
  [{| Overlays.emoji := lit "\U0001F600";
      Overlays.start := lit "0:00:00.50";
      Overlays.end_ := lit "0:00:01.00";
      Overlays.text := lit "HI \U0001F600" |};
   {| Overlays.emoji := lit "\U0001F525";
      Overlays.start := lit "0:00:01.00";
      Overlays.end_ := lit "0:00:01.50";
      Overlays.text := lit "TEST \U0001F525" |}].


(** A file without emoji next to the fire image map. *)
Definition world_plain : World := {|
  files := <[lit "a.ass" := plain_ass]> (<[map_file := fire_map_json]> ∅);
  stdout := [];
  denied := ∅
|}.

(** The file with escapes next to the fire image map. *)
Definition world_escaped : World := {|
  files := <[lit "clip.ass" := escaped_ass]> (<[map_file := fire_map_json]> ∅);
  stdout := [];
  denied := ∅
|}.

(** The same two files in a state that holds another file and has
    printed a line already. *)
Definition world_escaped_busy : World := {|
  files := <[lit "notes.txt" := lit "draft"]> (files world_escaped);
  stdout := [lit "earlier output"];
  denied := ∅
|}.


(** What the generator returns for [skipped_then_kept]. *)
Definition lone_clause : str :=
  lit "movie=fire.png:loop=0,setpts=PTS-STARTPTS+1.0/TB[emoji1];[v1][emoji1]overlay=x=W/2+100:y=H/2:enable='between(t,1.0,1.5)'[v2]".

Definition seconds (n d : Z) : PyFloat.float := PyFloat.of_ratio n d.

(** One segment of four words, as the external model gives them. *)
Definition segments : list Transcribe.Segment :=
  [{| Transcribe.words := Some
        [{| Transcribe.word := lit " Never"; Transcribe.start := seconds 0 1;
            Transcribe.end_ := seconds 4 10 |};
         {| Transcribe.word := lit " party"; Transcribe.start := seconds 4 10;
            Transcribe.end_ := seconds 9 10 |};
         {| Transcribe.word := lit " fire!"; Transcribe.start := seconds 9 10;
            Transcribe.end_ := seconds 13 10 |};
         {| Transcribe.word := lit " hello"; Transcribe.start := seconds 13 10;
            Transcribe.end_ := seconds 17 10 |}] |}].

(** The row written for the first word, an emphasis word. *)
Definition never_event : Transcribe.Event := {|
  Transcribe.ev_start := lit "0:00:00.00";
  Transcribe.ev_end := lit "0:00:00.40";
  Transcribe.ev_style := lit "Emphasis";
  Transcribe.ev_text :=
    Transcribe.SPARKLES
    ++ lit " {\t(0, 150, \fscx125\fscy125)}NEVER {\t(0, 150, \fscx125\fscy125)} "
    ++ Transcribe.DASH ++ lit " " ++ Transcribe.SPARKLES
|}.

(** The row written for the fourth word. *)
Definition hello_event : Transcribe.Event := {|
  Transcribe.ev_start := lit "0:00:01.30";
  Transcribe.ev_end := lit "0:00:01.70";
  Transcribe.ev_style := lit "Color4";
  Transcribe.ev_text :=
    lit "{\t(0, 150, \fscx125\fscy125)}HELLO {\t(0, 150, \fscx125\fscy125)} "
    ++ Transcribe.SPARKLES
|}.

End Scenario.

(* ================================================================== *)
(** ** scripts/whisper_transcribe.py: the other functions *)
(* ================================================================== *)

Module Annotator.

Import Transcribe.

Definition DEFAULT_MODEL_SIZE : str := lit "base".

(** What [transcribe_to_srt] raises: an exception of the kinds above,
    or [RuntimeError]. *)
Inductive error :=
| Raised (e : exn)
| RuntimeError.

(** [f"{z:0{width}d}"]: zero padding to [width], the sign counting in
    the width. *)
Definition zero_padded (width : nat) (z : Z) : str :=
  let d := PyStr.digits (Z.abs_N z) in
  if z <? 0 then 45%N :: repeat 48%N (Nat.pred width - length d) ++ d
  else repeat 48%N (width - length d) ++ d.

(** [format_timestamp_srt] *)
Definition format_timestamp_srt (seconds : PyFloat.float) : result str :=
  let? h := PyFloat.floordiv seconds (PyFloat.of_Z 3600) in
  let? hours := PyFloat.to_int h in
  let? r := PyFloat.mod_ seconds (PyFloat.of_Z 3600) in
  let? m := PyFloat.floordiv r (PyFloat.of_Z 60) in
  let? minutes := PyFloat.to_int m in
  let? s := PyFloat.mod_ seconds (PyFloat.of_Z 60) in
  let? secs := PyFloat.to_int s in
  let? f := PyFloat.mod_ seconds (PyFloat.of_Z 1) in
  let? millis := PyFloat.to_int (PyFloat.mul f (PyFloat.of_Z 1000)) in
  inr (zero_padded 2 hours ++ lit ":" ++ zero_padded 2 minutes ++ lit ":"
       ++ zero_padded 2 secs ++ lit "," ++ zero_padded 3 millis).

(** The rows that [transcribe_to_srt] writes before the events. *)
Definition ass_header : str :=
  concat ((fun l => lit l ++ [10%N]) <$>
    ["[Script Info]"; "Title: TikTok Captions"; "ScriptType: v4.00+";
     "WrapStyle: 0"; "PlayResX: 1080"; "PlayResY: 1920"; "";
     "[V4+ Styles]";
     "Format: Name, Fontname, Fontsize, PrimaryColour, SecondaryColour, OutlineColour, BackColour, Bold, Italic, Underline, StrikeOut, ScaleX, ScaleY, Spacing, Angle, BorderStyle, Outline, Shadow, Alignment, MarginL, MarginR, MarginV, Encoding";
     "Style: Color1,Luckiest Guy,100,&H0000FFFF,&H000000FF,&H00000000,&H80000000,-1,0,0,0,100,100,0,0,1,6,3,5,10,10,0,1";
     "Style: Color2,Luckiest Guy,100,&H00FF00FF,&H000000FF,&H00000000,&H80000000,-1,0,0,0,100,100,0,0,1,6,3,5,10,10,0,1";
     "Style: Color3,Luckiest Guy,100,&H00FFFF00,&H000000FF,&H00000000,&H80000000,-1,0,0,0,100,100,0,0,1,6,3,5,10,10,0,1";
     "Style: Color4,Luckiest Guy,100,&H0000FF00,&H000000FF,&H00000000,&H80000000,-1,0,0,0,100,100,0,0,1,6,3,5,10,10,0,1";
     "Style: Color5,Luckiest Guy,100,&H00FF8000,&H000000FF,&H00000000,&H80000000,-1,0,0,0,100,100,0,0,1,6,3,5,10,10,0,1";
     "Style: Color6,Luckiest Guy,100,&H00FFFFFF,&H000000FF,&H00000000,&H80000000,-1,0,0,0,100,100,0,0,1,6,3,5,10,10,0,1";
     "Style: Emphasis,Luckiest Guy,110,&H0000FF00,&H000000FF,&H00000000,&H80000000,-1,0,0,0,100,100,0,0,1,7,4,5,10,10,0,1";
     "Style: Celebration,Luckiest Guy,105,&H00FF00FF,&H000000FF,&H00000000,&H80000000,-1,0,0,0,100,100,0,0,1,6,3,5,10,10,0,1";
     "Style: Energetic,Luckiest Guy,102,&H0000FFFF,&H000000FF,&H00000000,&H80000000,-1,0,0,0,100,100,0,0,1,6,3,5,10,10,0,1";
     "";
     "[Events]";
     "Format: Layer, Start, End, Style, Name, MarginL, MarginR, MarginV, Effect, Text"]%string).

(** The text of the subtitle file after the rows [events]. *)
Definition ass_text (events : list Event) : str :=
  ass_header ++ concat (dialogue_line <$> events).

Section Transcription.
Context `{PyBuiltins}.

(** The external speech model: loading it for a size name, and
    transcribing an audio file; [None] when the call raises.  The call
    returns the segments as a lazy sequence: [inr] its elements, or
    [inl] what the sequence raises when [list(segments)] consumes it.
    The language that the model reports is only printed. *)
Variable Model : Type.
Variable load_model : str -> option Model.
Variable run_model : Model -> str -> option (error + list Segment).

(** The exceptions that [except IOError] catches. *)
Definition is_oserror (e : exn) : bool :=
  match e with
  | FileNotFoundError | PermissionError | OSError => true
  | _ => false
  end.

(** What leaves the [try] block of lines 279 to 382 when [err] is
    raised inside it: an exception of the [IOError] family is replaced
    by a plain [IOError]. *)
Definition reraised (err : error) : error :=
  match err with
  | Raised e => if is_oserror e then Raised OSError else Raised e
  | RuntimeError => RuntimeError
  end.

(** The state after the subtitle file was opened and [rows] were
    written after the header, the file being closed when the [with]
    block is left. *)
Definition with_subtitles (ass_output : str) (rows : list Event) (w : World) : World :=
  {| files := <[ass_output := ass_text rows]> (files w);
     stdout := stdout w;
     denied := denied w |}.

(** [transcribe_to_srt], on the file system: the messages sent to the
    standard error stream and to the log are left out (that stream
    replaces what it cannot encode, and prints without raising).  The
    subtitle file is opened before the segments are consumed and the
    rows computed, so an exception raised after the open leaves the file
    with the header and the rows written before it. *)
Definition transcribe_to_srt (audio_path output_path model_size : str) (w : World)
  : (error + str) * World :=
  match files w !! audio_path with
  | None => (inl (Raised FileNotFoundError), w)
  | Some _ =>
      match load_model model_size with
      | None => (inl RuntimeError, w)
      | Some model =>
          match run_model model audio_path with
          | None => (inl RuntimeError, w)
          | Some segments =>
              let ass_output := PyStr.replace (lit ".srt") (lit ".ass") output_path in
              match denied w !! ass_output with
              | Some e => (inl (reraised (Raised e)), w)
              | None =>
                  match segments with
                  | inl err => (inl (reraised err), with_subtitles ass_output [] w)
                  | inr segments_list =>
                      let '(st, raised) :=
                        segments_loop init segments_list loop_start in
                      let w' := with_subtitles ass_output (written st) w in
                      match raised with
                      | Some e => (inl (reraised (Raised e)), w')
                      | None => (inr ass_output, w')
                      end
                  end
              end
          end
      end
  end.

(** The exit status that [main] gives to the outcome of
    [transcribe_to_srt]: the [except] clauses in their order, an
    exception being caught by the clause of its class or of a class
    above it. *)
Definition exit_code (r : error + str) : Z :=
  match r with
  | inr _ => 0
  | inl (Raised (SystemExit code)) => code
  | inl (Raised FileNotFoundError) => 2
  | inl (Raised ValueError) => 3
  | inl (Raised JSONDecodeError) => 3
  | inl (Raised UnicodeEncodeError) => 3
  | inl RuntimeError => 4
  | inl _ => 5
  end.

(** [main]: the exit status and the state left; [argv] is [sys.argv]. *)
Definition main (argv : list str) (w : World) : Z * World :=
  if (length argv <? 3)%nat then (1, w)
  else
    let audio_file := nth 1 argv [] in
    let output_file := nth 2 argv [] in
    let model_size :=
      if (3 <? length argv)%nat then nth 3 argv [] else DEFAULT_MODEL_SIZE in
    let '(r, w') := transcribe_to_srt audio_file output_file model_size w in
    (exit_code r, w').

End Transcription.

End Annotator.

(* ================================================================== *)
(** ** Further notions *)
(* ================================================================== *)

Section FurtherNotions.
Context `{PyBuiltins}.

(** The positions, counted from [i], of the occurrences whose glyph has
    an image. *)
Fixpoint surviving_from (emoji_map : gmap str str) (i : nat)
         (emojis_data : list Overlays.EmojiData) : list nat :=
  match emojis_data with
  | [] => []
  | data :: rest =>
      if has_key (Overlays.decoded data) emoji_map
      then i :: surviving_from emoji_map (S i) rest
      else surviving_from emoji_map (S i) rest
  end.

(** The clause of the occurrence at position [i] of [emojis_data]. *)
Definition clause_at (emoji_map : gmap str str) (emojis_data : list Overlays.EmojiData)
           (i : nat) (clause : str) : Prop :=
  exists data image_path start_sec end_sec,
    emojis_data !! i = Some data
    /\ emoji_map !! Overlays.decoded data = Some image_path
    /\ Overlays.time_to_seconds (Overlays.start data) = inr start_sec
    /\ Overlays.time_to_seconds (Overlays.end_ data) = inr end_sec
    /\ clause = Overlays.overlay_clause i image_path start_sec end_sec.

(** The occurrence that the parser builds for a glyph found in the text
    of a row. *)
Definition occurrence_in (ev : Transcribe.Event) (glyph : str) : Overlays.EmojiData := {|
  Overlays.emoji := glyph;
  Overlays.start := Transcribe.ev_start ev;
  Overlays.end_ := Transcribe.ev_end ev;
  Overlays.text := Transcribe.ev_text ev
|}.

(** A row as [split('\n')] gives it back: without its line end. *)
Definition row_text (ev : Transcribe.Event) : str :=
  lit "Dialogue: 0," ++ Transcribe.ev_start ev ++ lit "," ++ Transcribe.ev_end ev
  ++ lit "," ++ Transcribe.ev_style ev ++ lit ",,0,0,0,," ++ Transcribe.ev_text ev.

(** The three fields before the text hold no comma. *)
Definition comma_free (ev : Transcribe.Event) : Prop :=
  (44%N ∉ Transcribe.ev_start ev) /\ (44%N ∉ Transcribe.ev_end ev)
  /\ (44%N ∉ Transcribe.ev_style ev).

(** Equality of two strings, character by character. *)
Fixpoint same_text (a b : str) : bool :=
  match a, b with
  | [], [] => true
  | x :: a', y :: b' => N.eqb x y && same_text a' b'
  | _, _ => false
  end.

(** The markup timestamp [H:MM:SS.CC] of a number of centiseconds. *)
Definition stamp (cs : Z) : str :=
  PyStr.of_int (cs / 360000) ++ lit ":" ++ PyStr.of_int_02d ((cs / 6000) mod 60)
  ++ lit ":" ++ PyStr.of_int_02d ((cs / 100) mod 60) ++ lit "."
  ++ PyStr.of_int_02d (cs mod 100).

(** The SubRip timestamp [HH:MM:SS,mmm] of a number of milliseconds. *)
Definition stamp_srt (ms : Z) : str :=
  Annotator.zero_padded 2 (ms / 3600000) ++ lit ":"
  ++ Annotator.zero_padded 2 ((ms / 60000) mod 60) ++ lit ":"
  ++ Annotator.zero_padded 2 ((ms / 1000) mod 60) ++ lit ","
  ++ Annotator.zero_padded 3 (ms mod 1000).

(** Both formatters are exact on the whole number [n] of seconds. *)
Definition whole_second_ok (n : nat) : bool :=
  match Transcribe.format_timestamp_ass (PyFloat.of_Z (Z.of_nat n)),
        Annotator.format_timestamp_srt (PyFloat.of_Z (Z.of_nat n)) with
  | inr a, inr b =>
      same_text a (stamp (100 * Z.of_nat n))
      && same_text b (stamp_srt (1000 * Z.of_nat n))
  | _, _ => false
  end.

(** The timestamp of [cs] centiseconds comes back from the round trip
    unchanged or one centisecond early. *)
Definition comes_back_near (cs : nat) : bool :=
  match round_trip (stamp (Z.of_nat cs)) with
  | inr t => same_text t (stamp (Z.of_nat cs)) || same_text t (stamp (Z.of_nat cs - 1))
  | inl _ => false
  end.

(** The characters of the timestamps and of the style names: digits,
    letters, and the signs [-], [.] and [:]. *)
Definition plain_char (c : N) : bool :=
  Overlays.in_range 48 57 c || Overlays.in_range 65 90 c
  || Overlays.in_range 97 122 c || (c =? 45)%N || (c =? 46)%N || (c =? 58)%N.

(** The header of the subtitle file before its [[Events]] marker, and
    what it holds after it. *)
Definition header_before : str :=
  nth 0 (PyStr.split (lit "[Events]") Annotator.ass_header) [].

Definition header_after : str :=
  nth 1 (PyStr.split (lit "[Events]") Annotator.ass_header) [].

(** A float that is not a number or is infinite. *)
Definition not_finite (x : PyFloat.float) : Prop :=
  match x with
  | S754_nan | S754_infinity _ => True
  | _ => False
  end.

(** The shapes of the text that one iteration of the pattern group
    matches: one character of the classes, or an escape of 6 or of 10
    characters. *)
Definition token_shape (tok : str) : Prop :=
  (exists c, tok = [c] /\ Overlays.emoji_class c = true)
  \/ (length tok = 6%nat /\ PyStr.startswith [92; 117]%N tok = true)
  \/ (length tok = 10%nat /\ PyStr.startswith [92; 85]%N tok = true).

End FurtherNotions.

(* ================================================================== *)
(** ** Further concrete runs *)
(* ================================================================== *)

Module Cases.

Import Scenario.

(** The image map that [fire_map_json] holds. *)
Definition fire_map : gmap str str := py_dict [([0x1F525]%N, lit "fire.png")].

(** The file with escapes alone: no image map next to it. *)
Definition world_no_map : World := {|
  files := <[lit "clip.ass" := escaped_ass]> ∅;
  stdout := [];
  denied := ∅
|}.

(** The file with escapes next to an image map that is not valid JSON. *)
Definition world_bad_map : World := {|
  files := <[lit "clip.ass" := escaped_ass]> (<[map_file := lit "{"]> ∅);
  stdout := [];
  denied := ∅
|}.

(** The file with escapes under a name without extension, next to the
    fire image map. *)
Definition world_bare_name : World := {|
  files := <[lit "clip" := escaped_ass]> (<[map_file := fire_map_json]> ∅);
  stdout := [];
  denied := ∅
|}.

(** The state that the loop over [skipped_then_kept] leaves. *)
Definition world_after_skip : World := {|
  files := files world_escaped;
  stdout := [Overlays.warning [0x1F600]%N];
  denied := ∅
|}.

(** A word whose start time is not a number. *)
Definition timeless_word : Transcribe.Word := {|
  Transcribe.word := lit " oops";
  Transcribe.start := S754_nan;
  Transcribe.end_ := seconds 9 10
|}.

(** One segment whose second word has no start time. *)
Definition broken_segments : list Transcribe.Segment :=
  [{| Transcribe.words := Some
        [{| Transcribe.word := lit " Never"; Transcribe.start := seconds 0 1;
            Transcribe.end_ := seconds 4 10 |};
         timeless_word;
         {| Transcribe.word := lit " hello"; Transcribe.start := seconds 13 10;
            Transcribe.end_ := seconds 17 10 |}] |}].

(** A stand-in for the speech model: it loads for the default size
    only, and returns the same segments for every audio file. *)
Definition stub_load (size : str) : option unit :=
  if PyStr.eqb size Annotator.DEFAULT_MODEL_SIZE then Some tt else None.

Definition stub_run (segments : Annotator.error + list Transcribe.Segment)
           (model : unit) (audio_path : str)
  : option (Annotator.error + list Transcribe.Segment) :=
  Some segments.

(** A state with one audio file. *)
Definition world_audio : World := {|
  files := <[lit "talk.wav" := lit "RIFF"]> ∅;
  stdout := [];
  denied := ∅
|}.

(** The same state, the subtitle file being read-only. *)
Definition world_audio_locked : World := {|
  files := <[lit "talk.wav" := lit "RIFF"]> ∅;
  stdout := [];
  denied := {[lit "out.ass" := PermissionError]}
|}.

(** One segment whose first word carries the fire glyph U+1F525. *)
Definition glyph_segments : list Transcribe.Segment :=
  [{| Transcribe.words := Some
        [{| Transcribe.word := lit " wow" ++ [0x1F525]%N;
            Transcribe.start := seconds 0 1; Transcribe.end_ := seconds 5 10 |};
         {| Transcribe.word := lit " hello"; Transcribe.start := seconds 5 10;
            Transcribe.end_ := seconds 9 10 |}] |}].

(** The row written for the first word of [glyph_segments]. *)
Definition glyph_event : Transcribe.Event := {|
  Transcribe.ev_start := lit "0:00:00.00";
  Transcribe.ev_end := lit "0:00:00.50";
  Transcribe.ev_style := lit "Color1";
  Transcribe.ev_text := lit "{\t(0, 150, \fscx125\fscy125)}WOW" ++ [0x1F525]%N
|}.

(** A markup file whose row writes the first half of a surrogate pair
    alone, as an escape. *)
Definition surrogate_ass : str :=
  lines (header ++
         [lit "Dialogue: 0,0:00:00.50,0:00:01.00,White,,0,0,0,,HI \ud83d"]).

(** The occurrence found in [surrogate_ass]. *)
Definition surrogate_occurrence : Overlays.EmojiData := {|
  Overlays.emoji := lit "\ud83d";
  Overlays.start := lit "0:00:00.50";
  Overlays.end_ := lit "0:00:01.00";
  Overlays.text := lit "HI \ud83d"
|}.

(** That file next to the fire image map. *)
Definition world_surrogate : World := {|
  files := <[lit "lone.ass" := surrogate_ass]> (<[map_file := fire_map_json]> ∅);
  stdout := [];
  denied := ∅
|}.

End Cases.

(* ================================================================== *)
(** ** Segment counts *)
(* ================================================================== *)

(** The sum of the per-sentiment segment counts. *)
Definition stats_total (stats : gmap str nat) : nat :=
  map_fold (fun _ n acc => (n + acc)%nat) 0%nat stats.

(** The segments that have words. *)
Definition worded (segments_list : list Transcribe.Segment) : list Transcribe.Segment :=
  List.filter (fun segment => match Transcribe.segment_words segment with
                              | [] => false
                              | _ => true
                              end) segments_list.

(** The four sentiment labels. *)
Definition labels : list str :=
  Transcribe.value <$> [Transcribe.POSITIVE; Transcribe.NEGATIVE;
                        Transcribe.ENERGETIC; Transcribe.NEUTRAL].

(* ================================================================== *)
(** * Properties *)
(* ================================================================== *)

(** ** The lexical classifier *)

Section Classifier.
Context `{PyBuiltins}.
Import Transcribe.

Lemma normalize_nil : normalize [] = [].
Proof. unfold normalize. rewrite str_lower_nil. reflexivity. Qed.

Lemma mem_true x s : mem x s = true <-> x ∈ s.
Proof. unfold mem. apply bool_decide_eq_true. Qed.

Lemma mem_false x s : mem x s = false <-> x ∉ s.
Proof. unfold mem. apply bool_decide_eq_false. Qed.

Lemma eqb_nil_true (w : str) : PyStr.eqb w [] = true <-> w = [].
Proof. unfold PyStr.eqb. apply bool_decide_eq_true. Qed.

(** Dropping the empty words before normalising does not change a
    count, for a lexicon that does not hold the empty string. *)
Lemma count_in_words_lower lexicon (words_list : list str) :
  [] ∉ lexicon ->
  count_in lexicon (words_lower_of words_list)
  = count_in lexicon (normalize <$> words_list).
Proof.
  intros Hnil. unfold count_in, words_lower_of.
  induction words_list as [|w l IH]; [reflexivity|].
  cbn [List.filter fmap list_fmap].
  destruct (PyStr.eqb w []) eqn:E; cbn [negb].
  - apply eqb_nil_true in E. subst w. rewrite normalize_nil.
    apply mem_false in Hnil. rewrite Hnil. exact IH.
  - cbn [List.map List.filter]. fold (normalize w).
    destruct (mem (normalize w) lexicon); cbn [length]; [f_equal|]; exact IH.
Qed.

Lemma count_in_pos lexicon (ws : list str) :
  (1 <= count_in lexicon ws)%nat <-> exists w, In w ws /\ w ∈ lexicon.
Proof.
  unfold count_in. induction ws as [|w l IH]; cbn [List.filter].
  - cbn. split; [lia | intros (w & [] & _)].
  - destruct (mem w lexicon) eqn:E.
    + cbn [length]. split; [|lia]. intros _. exists w. split; [left; reflexivity|].
      now apply mem_true.
    + rewrite IH. split.
      * intros (x & Hx & Hm). exists x. split; [right; exact Hx | exact Hm].
      * intros (x & [->|Hx] & Hm).
        -- apply mem_false in E. contradiction.
        -- exists x. split; assumption.
Qed.

End Classifier.

Section ClassifierClaims.
Context `{PyBuiltins}.
Import Transcribe.

Lemma init_lexicons_no_empty_word :
  ([] ∉ positive_words init) /\ ([] ∉ negative_words init)
  /\ ([] ∉ energetic_words init).
Proof. repeat split; apply mem_false; vm_compute; reflexivity. Qed.

(** C1 (as amended).  For every list of words, with each word
    normalised by lower-casing and removing the characters [.,!?;:]
    from both of its ends, [analyze_sentiment] returns "energetic" when
    at least one normalised word is in the energetic lexicon, whatever
    the other counts; else "positive" when the positive count exceeds
    the negative count and is at least one; else "negative" in the
    symmetric case; else "neutral", which covers the tie and the empty
    list. *)
Theorem analyze_sentiment_priority (words_list : list str) :
  let ws := normalize <$> words_list in
  let p := count_in (positive_words init) ws in
  let n := count_in (negative_words init) ws in
  ((exists w, In w ws /\ w ∈ energetic_words init) ->
     analyze_sentiment init words_list = value ENERGETIC)
  /\ ((forall w, In w ws -> w ∉ energetic_words init) ->
      ((n < p)%nat /\ (1 <= p)%nat ->
         analyze_sentiment init words_list = value POSITIVE)
      /\ ((p < n)%nat /\ (1 <= n)%nat ->
            analyze_sentiment init words_list = value NEGATIVE)
      /\ (p = n -> analyze_sentiment init words_list = value NEUTRAL))
  /\ analyze_sentiment init [] = value NEUTRAL.
Proof.
  intros ws p n.
  destruct init_lexicons_no_empty_word as (Hp & Hn & He).
  assert (Hform : analyze_sentiment init words_list =
    if (1 <=? count_in (energetic_words init) ws)%nat then value ENERGETIC
    else if (n <? p)%nat && (1 <=? p)%nat then value POSITIVE
    else if (p <? n)%nat && (1 <=? n)%nat then value NEGATIVE
    else value NEUTRAL).
  { unfold analyze_sentiment. destruct words_list as [|w l]; [reflexivity|].
    rewrite !count_in_words_lower by assumption. reflexivity. }
  split; [|split; [|reflexivity]].
  - intros Hex. apply count_in_pos in Hex. rewrite Hform.
    destruct (Nat.leb_spec 1 (count_in (energetic_words init) ws)); [reflexivity|lia].
  - intros Hno.
    assert (He0 : (1 <=? count_in (energetic_words init) ws)%nat = false).
    { apply Nat.leb_gt. destruct (count_in (energetic_words init) ws) eqn:E; [lia|].
      assert (Hc : (1 <= count_in (energetic_words init) ws)%nat) by lia.
      apply count_in_pos in Hc. destruct Hc as (w & Hw & Hm).
      exfalso. exact (Hno w Hw Hm). }
    rewrite Hform, He0. repeat split.
    + intros [Hlt Hge]. apply Nat.ltb_lt in Hlt. apply Nat.leb_le in Hge.
      rewrite Hlt, Hge. reflexivity.
    + intros [Hlt Hge].
      assert (E1 : (n <? p)%nat = false) by (apply Nat.ltb_ge; lia).
      apply Nat.ltb_lt in Hlt. apply Nat.leb_le in Hge.
      rewrite E1, Hlt, Hge. reflexivity.
    + intros Heq.
      assert (E1 : (n <? p)%nat = false) by (apply Nat.ltb_ge; lia).
      assert (E2 : (p <? n)%nat = false) by (apply Nat.ltb_ge; lia).
      rewrite E1, E2. reflexivity.
Qed.

(** C4.  [is_important_word] is false for the empty word and for a
    word of more than 100 code points; else false for a filler word,
    whatever its length; else true for an emphasis word; else true for
    a word of one of the three sentiment sets; else true exactly when
    the word has at least 5 code points. *)
Theorem is_important_word_rule (self : AIEnhancer) (word : str) :
  (word = [] \/ (100 < length word)%nat -> is_important_word self word = false)
  /\ (word ∈ filler_words self -> is_important_word self word = false)
  /\ (word <> [] -> (length word <= 100)%nat -> word ∉ filler_words self ->
      (word ∈ emphasis_words self -> is_important_word self word = true)
      /\ (word ∉ emphasis_words self ->
          (word ∈ positive_words self \/ word ∈ negative_words self
           \/ word ∈ energetic_words self -> is_important_word self word = true)
          /\ (word ∉ positive_words self -> word ∉ negative_words self ->
              word ∉ energetic_words self ->
              ((5 <= length word)%nat -> is_important_word self word = true)
              /\ ((length word < 5)%nat -> is_important_word self word = false)))).
Proof.
  unfold is_important_word, MAX_WORD_LENGTH.
  split; [|split].
  - intros [->|Hlen]; [reflexivity|].
    apply Nat.ltb_lt in Hlen. rewrite Hlen, orb_true_r. reflexivity.
  - intros Hf. apply mem_true in Hf. rewrite Hf.
    destruct (PyStr.eqb word [] || (100 <? length word)%nat); reflexivity.
  - intros Hne Hlen Hnf.
    assert (E0 : PyStr.eqb word [] = false).
    { destruct (PyStr.eqb word []) eqn:E; [|reflexivity].
      apply eqb_nil_true in E. contradiction. }
    assert (E1 : (100 <? length word)%nat = false) by (apply Nat.ltb_ge; lia).
    apply mem_false in Hnf. rewrite E0, E1, Hnf. cbn [orb].
    split.
    + intros He. apply mem_true in He. rewrite He. reflexivity.
    + intros He. apply mem_false in He. rewrite He. split.
      * intros Hs.
        assert (E : mem word (positive_words self) || mem word (negative_words self)
                    || mem word (energetic_words self) = true).
        { destruct Hs as [Hs|[Hs|Hs]]; apply mem_true in Hs; rewrite Hs;
            rewrite ?orb_true_r; reflexivity. }
        rewrite E. reflexivity.
      * intros H1 H2 H3. apply mem_false in H1, H2, H3. rewrite H1, H2, H3.
        cbn [orb]. split; intros Hl.
        -- apply Nat.leb_le in Hl. rewrite Hl. reflexivity.
        -- assert (E : (5 <=? length word)%nat = false) by (apply Nat.leb_gt; lia).
           rewrite E. reflexivity.
Qed.

End ClassifierClaims.

(** ** The emoji assigner *)

Section AssignerClaims.
Context `{PyBuiltins}.
Import Transcribe.

Lemma init_emoji_values_nonempty (w e : str) :
  emoji_map init !! w = Some e -> e <> [].
Proof.
  assert (Hall : map_Forall (fun _ (v : str) => v <> []) (emoji_map init)).
  { apply (bool_decide_unpack _). vm_compute. exact I. }
  intros Hw. exact (Hall w e Hw).
Qed.

Lemma eqb_true (a b : str) : PyStr.eqb a b = true <-> a = b.
Proof. unfold PyStr.eqb. apply bool_decide_eq_true. Qed.

Lemma eqb_false (a b : str) : PyStr.eqb a b = false <-> a <> b.
Proof. unfold PyStr.eqb. apply bool_decide_eq_false. Qed.

Lemma first_family_nonempty (word : str) : first_family word <> [].
Proof.
  unfold first_family, families. cbn [List.find fst snd].
  repeat (match goal with |- context [if ?b then _ else _] => destruct b end;
          cbn [snd]; try discriminate).
Qed.

(** X27.  For every word and sentiment label, [assign_smart_emoji] of
    the enhancer returns a non-empty string, found in this order: the
    entry of the word in the word-to-emoji map; else the literal of the
    sentiment (positive: [SPARKLES], energetic: [FIRE], negative:
    [THOUGHT_BALLOON]); else the literal of the first pattern family,
    in the order motion, achievement, learning, social, temporal,
    interrogative, of which a pattern occurs in the word; else
    [SPARKLES].  The literals are the strings that the source file
    stores, of three or four characters each, not the emoji that they
    were meant to be. *)
Theorem assign_smart_emoji_order (word sentiment : str) :
  let r := assign_smart_emoji init word sentiment in
  r <> []
  /\ (forall e, emoji_map init !! word = Some e -> r = e)
  /\ (emoji_map init !! word = None ->
      (sentiment = lit "positive" -> r = SPARKLES)
      /\ (sentiment = lit "energetic" -> r = FIRE)
      /\ (sentiment = lit "negative" -> r = THOUGHT_BALLOON)
      /\ (sentiment <> lit "positive" -> sentiment <> lit "energetic" ->
          sentiment <> lit "negative" -> r = first_family word)).
Proof.
  intros r.
  assert (Hrule : emoji_map init !! word = None ->
      (sentiment = lit "positive" -> r = SPARKLES)
      /\ (sentiment = lit "energetic" -> r = FIRE)
      /\ (sentiment = lit "negative" -> r = THOUGHT_BALLOON)
      /\ (sentiment <> lit "positive" -> sentiment <> lit "energetic" ->
          sentiment <> lit "negative" -> r = first_family word)).
  { intros Hnone. subst r. unfold assign_smart_emoji. rewrite Hnone.
    repeat split.
    - intros ->. reflexivity.
    - intros ->. reflexivity.
    - intros ->. reflexivity.
    - intros H1 H2 H3. apply eqb_false in H1, H2, H3. rewrite H1, H2, H3.
      unfold first_family, families. cbn [List.find fst snd].
      repeat (match goal with |- context [PyStr.any_in ?l word] =>
                destruct (PyStr.any_in l word); cbn [snd]; try reflexivity end). }
  split; [|split; [|exact Hrule]].
  - destruct (emoji_map init !! word) as [e|] eqn:E.
    + subst r. unfold assign_smart_emoji. rewrite E.
      exact (init_emoji_values_nonempty word e E).
    + destruct (Hrule eq_refl) as (Hp & He & Hn & Hf).
      destruct (decide (sentiment = lit "positive")) as [E1|E1];
        [rewrite (Hp E1); discriminate|].
      destruct (decide (sentiment = lit "energetic")) as [E2|E2];
        [rewrite (He E2); discriminate|].
      destruct (decide (sentiment = lit "negative")) as [E3|E3];
        [rewrite (Hn E3); discriminate|].
      rewrite (Hf E1 E2 E3). apply first_family_nonempty.
  - intros e E. subst r. unfold assign_smart_emoji. rewrite E. reflexivity.
Qed.

(** C10.  With no preceding words the context-aware lookup is the
    plain lookup in the word-to-emoji map, whatever the following
    words; the emitter, which calls it with no context, chooses the
    emoji of every word as it would with the plain lookup, and a word
    outside the map gets nothing from the two context rules. *)
Theorem contextual_emoji_is_lookup (ai : AIEnhancer) (word : str)
        (next_words : option (list str)) (segment_sentiment : str) :
  get_contextual_emoji ai word None next_words = emoji_map ai !! word
  /\ get_contextual_emoji ai word (Some []) next_words = emoji_map ai !! word
  /\ choose_emoji ai word segment_sentiment
     = choose_emoji_lookup ai word segment_sentiment
  /\ (emoji_map ai !! word = None ->
      get_contextual_emoji ai word None None = None).
Proof.
  assert (Hnone : forall nw, get_contextual_emoji ai word None nw = emoji_map ai !! word).
  { intros nw. unfold get_contextual_emoji.
    destruct (emoji_map ai !! word); reflexivity. }
  repeat split.
  - apply Hnone.
  - unfold get_contextual_emoji. destruct (emoji_map ai !! word); reflexivity.
  - unfold choose_emoji, choose_emoji_lookup. rewrite Hnone. reflexivity.
  - intros E. rewrite Hnone. exact E.
Qed.

End AssignerClaims.

(** ** The annotation emitter *)

Section EmitterClaims.
Context `{PyBuiltins}.
Import Transcribe.
Variable ai : AIEnhancer.

Lemma rotation (i : nat) : nth (i mod 6) color_styles [] = rotating_style i.
Proof.
  unfold rotating_style.
  assert (Hlt : (i mod 6 < 6)%nat) by (apply Nat.mod_upper_bound; lia).
  destruct (i mod 6)%nat as [|[|[|[|[|[|k]]]]]]; try reflexivity. lia.
Qed.

Lemma choose_style_rule (i : nat) (word_lower : str) :
  choose_style ai i word_lower = style_rule ai i word_lower.
Proof.
  unfold choose_style, style_rule, should_emphasize. rewrite rotation. reflexivity.
Qed.

Lemma rows_of_start : rows_of ai [] loop_start.
Proof.
  split; [reflexivity|]. split; [reflexivity|].
  intros i w ev Hw. rewrite lookup_nil in Hw. discriminate Hw.
Qed.

Lemma process_word_rows (sentiment : str) (st st' : Loop) (w : Word) (done : list Word) :
  rows_of ai done st ->
  process_word ai sentiment st w = inr st' ->
  rows_of ai (done ++ [w]) st'.
Proof.
  intros (Hc & Hl & Hrows). unfold process_word.
  destruct (format_timestamp_ass (start w)) as [e|t1]; [discriminate|].
  destruct (format_timestamp_ass (end_ w)) as [e|t2]; [discriminate|].
  cbn [rbind].
  destruct (choose_emoji ai _ sentiment) as [emoji smart].
  cbv beta iota zeta. destruct (PyStr.encodable _); [|discriminate].
  intros [= <-]. unfold rows_of. cbn [word_count written].
  split; [|split].
  - rewrite length_app. cbn [length]. lia.
  - rewrite !length_app. cbn [length]. lia.
  - intros i w0 ev0 Hd Hw.
    destruct (decide (i < length done)%nat) as [Hi|Hi].
    + rewrite lookup_app_l in Hd by exact Hi.
      rewrite lookup_app_l in Hw by lia.
      exact (Hrows i w0 ev0 Hd Hw).
    + rewrite lookup_app_r in Hd by lia.
      rewrite lookup_app_r in Hw by lia.
      rewrite Hl in Hw.
      destruct (i - length done)%nat as [|k] eqn:Ek; [|destruct k; discriminate Hd].
      cbv [lookup list_lookup] in Hd, Hw. injection Hd as <-. injection Hw as <-.
      assert (Ei : i = word_count st) by lia. subst i.
      split; cbn [ev_style ev_text]; [reflexivity|].
      unfold word_lower_of. intros Hem. rewrite Hem. eexists. reflexivity.
Qed.

Lemma words_loop_rows (sentiment : str) (ws : list Word) :
  forall (st : Loop) (done : list Word),
    rows_of ai done st ->
    exists pre suf,
      ws = pre ++ suf
      /\ rows_of ai (done ++ pre) (words_loop ai sentiment ws st).1
      /\ ((words_loop ai sentiment ws st).2 = None -> suf = []).
Proof.
  induction ws as [|w ws IH]; intros st done Hst.
  - exists [], []. rewrite (app_nil_r done).
    split; [reflexivity|]. split; [exact Hst|]. intros _. reflexivity.
  - cbn [words_loop].
    destruct (process_word ai sentiment st w) as [e|st'] eqn:E.
    + exists [], (w :: ws). rewrite (app_nil_r done). cbn [fst snd].
      split; [reflexivity|]. split; [exact Hst | discriminate].
    + destruct (IH st' (done ++ [w]) (process_word_rows _ _ _ _ _ Hst E))
        as (pre & suf & -> & Hrows & Hend).
      exists (w :: pre), suf. split; [reflexivity|].
      rewrite <- app_assoc in Hrows. split; assumption.
Qed.

Lemma segments_loop_rows (segments_list : list Segment) :
  forall (st : Loop) (done : list Word),
    rows_of ai done st ->
    exists pre suf,
      stream segments_list = pre ++ suf
      /\ rows_of ai (done ++ pre) (segments_loop ai segments_list st).1
      /\ ((segments_loop ai segments_list st).2 = None -> suf = []).
Proof.
  induction segments_list as [|segment rest IH]; intros st done Hst.
  - exists [], []. rewrite (app_nil_r done).
    split; [reflexivity|]. split; [exact Hst|]. intros _. reflexivity.
  - unfold stream. rewrite fmap_cons. cbn [segments_loop concat].
    fold (stream rest).
    destruct (segment_words segment) as [|w0 ws0] eqn:Ews.
    + cbn [app]. apply IH. exact Hst.
    + set (sentiment := analyze_sentiment ai (word <$> w0 :: ws0)).
      set (st1 := {| word_count := word_count st;
                     emoji_count := emoji_count st;
                     important_word_count := important_word_count st;
                     sentiment_stats := _;
                     written := written st |}).
      assert (Hst1 : rows_of ai done st1) by exact Hst.
      destruct (words_loop_rows sentiment (w0 :: ws0) st1 done Hst1)
        as (pre & suf & Eq & Hrows & Hend).
      destruct (words_loop ai sentiment (w0 :: ws0) st1) as [st2 [e|]] eqn:E.
      * exists pre, (suf ++ stream rest). cbn [fst snd] in *.
        rewrite Eq, <- app_assoc. split; [reflexivity|].
        split; [exact Hrows | discriminate].
      * cbn [fst snd] in *. rewrite (Hend eq_refl), app_nil_r in Eq. subst pre.
        destruct (IH st2 (done ++ w0 :: ws0) Hrows) as (pre' & suf' & Eq' & Hr' & He').
        exists ((w0 :: ws0) ++ pre'), suf'. rewrite Eq'.
        rewrite <- !app_assoc in *. split; [reflexivity|]. split; assumption.
Qed.

(** X28.  For every word stream, the event of index [i] (from 0) is
    the one of the word of index [i], and its style is the rotating
    colour style [Color{(i mod 6)+1}] unless overridden, in this order:
    "Emphasis", with the text between two copies of the literal
    [SPARKLES] as the source file stores it, when the normalised word is
    an emphasis word; else "Celebration" when it is a celebration word;
    else "Energetic" when it is in the energetic lexicon.  A run that
    ends without an exception emits one event for each word. *)
Theorem event_style_rule (segments_list : list Segment) (i : nat) (ev : Event) :
  emitted ai segments_list !! i = Some ev ->
  exists w,
    stream segments_list !! i = Some w
    /\ ev_style ev = style_rule ai i (word_lower_of w)
    /\ (word_lower_of w ∈ emphasis_words ai ->
        ev_style ev = lit "Emphasis"
        /\ exists inner,
             ev_text ev = SPARKLES ++ lit " " ++ inner ++ lit " " ++ SPARKLES)
    /\ ((segments_loop ai segments_list loop_start).2 = None ->
        length (emitted ai segments_list) = length (stream segments_list)).
Proof.
  intros Hev. unfold emitted in *.
  destruct (segments_loop_rows segments_list loop_start [] rows_of_start)
    as (pre & suf & Eq & (Hc & Hl & Hrows) & Hend).
  cbn [app] in *.
  assert (Hi : (i < length pre)%nat).
  { rewrite <- Hl. apply lookup_lt_Some in Hev. exact Hev. }
  destruct (lookup_lt_is_Some_2 pre i Hi) as [w Hw].
  exists w. destruct (Hrows i w ev Hw Hev) as [Hstyle Htext].
  split; [rewrite Eq; rewrite lookup_app_l by exact Hi; exact Hw|].
  split; [rewrite Hstyle; apply choose_style_rule|].
  split.
  - intros Hem. apply mem_true in Hem. split.
    + rewrite Hstyle. unfold choose_style, should_emphasize. rewrite Hem. reflexivity.
    + apply Htext. exact Hem.
  - intros Hnone. rewrite (Hend Hnone), app_nil_r in Eq. rewrite Eq. exact Hl.
Qed.

End EmitterClaims.

(** ** The overlay filter generator *)

Section GeneratorClaims.
Context `{PyBuiltins}.
Import Overlays.

(** *** Texts that can be printed *)

Lemma encodable_app (a b : str) :
  PyStr.encodable (a ++ b) = PyStr.encodable a && PyStr.encodable b.
Proof. apply forallb_app. Qed.

Lemma encodable_uint_digits (d : Decimal.uint) :
  PyStr.encodable (PyStr.uint_digits d) = true.
Proof.
  unfold PyStr.encodable.
  induction d; cbn [PyStr.uint_digits forallb]; rewrite ?IHd; reflexivity.
Qed.

Lemma encodable_of_nat (n : nat) : PyStr.encodable (PyStr.of_nat n) = true.
Proof.
  unfold PyStr.of_nat, PyStr.digits.
  destruct (N.of_nat n); [reflexivity | apply encodable_uint_digits].
Qed.

Lemma encodable_replace_go (old new : str) (s : str) :
  PyStr.encodable new = true ->
  forall skip, PyStr.encodable s = true ->
               PyStr.encodable (PyStr.replace_go old new s skip) = true.
Proof.
  intros Hnew. induction s as [|c s IH]; intros skip Hs; [reflexivity|].
  assert (Hc : PyStr.encodable [c] = true /\ PyStr.encodable s = true).
  { change (c :: s) with ([c] ++ s) in Hs. rewrite encodable_app in Hs.
    apply andb_prop in Hs. exact Hs. }
  destruct Hc as [Hc Hs']. cbn [PyStr.replace_go]. destruct skip as [|k].
  - destruct (PyStr.startswith old (c :: s)).
    + rewrite encodable_app, Hnew. apply IH. exact Hs'.
    + change (c :: PyStr.replace_go old new s 0)
        with ([c] ++ PyStr.replace_go old new s 0).
      rewrite encodable_app, Hc. apply IH. exact Hs'.
  - apply IH. exact Hs'.
Qed.

Lemma encodable_output_file (ass_file : str) :
  PyStr.encodable ass_file = true ->
  PyStr.encodable (output_file_of ass_file) = true.
Proof.
  intros Hs. unfold output_file_of, PyStr.replace.
  apply encodable_replace_go; [reflexivity | exact Hs].
Qed.

Lemma encodable_parsing_line (ass_file : str) :
  PyStr.encodable (parsing_line ass_file) = PyStr.encodable ass_file.
Proof. unfold parsing_line. rewrite !encodable_app. reflexivity. Qed.

Lemma encodable_found_line (n : nat) : PyStr.encodable (found_line n) = true.
Proof.
  unfold found_line. rewrite !encodable_app, encodable_of_nat. reflexivity.
Qed.

Lemma encodable_saved_line (output_file : str) :
  PyStr.encodable (saved_line output_file) = PyStr.encodable output_file.
Proof. unfold saved_line. rewrite !encodable_app. reflexivity. Qed.

Lemma encodable_warning (emoji : str) :
  PyStr.encodable (warning emoji) = PyStr.encodable emoji.
Proof.
  unfold warning. rewrite !encodable_app.
  change (PyStr.encodable (lit "Warning: Emoji '")) with true.
  change (PyStr.encodable (lit "' not found in emoji map")) with true.
  cbn [andb]. apply andb_true_r.
Qed.

Lemma encodable_error_line (dir : str) :
  PyStr.encodable (error_line dir) = PyStr.encodable dir.
Proof.
  unfold error_line, map_file_of. rewrite !encodable_app.
  change (PyStr.encodable (lit "Error: ")) with true.
  change (PyStr.encodable (lit "/")) with true.
  change (PyStr.encodable (lit "emoji_map.json")) with true.
  change (PyStr.encodable (lit " not found. Run emoji_to_image.py first!")) with true.
  cbn [andb]. rewrite !andb_true_r. reflexivity.
Qed.

(** *** Printing and writing *)

Lemma print_ok (line : str) (w : World) :
  PyStr.encodable line = true -> print line w = (inr tt, after_print w [line]).
Proof. intros E. unfold print. rewrite E. reflexivity. Qed.

Lemma print_fails (line : str) (w : World) :
  PyStr.encodable line = false -> print line w = (inl UnicodeEncodeError, w).
Proof. intros E. unfold print. rewrite E. reflexivity. Qed.

Lemma after_print_nil (w : World) : after_print w [] = w.
Proof. destruct w. unfold after_print. cbn. rewrite app_nil_r. reflexivity. Qed.

Lemma after_print_app (w : World) (a b : list str) :
  after_print (after_print w a) b = after_print w (a ++ b).
Proof. unfold after_print. cbn. rewrite app_assoc. reflexivity. Qed.

Lemma write_text_ok (p content : str) (w : World) :
  denied w !! p = None ->
  PyStr.encodable content = true ->
  write_text p content w
  = (inr tt, {| files := <[p := content]> (files w); stdout := stdout w;
                denied := denied w |}).
Proof. intros Hd He. unfold write_text. rewrite Hd, He. reflexivity. Qed.

Lemma write_text_denied (p content : str) (w : World) (e : exn) :
  denied w !! p = Some e -> write_text p content w = (inl e, w).
Proof. intros Hd. unfold write_text. rewrite Hd. reflexivity. Qed.

(** *** The loop over the occurrences *)

(** An occurrence whose glyph has no image and can be printed is passed
    with a warning. *)
Lemma overlay_loop_absent (emoji_map : gmap str str) (i : nat) (data : EmojiData)
      (rest : list EmojiData) (overlays : list str) (w : World) :
  emoji_map !! decoded data = None ->
  PyStr.encodable (decoded data) = true ->
  overlay_loop emoji_map i (data :: rest) overlays w
  = overlay_loop emoji_map (S i) rest overlays
      (after_print w [warning (decoded data)]).
Proof.
  intros Habs Henc. cbn [overlay_loop]. rewrite Habs. unfold bind.
  rewrite print_ok by (rewrite encodable_warning; exact Henc). reflexivity.
Qed.

(** An occurrence whose glyph has no image and cannot be printed ends
    the loop: the warning is printed outside the [try] block. *)
Lemma overlay_loop_unprintable (emoji_map : gmap str str) (i : nat) (data : EmojiData)
      (rest : list EmojiData) (overlays : list str) (w : World) :
  emoji_map !! decoded data = None ->
  PyStr.encodable (decoded data) = false ->
  overlay_loop emoji_map i (data :: rest) overlays w = (inl UnicodeEncodeError, w).
Proof.
  intros Habs Henc. cbn [overlay_loop]. rewrite Habs. unfold bind.
  rewrite print_fails by (rewrite encodable_warning; exact Henc). reflexivity.
Qed.


(** The loop touches no file, and what it returns and prints does not
    depend on the state it starts from. *)
Lemma overlay_loop_shape (emoji_map : gmap str str) (emojis_data : list EmojiData) :
  forall (i : nat) (overlays : list str),
  exists r out, forall w,
    overlay_loop emoji_map i emojis_data overlays w = (r, after_print w out).
Proof.
  induction emojis_data as [|data rest IH]; intros i overlays.
  - exists (inr overlays), []. intros w. rewrite after_print_nil. reflexivity.
  - destruct (emoji_map !! decoded data) as [image_path|] eqn:E.
    + cbn [overlay_loop]. rewrite E. unfold bind, lift.
      destruct (time_to_seconds (start data)) as [e|t1].
      { exists (inl e), []. intros w. rewrite after_print_nil. reflexivity. }
      destruct (time_to_seconds (end_ data)) as [e|t2].
      { exists (inl e), []. intros w. rewrite after_print_nil. reflexivity. }
      apply IH.
    + destruct (PyStr.encodable (decoded data)) eqn:Henc.
      * destruct (IH (S i) overlays) as (r & out & Hr).
        exists r, (warning (decoded data) :: out). intros w.
        rewrite overlay_loop_absent by assumption. rewrite Hr, after_print_app.
        reflexivity.
      * exists (inl UnicodeEncodeError), []. intros w.
        rewrite overlay_loop_unprintable by assumption.
        rewrite after_print_nil. reflexivity.
Qed.

(** *** The generator *)

Lemma generate_without_map (emojis_data : list EmojiData) (dir : str) (w : World) :
  files w !! map_file_of dir = None ->
  generate_overlay_filter emojis_data dir w
  = if PyStr.encodable dir then (inr [], after_print w [error_line dir])
    else (inl UnicodeEncodeError, w).
Proof.
  intros E. unfold generate_overlay_filter, bind, path_exists.
  rewrite E. cbn [negb]. fold (error_line dir).
  destruct (PyStr.encodable dir) eqn:Henc.
  - rewrite print_ok by (rewrite encodable_error_line; exact Henc). reflexivity.
  - rewrite print_fails by (rewrite encodable_error_line; exact Henc). reflexivity.
Qed.

Lemma generate_with_map (emojis_data : list EmojiData) (dir content : str) (w : World) :
  files w !! map_file_of dir = Some content ->
  generate_overlay_filter emojis_data dir w
  = match json_load (PyStr.universal_newlines content) with
    | inl e => (inl e, w)
    | inr emoji_map =>
        match overlay_loop emoji_map 0 emojis_data [] w with
        | (inl e, w') => (inl e, w')
        | (inr [], w') => (inr [], w')
        | (inr overlays, w') => (inr (PyStr.join (lit ";") overlays), w')
        end
    end.
Proof.
  intros E. unfold generate_overlay_filter, bind, path_exists.
  rewrite E. cbn [negb]. unfold read_text. rewrite E. unfold lift.
  destruct (json_load (PyStr.universal_newlines content)) as [e|emoji_map];
    [reflexivity|].
  destruct (overlay_loop emoji_map 0 emojis_data [] w) as [[e|[|o os]] w'];
    reflexivity.
Qed.

(** The generator writes no file; what it returns and prints is a
    function of the occurrences and of the content of the map file. *)
Lemma generate_shape (emojis_data : list EmojiData) (dir : str) (m : option str) :
  exists r out, forall w,
    files w !! map_file_of dir = m ->
    generate_overlay_filter emojis_data dir w = (r, after_print w out).
Proof.
  destruct m as [content|].
  - destruct (json_load (PyStr.universal_newlines content)) as [e|emoji_map] eqn:Ej.
    + exists (inl e), []. intros w E.
      rewrite (generate_with_map _ _ _ _ E), Ej, after_print_nil. reflexivity.
    + destruct (overlay_loop_shape emoji_map emojis_data 0 []) as (r & out & Hr).
      exists (match r with
              | inl e => inl e
              | inr [] => inr []
              | inr overlays => inr (PyStr.join (lit ";") overlays)
              end), out.
      intros w E. rewrite (generate_with_map _ _ _ _ E), Ej, Hr.
      destruct r as [e|[|o os]]; reflexivity.
  - destruct (PyStr.encodable dir) eqn:Henc.
    + exists (inr []), [error_line dir]. intros w E.
      rewrite (generate_without_map _ _ _ E), Henc. reflexivity.
    + exists (inl UnicodeEncodeError), []. intros w E.
      rewrite (generate_without_map _ _ _ E), Henc, after_print_nil. reflexivity.
Qed.

Lemma generate_agrees (emojis_data : list EmojiData) (dir : str) (w1 w2 : World) :
  files w1 !! map_file_of dir = files w2 !! map_file_of dir ->
  (generate_overlay_filter emojis_data dir w1).1
  = (generate_overlay_filter emojis_data dir w2).1.
Proof.
  intros Hmap.
  destruct (generate_shape emojis_data dir (files w2 !! map_file_of dir))
    as (r & out & Hr).
  rewrite (Hr w1 Hmap), (Hr w2 eq_refl). reflexivity.
Qed.

Lemma startswith_ass_app (c : N) (stem : str) :
  PyStr.startswith (lit ".ass") (c :: stem) = false ->
  PyStr.startswith (lit ".ass") ((c :: stem) ++ lit ".ass") = false.
Proof.
  change (lit ".ass") with [46; 97; 115; 115]%N.
  destruct stem as [|x [|y [|z stem']]]; cbn [PyStr.startswith app];
    intros Hs;
    repeat (match goal with
            | |- context [N.eqb ?a ?b] => destruct (N.eqb a b) eqn:?
            end; cbn [andb]); try reflexivity; try discriminate.
Qed.

Lemma replace_ass_suffix (stem : str) :
  PyStr.contains (lit ".ass") stem = false ->
  PyStr.replace (lit ".ass") (lit "_emoji_filter.txt") (stem ++ lit ".ass")
  = stem ++ lit "_emoji_filter.txt".
Proof.
  unfold PyStr.replace. induction stem as [|c stem IH]; intros Hc.
  - reflexivity.
  - cbn [PyStr.contains] in Hc. apply orb_false_elim in Hc as [Hs Hc].
    cbn [app PyStr.replace_go].
    change (PyStr.startswith (lit ".ass") (c :: stem ++ lit ".ass"))
      with (PyStr.startswith (lit ".ass") ((c :: stem) ++ lit ".ass")).
    rewrite (startswith_ass_app c stem Hs). f_equal. apply IH. exact Hc.
Qed.

(** *** The script *)

Lemma main_without_file (argv : list str) (w : World) :
  (length argv < 2)%nat ->
  main argv w = (inl (SystemExit 1), after_print w [usage_line]).
Proof.
  intros Hlen. unfold main. apply Nat.ltb_lt in Hlen. rewrite Hlen.
  unfold bind. rewrite print_ok by reflexivity. reflexivity.
Qed.

(** A file name that cannot be printed ends the run at its first
    message. *)
Lemma main_unprintable (prog ass_file : str) (rest : list str) (w : World) :
  PyStr.encodable ass_file = false ->
  main (prog :: ass_file :: rest) w = (inl UnicodeEncodeError, w).
Proof.
  intros Henc. unfold main. cbn [length Nat.ltb Nat.leb nth].
  unfold bind at 1. fold (parsing_line ass_file).
  rewrite print_fails by (rewrite encodable_parsing_line; exact Henc). reflexivity.
Qed.

Lemma main_missing_file (prog ass_file : str) (rest : list str) (w : World) :
  PyStr.encodable ass_file = true ->
  files w !! ass_file = None ->
  main (prog :: ass_file :: rest) w
  = (inl FileNotFoundError, after_print w [parsing_line ass_file]).
Proof.
  intros Henc Hfile. unfold main. cbn [length Nat.ltb Nat.leb nth].
  unfold bind at 1. fold (parsing_line ass_file).
  rewrite print_ok by (rewrite encodable_parsing_line; exact Henc).
  unfold bind at 1. unfold parse_ass_file, bind at 1, read_text.
  cbn [after_print files]. rewrite Hfile. reflexivity.
Qed.

(** The run of the script on a readable markup file with a name that
    can be printed, step by step. *)
Lemma main_with_file (prog ass_file : str) (rest : list str) (content : str) (w : World) :
  PyStr.encodable ass_file = true ->
  files w !! ass_file = Some content ->
  main (prog :: ass_file :: rest) w
  = let emojis_data := parse_content (PyStr.universal_newlines content) in
    let w1 := after_print w [parsing_line ass_file; found_line (length emojis_data)] in
    match emojis_data with
    | [] => (inr tt, after_print w1 [no_emoji_line])
    | _ :: _ =>
        match generate_overlay_filter emojis_data (lit "emoji_images") w1 with
        | (inl e, w2) => (inl e, w2)
        | (inr filter_str, w2) =>
            match write_text (output_file_of ass_file) filter_str w2 with
            | (inl e, w3) => (inl e, w3)
            | (inr _, w3) =>
                (inr tt, after_print w3 [saved_line (output_file_of ass_file)])
            end
        end
    end.
Proof.
  intros Henc Hfile. unfold main. cbn [length Nat.ltb Nat.leb nth].
  unfold bind at 1. fold (parsing_line ass_file).
  rewrite print_ok by (rewrite encodable_parsing_line; exact Henc).
  unfold bind at 1. unfold parse_ass_file, bind at 1, read_text.
  cbn [after_print files]. rewrite Hfile. unfold ret at 1.
  fold (after_print w [parsing_line ass_file]).
  set (emojis_data := parse_content (PyStr.universal_newlines content)).
  unfold bind at 1. fold (found_line (length emojis_data)).
  rewrite print_ok by apply encodable_found_line.
  rewrite after_print_app. cbn [app]. cbv zeta.
  destruct emojis_data as [|data more].
  - fold no_emoji_line. rewrite print_ok by reflexivity. reflexivity.
  - unfold bind at 1.
    destruct (generate_overlay_filter (data :: more) (lit "emoji_images") _)
      as [[e|filter_str] w2]; [reflexivity|].
    unfold bind at 1.
    destruct (write_text (output_file_of ass_file) filter_str w2) as [[e|[]] w3];
      [reflexivity|].
    apply (print_ok (saved_line (output_file_of ass_file))).
    rewrite encodable_saved_line. apply encodable_output_file. exact Henc.
Qed.

(** The same run, when the generator returns [filter_str]: what is
    printed before the write does not depend on the state. *)
Lemma main_generated (prog ass_file : str) (rest : list str) (content filter_str : str)
      (w : World) :
  PyStr.encodable ass_file = true ->
  files w !! ass_file = Some content ->
  parse_content (PyStr.universal_newlines content) <> [] ->
  (generate_overlay_filter (parse_content (PyStr.universal_newlines content))
                           (lit "emoji_images") w).1 = inr filter_str ->
  exists out,
    generate_overlay_filter (parse_content (PyStr.universal_newlines content))
                            (lit "emoji_images") w
    = (inr filter_str, after_print w out)
    /\ main (prog :: ass_file :: rest) w
       = let w2 := after_print w
                     ([parsing_line ass_file;
                       found_line (length (parse_content
                                             (PyStr.universal_newlines content)))]
                      ++ out) in
         match write_text (output_file_of ass_file) filter_str w2 with
         | (inl e, w3) => (inl e, w3)
         | (inr _, w3) =>
             (inr tt, after_print w3 [saved_line (output_file_of ass_file)])
         end.
Proof.
  intros Henc Hfile Hne Hgen.
  rewrite (main_with_file _ _ _ _ _ Henc Hfile). cbv zeta.
  destruct (parse_content (PyStr.universal_newlines content)) as [|data more] eqn:Ep;
    [contradiction|].
  destruct (generate_shape (data :: more) (lit "emoji_images")
                           (files w !! map_file_of (lit "emoji_images")))
    as (r & out & Hr).
  rewrite (Hr w eq_refl) in Hgen |- *. cbn [fst] in Hgen. subst r.
  exists out. split; [reflexivity|].
  rewrite (Hr (after_print w _) eq_refl), after_print_app. reflexivity.
Qed.


(** C8 (as amended).  With no file argument the script prints its
    usage line and exits with code 1, reading and writing nothing.  With
    an argument [<stem>.ass] that can be printed and in whose stem
    [.ass] does not occur, for a markup file in which at least one emoji
    occurrence is found: when the filter generation returns a filter
    that can be encoded and the file [<stem>_emoji_filter.txt] can be
    opened for writing, the run writes the filter string to that file;
    for a markup file in which no occurrence is found it writes no file
    and ends normally. *)
Theorem cli_writes_filter_file :
  (forall (argv : list str) (w : World),
      (length argv < 2)%nat ->
      (main argv w).1 = inl (SystemExit 1)
      /\ exit_status (main argv w).1 = 1
      /\ files (main argv w).2 = files w
      /\ stdout (main argv w).2 = stdout w ++ [usage_line])
  /\ (forall (prog stem : str) (rest : list str) (content filter_str : str)
             (w : World),
        PyStr.contains (lit ".ass") stem = false ->
        PyStr.encodable stem = true ->
        files w !! (stem ++ lit ".ass") = Some content ->
        parse_content (PyStr.universal_newlines content) <> [] ->
        (generate_overlay_filter (parse_content (PyStr.universal_newlines content))
                                 (lit "emoji_images") w).1
        = inr filter_str ->
        PyStr.encodable filter_str = true ->
        denied w !! (stem ++ lit "_emoji_filter.txt") = None ->
        (main (prog :: (stem ++ lit ".ass") :: rest) w).1 = inr tt
        /\ exit_status (main (prog :: (stem ++ lit ".ass") :: rest) w).1 = 0
        /\ files (main (prog :: (stem ++ lit ".ass") :: rest) w).2
           = <[stem ++ lit "_emoji_filter.txt" := filter_str]> (files w))
  /\ (forall (prog ass_file : str) (rest : list str) (content : str) (w : World),
        PyStr.encodable ass_file = true ->
        files w !! ass_file = Some content ->
        parse_content (PyStr.universal_newlines content) = [] ->
        (main (prog :: ass_file :: rest) w).1 = inr tt
        /\ exit_status (main (prog :: ass_file :: rest) w).1 = 0
        /\ files (main (prog :: ass_file :: rest) w).2 = files w).
Proof.
  split; [|split].
  - intros argv w Hlen. rewrite (main_without_file _ _ Hlen). repeat split.
  - intros prog stem rest content filter_str w Hstem Henc Hfile Hne Hgen Hfilter Hopen.
    assert (Hname : PyStr.encodable (stem ++ lit ".ass") = true)
      by (rewrite encodable_app, Henc; reflexivity).
    destruct (main_generated prog _ rest _ _ w Hname Hfile Hne Hgen)
      as (out & _ & ->).
    cbv zeta. unfold output_file_of. rewrite (replace_ass_suffix stem Hstem).
    rewrite write_text_ok by (try exact Hfilter; exact Hopen).
    repeat split.
  - intros prog ass_file rest content w Henc Hfile Hparse.
    rewrite (main_with_file _ _ _ _ _ Henc Hfile). rewrite Hparse.
    repeat split.
Qed.

Lemma pipeline_steps (ass_file dir : str) (w : World) :
  pipeline ass_file dir w
  = match files w !! ass_file with
    | Some content =>
        generate_overlay_filter (parse_content (PyStr.universal_newlines content)) dir w
    | None => (inl FileNotFoundError, w)
    end.
Proof.
  unfold pipeline, parse_ass_file, read_text, bind, ret.
  destruct (files w !! ass_file); reflexivity.
Qed.

(** C9.  The filter that parsing followed by generation returns is a
    function of the content of the markup file and of the content of the
    image map file: two runs in states that agree on these two files
    return the same result, whatever else the states hold. *)
Theorem pipeline_deterministic (ass_file dir : str) (w1 w2 : World) :
  files w1 !! ass_file = files w2 !! ass_file ->
  files w1 !! map_file_of dir = files w2 !! map_file_of dir ->
  (pipeline ass_file dir w1).1 = (pipeline ass_file dir w2).1.
Proof.
  intros Hass Hmap. rewrite !pipeline_steps, <- Hass.
  destruct (files w1 !! ass_file) as [content|]; [|reflexivity].
  apply generate_agrees. exact Hmap.
Qed.

End GeneratorClaims.


(** ** The properties on concrete runs *)

Section Runs.
Import Transcribe Overlays Scenario.
Existing Instance Reference.builtins.

(** C1, as the specification words it, fails: a word with leading
    punctuation is normalised to a word of the energetic lexicon by the
    code, and is left outside every lexicon when only its trailing
    punctuation is removed. *)
Lemma sentiment_leading_punctuation :
  analyze_sentiment init [lit "!fire"] = value ENERGETIC
  /\ claimed_sentiment init [lit "!fire"] = value NEUTRAL
  /\ analyze_sentiment init [lit "!fire"] <> claimed_sentiment init [lit "!fire"].
Proof.
  split; [vm_compute; reflexivity|]. split; [vm_compute; reflexivity|].
  vm_compute. discriminate.
Qed.

Lemma analyze_sentiment_priority_witness :
  analyze_sentiment init (lit <$> ["I"; "love"; "this"; "so"; "much"]%string)
  = value POSITIVE.
Proof.
  apply (analyze_sentiment_priority
           (lit <$> ["I"; "love"; "this"; "so"; "much"]%string)).
  - intros w Hw. apply mem_false.
    cbn [fmap list_fmap In] in Hw.
    destruct Hw as [<-|[<-|[<-|[<-|[<-|[]]]]]]; vm_compute; reflexivity.
  - split; [apply Nat.ltb_lt | apply Nat.leb_le]; vm_compute; reflexivity.
Defined.

Lemma is_important_word_rule_witness :
  is_important_word init (lit "the") = false
  /\ is_important_word init (lit "hello") = true.
Proof.
  split.
  - apply (proj1 (proj2 (is_important_word_rule init (lit "the")))).
    apply mem_true. vm_compute. reflexivity.
  - assert (Hne : lit "hello" <> []) by discriminate.
    assert (Hlen : (length (lit "hello") <= 100)%nat) by (vm_compute; lia).
    assert (Hf : lit "hello" ∉ filler_words init)
      by (apply mem_false; vm_compute; reflexivity).
    assert (He : lit "hello" ∉ emphasis_words init)
      by (apply mem_false; vm_compute; reflexivity).
    assert (Hp : lit "hello" ∉ positive_words init)
      by (apply mem_false; vm_compute; reflexivity).
    assert (Hn : lit "hello" ∉ negative_words init)
      by (apply mem_false; vm_compute; reflexivity).
    assert (Hg : lit "hello" ∉ energetic_words init)
      by (apply mem_false; vm_compute; reflexivity).
    destruct (proj2 (proj2 (is_important_word_rule init (lit "hello"))) Hne Hlen Hf)
      as [_ Hrest].
    destruct (Hrest He) as [_ Hlast].
    apply (Hlast Hp Hn Hg). vm_compute. lia.
Defined.

(** C5 on the word [running]: the glyph returned is the string of
    four characters U+00F0 U+0178 U+2019 U+00A8 that the source file
    stores, the UTF-8 bytes F0 9F 92 A8 of the dash glyph U+1F4A8 read
    as Windows-1252 text, and not that glyph; the pattern of the overlay
    script finds no emoji in it.  The default glyph is the string of
    three characters stored for the sparkles U+2728. *)
Lemma assigned_glyph_is_not_an_emoji :
  assign_smart_emoji init (lit "running") (lit "neutral") = [240; 376; 8217; 168]%N
  /\ assign_smart_emoji init (lit "running") (lit "neutral") <> [0x1F4A8]%N
  /\ Reference.utf8 0x1F4A8 = Some [0xF0; 0x9F; 0x92; 0xA8]%N
  /\ findall (assign_smart_emoji init (lit "running") (lit "neutral")) = []
  /\ assign_smart_emoji init (lit "zebra") (lit "neutral") = [226; 339; 168]%N
  /\ assign_smart_emoji init (lit "zebra") (lit "neutral") <> [0x2728]%N.
Proof.
  split; [vm_compute; reflexivity|]. split; [vm_compute; discriminate|].
  split; [vm_compute; reflexivity|]. split; [vm_compute; reflexivity|].
  split; [vm_compute; reflexivity | vm_compute; discriminate].
Qed.

Lemma assign_smart_emoji_order_witness :
  assign_smart_emoji init (lit "running") (lit "neutral") = DASH.
Proof.
  transitivity (first_family (lit "running")); [|vm_compute; reflexivity].
  apply (assign_smart_emoji_order (lit "running") (lit "neutral"));
    [vm_compute; reflexivity | discriminate..].
Defined.

Lemma contextual_emoji_is_lookup_witness :
  get_contextual_emoji init (lit "hot") None None = None.
Proof.
  apply (contextual_emoji_is_lookup init (lit "hot") None (lit "neutral")).
  vm_compute. reflexivity.
Defined.

(** With preceding words the context rules do fire. *)
Example context_rules_fire :
  get_contextual_emoji init (lit "hot") (Some [lit "on"; lit "fire"]) None = Some FIRE
  /\ get_contextual_emoji init (lit "you") (Some [lit "I"; lit "LOVE"]) None
     = Some RED_HEART.
Proof. split; vm_compute; reflexivity. Qed.

Lemma event_style_rule_witness :
  exists w,
    stream segments !! 0%nat = Some w
    /\ ev_style never_event = style_rule init 0 (word_lower_of w)
    /\ (word_lower_of w ∈ emphasis_words init ->
        ev_style never_event = lit "Emphasis"
        /\ exists inner,
             ev_text never_event = SPARKLES ++ lit " " ++ inner ++ lit " " ++ SPARKLES)
    /\ ((segments_loop init segments loop_start).2 = None ->
        length (emitted init segments) = length (stream segments)).
Proof.
  apply (event_style_rule init segments 0 never_event).
  vm_compute. reflexivity.
Defined.

(** The four rows of [segments] take the four branches of the style
    rule: emphasis, celebration, energetic, and the rotating colour of
    the index. *)
Example styles_of_the_four_words :
  ev_style <$> emitted init segments
  = [lit "Emphasis"; lit "Celebration"; lit "Energetic"; lit "Color4"].
Proof. vm_compute. reflexivity. Qed.

(** C7 on the emphasis word [Never]: the row has the style [Emphasis],
    and its text is wrapped in the string of three characters U+00E2
    U+0153 U+00A8 that the source file stores, the UTF-8 bytes E2 9C A8
    of the sparkles glyph U+2728 read as Windows-1252 text; the glyph
    itself does not occur in the row, and the pattern of the overlay
    script finds no emoji in it. *)
Lemma emphasis_bookend_is_not_sparkles :
  emitted init segments !! 0%nat = Some never_event
  /\ ev_style never_event = lit "Emphasis"
  /\ take 4 (ev_text never_event) = [226; 339; 168; 32]%N
  /\ Reference.utf8 0x2728 = Some [0xE2; 0x9C; 0xA8]%N
  /\ (0x2728%N ∉ ev_text never_event)
  /\ findall (ev_text never_event) = [].
Proof.
  split; [vm_compute; reflexivity|]. split; [vm_compute; reflexivity|].
  split; [vm_compute; reflexivity|]. split; [vm_compute; reflexivity|].
  split; [|vm_compute; reflexivity].
  apply (bool_decide_unpack _). vm_compute. exact I.
Qed.

(** C2 on a list whose first occurrence is passed over: the clause of
    the second occurrence reads the layer [v1], which no clause
    produces, and not the initial layer [v0]. *)
Lemma chain_breaks_after_skip :
  (generate_overlay_filter skipped_then_kept (lit "emoji_images") world_escaped).1
  = inr lone_clause
  /\ PyStr.contains (lit "[v0]") lone_clause = false
  /\ PyStr.contains (lit "[v1][emoji1]overlay") lone_clause = true.
Proof. repeat split; vm_compute; reflexivity. Qed.

(** C3 on the timestamp [0:00:00.29]: the double nearest to 0.29,
    times 100, is below 29 and is truncated to 28. *)
Lemma round_trip_loses_a_centisecond :
  round_trip (lit "0:00:00.29") = inr (lit "0:00:00.28")
  /\ time_to_seconds (lit "0:00:00.29") = inr (PyFloat.of_ratio 29 100)
  /\ PyFloat.to_int (PyFloat.mul (PyFloat.of_ratio 29 100) (PyFloat.of_Z 100)) = inr 28.
Proof. repeat split; vm_compute; reflexivity. Qed.

Example round_trip_of_the_test_rows :
  round_trip (lit "0:00:01.50") = inr (lit "0:00:01.50")
  /\ round_trip (lit "1:02:05.55") = inr (lit "1:02:05.55").
Proof. split; vm_compute; reflexivity. Qed.



(** C8, as the specification words it, fails: for a markup file
    without emoji the run ends normally and no filter file exists
    afterwards. *)
Lemma no_emoji_no_filter_file :
  exit_status (main [lit "generate_emoji_overlays.py"; lit "a.ass"] world_plain).1 = 0
  /\ files (main [lit "generate_emoji_overlays.py"; lit "a.ass"] world_plain).2
       !! lit "a_emoji_filter.txt" = None
  /\ files (main [lit "generate_emoji_overlays.py"; lit "a.ass"] world_plain).2
     = files world_plain.
Proof. repeat split; vm_compute; reflexivity. Qed.

Lemma cli_writes_filter_file_witness :
  (main [lit "generate_emoji_overlays.py"; lit "clip" ++ lit ".ass"] world_escaped).1
  = inr tt
  /\ exit_status
       (main [lit "generate_emoji_overlays.py"; lit "clip" ++ lit ".ass"]
             world_escaped).1 = 0
  /\ files (main [lit "generate_emoji_overlays.py"; lit "clip" ++ lit ".ass"]
                 world_escaped).2
     = <[lit "clip" ++ lit "_emoji_filter.txt" := lone_clause]> (files world_escaped).
Proof.
  apply (proj1 (proj2 cli_writes_filter_file)
               (lit "generate_emoji_overlays.py") (lit "clip") [] escaped_ass
               lone_clause world_escaped).
  - vm_compute. reflexivity.
  - vm_compute. reflexivity.
  - vm_compute. reflexivity.
  - vm_compute. discriminate.
  - vm_compute. reflexivity.
  - vm_compute. reflexivity.
  - vm_compute. reflexivity.
Defined.

Lemma pipeline_deterministic_witness :
  (pipeline (lit "clip.ass") (lit "emoji_images") world_escaped).1
  = (pipeline (lit "clip.ass") (lit "emoji_images") world_escaped_busy).1.
Proof.
  apply (pipeline_deterministic (lit "clip.ass") (lit "emoji_images")
                                world_escaped world_escaped_busy);
    vm_compute; reflexivity.
Defined.

End Runs.


(** ** The pattern of the overlay parser *)

Section PatternFacts.
Import Overlays.

(** X1.  A character is in one of the six classes of [emoji_pattern]
    exactly when its code point lies in U+24C2..U+1F251, in
    U+1F300..U+1F64F or in U+1F680..U+1F6FF: the sixth class covers every
    script between its bounds, not only pictographs. *)
Theorem emoji_class_ranges (c : N) :
  emoji_class c = true
  <-> ((0x24C2 <= c /\ c <= 0x1F251) \/ (0x1F300 <= c /\ c <= 0x1F64F)
       \/ (0x1F680 <= c /\ c <= 0x1F6FF))%N.
Proof.
  unfold emoji_class, in_range.
  rewrite !orb_true_iff, !andb_true_iff, !N.leb_le. lia.
Qed.

Ltac split_match_in H :=
  repeat match type of H with
         | context [match ?x with _ => _ end] =>
             destruct x; try discriminate H; cbn beta iota in H
         end.

(** The alternative for surrogate halves matches nothing that the
    alternative before it leaves unmatched. *)
Lemma surrogate_at_covered (s : str) (t : str) :
  surrogate_at s = Some t -> group_at s = Some t.
Proof.
  intros Hs. unfold surrogate_at in Hs.
  destruct s as [|c0 [|c1 [|c2 [|a [|b [|c rest]]]]]];
    try (split_match_in Hs; discriminate Hs).
  destruct (high_class a && hex_class b && hex_class c) eqn:Hc.
  - destruct (decide (c0 = 92%N)) as [->|Hne].
    + destruct (decide (c1 = 117%N)) as [->|Hne1].
      * destruct (decide (c2 = 100%N)) as [->|Hne2].
        -- cbn in Hs |- *. apply andb_prop in Hc as [Hab Hc'].
           apply andb_prop in Hab as [Ha Hb].
           assert (Ha' : hex_class a = true).
           { unfold high_class, hex_class, in_range in *.
             rewrite !orb_true_iff, !andb_true_iff, !N.leb_le in *. lia. }
           rewrite Ha', Hb, Hc'. exact Hs.
        -- exfalso. split_match_in Hs. contradiction.
      * exfalso. split_match_in Hs. contradiction.
    + exfalso. split_match_in Hs. contradiction.
  - exfalso. split_match_in Hs.
Qed.

(** X2.  The third escape alternative of [emoji_pattern], the one for
    surrogate halves, never decides a match: at every position the
    pattern group matches what its first eight alternatives match. *)
Theorem surrogate_alternative_is_dead (s : str) : token_at s = group_at s.
Proof.
  unfold token_at. destruct (group_at s) as [t|] eqn:Eg; [reflexivity|].
  destruct (surrogate_at s) as [t|] eqn:Es; [|reflexivity].
  apply surrogate_at_covered in Es. congruence.
Qed.

Lemma group_at_shape (s t : str) :
  group_at s = Some t -> token_shape t /\ exists rest, s = t ++ rest.
Proof.
  unfold group_at. destruct s as [|c rest]; [discriminate|].
  destruct (emoji_class c) eqn:Ec.
  - intros [= <-]. split; [left; exists c; split; [reflexivity | exact Ec]|].
    exists rest. reflexivity.
  - destruct (c =? 92)%N eqn:E92; [|discriminate].
    apply N.eqb_eq in E92. subst c. intros Hm.
    split_match_in Hm; cbn [firstn] in Hm; injection Hm as <-.
    + split; [right; left; split; reflexivity|]. eexists. reflexivity.
    + split; [right; right; split; reflexivity|]. eexists. reflexivity.
Qed.

Lemma token_at_shape (s t : str) :
  token_at s = Some t -> token_shape t /\ exists rest, s = t ++ rest.
Proof.
  unfold token_at. destruct (group_at s) as [t'|] eqn:Eg.
  - intros [= <-]. apply group_at_shape. exact Eg.
  - intros Es. apply surrogate_at_covered in Es. congruence.
Qed.

Lemma run_go_token (s : str) :
  forall (skip : nat) (last : option str) (n : nat) (r : str) (n' : nat),
    run_go s skip last n = (Some r, n') ->
    last = Some r \/ exists k, token_at (drop k s) = Some r.
Proof.
  induction s as [|c s IH]; intros skip last n r n' Hrun; cbn [run_go] in Hrun.
  - injection Hrun as -> _. left. reflexivity.
  - destruct skip as [|k].
    + destruct (token_at (c :: s)) as [tok|] eqn:Et.
      * destruct (IH _ _ _ _ _ Hrun) as [[= ->]|[k Hk]].
        -- right. exists 0%nat. exact Et.
        -- right. exists (S k). exact Hk.
      * injection Hrun as -> _. left. reflexivity.
    + destruct (IH _ _ _ _ _ Hrun) as [Hl|[j Hj]]; [left; exact Hl|].
      right. exists (S j). exact Hj.
Qed.

Lemma findall_go_token (s : str) :
  forall (skip : nat) (tok : str),
    tok ∈ findall_go s skip -> exists k, token_at (drop k s) = Some tok.
Proof.
  induction s as [|c s IH]; intros skip tok Hin; cbn [findall_go] in Hin.
  - apply elem_of_nil in Hin. contradiction.
  - destruct skip as [|k].
    + destruct (run_go (c :: s) 0 None 0) as [[tok'|] n] eqn:Er.
      * apply elem_of_cons in Hin as [->|Hin].
        -- destruct (run_go_token _ _ _ _ _ _ Er) as [Hl|Hk]; [discriminate|exact Hk].
        -- destruct (IH _ _ Hin) as [j Hj]. exists (S j). exact Hj.
      * destruct (IH _ _ Hin) as [j Hj]. exists (S j). exact Hj.
    + destruct (IH _ _ Hin) as [j Hj]. exists (S j). exact Hj.
Qed.

(** X3.  Every glyph that [emoji_pattern.findall] returns is a piece of
    the text matched by one iteration of the pattern group: a single
    character of the classes, or one escape of 6 or of 10 characters.  A
    run of several glyphs is never returned whole. *)
Theorem findall_returns_single_tokens (text tok : str) :
  tok ∈ findall text ->
  token_shape tok /\ exists before after, text = before ++ tok ++ after.
Proof.
  intros Hin. destruct (findall_go_token text 0 tok Hin) as [k Hk].
  destruct (token_at_shape _ _ Hk) as [Hshape [rest Hrest]].
  split; [exact Hshape|].
  exists (take k text), rest. rewrite <- Hrest. symmetry. apply take_drop.
Qed.

Lemma token_at_class (c : N) (s : str) :
  emoji_class c = true -> token_at (c :: s) = Some [c].
Proof.
  intros Ec. unfold token_at, group_at. rewrite Ec. reflexivity.
Qed.

Lemma token_at_plain (c : N) (s : str) :
  emoji_class c = false -> c <> 92%N -> token_at (c :: s) = None.
Proof.
  intros Ec Hne.
  assert (Hg : group_at (c :: s) = None).
  { unfold group_at. rewrite Ec.
    destruct (c =? 92)%N eqn:E; [|reflexivity].
    apply N.eqb_eq in E. contradiction. }
  unfold token_at. rewrite Hg.
  destruct (surrogate_at (c :: s)) as [t|] eqn:Es; [|reflexivity].
  apply surrogate_at_covered in Es. congruence.
Qed.

Lemma run_go_run (run rest : str) :
  Forall (fun c => emoji_class c = true) run ->
  token_at rest = None ->
  forall (last : option str) (n : nat),
    run_go (run ++ rest) 0 last n
    = (match run with [] => last | _ :: _ => Some [List.last run 0%N] end,
       (n + length run)%nat).
Proof.
  intros Hrun Hrest. induction Hrun as [|c run Hc Hrun IH]; intros last n.
  - cbn [app length]. rewrite Nat.add_0_r.
    destruct rest as [|c rest]; [reflexivity|].
    cbn [run_go]. rewrite Hrest. reflexivity.
  - cbn [app run_go]. rewrite (token_at_class c (run ++ rest) Hc).
    cbn [length Nat.pred]. rewrite IH. f_equal; [|lia].
    destruct run; reflexivity.
Qed.

Lemma findall_go_skip (l rest : str) :
  findall_go (l ++ rest) (length l) = findall_go rest 0.
Proof.
  induction l as [|c l IH]; [reflexivity|]. cbn [app length findall_go]. exact IH.
Qed.

(** X4.  For a run of one or more adjacent characters of the classes,
    followed by text that starts no glyph, [findall] returns one glyph
    for the whole run, and it is the last character of the run. *)
Theorem findall_keeps_last_of_run (run rest : str) :
  run <> [] ->
  Forall (fun c => emoji_class c = true) run ->
  token_at rest = None ->
  findall (run ++ rest) = [List.last run 0%N] :: findall rest.
Proof.
  intros Hne Hrun Hrest. destruct run as [|c run]; [contradiction|].
  unfold findall. cbn [app findall_go].
  change (c :: run ++ rest) with ((c :: run) ++ rest).
  rewrite (run_go_run (c :: run) rest Hrun Hrest None 0).
  cbn [length Nat.add Nat.pred]. rewrite findall_go_skip. reflexivity.
Qed.

(** X5.  A text with no character of the classes and no backslash
    holds no glyph. *)
Theorem findall_plain_text (text : str) :
  Forall (fun c => emoji_class c = false /\ c <> 92%N) text ->
  findall text = [].
Proof.
  unfold findall. intros Hplain.
  induction Hplain as [|c text [Hc Hne] Hplain IH]; [reflexivity|].
  cbn [findall_go run_go]. rewrite (token_at_plain c text Hc Hne). exact IH.
Qed.

End PatternFacts.


(** ** From the rows of the annotator to the occurrences of the parser *)

Section RowsAndOccurrences.
Context `{PyBuiltins}.
Import Transcribe Overlays.

Lemma startswith_app (p x : str) : PyStr.startswith p (p ++ x) = true.
Proof.
  induction p as [|c p IH]; [destruct x; reflexivity|].
  cbn [app PyStr.startswith]. rewrite N.eqb_refl. exact IH.
Qed.

(** A field without separator is read whole into the current piece. *)
Lemma split_go_field (x : N) (left : option nat) (a rest : str) :
  x ∉ a ->
  forall acc : str,
    PyStr.split_go [x] left (a ++ rest) acc 0
    = PyStr.split_go [x] left rest (rev a ++ acc) 0.
Proof.
  induction a as [|c a IH]; intros Hx acc; [reflexivity|].
  apply not_elem_of_cons in Hx as [Hne Hx].
  cbn [app PyStr.split_go PyStr.startswith].
  assert (E : (x =? c)%N = false) by (apply N.eqb_neq; exact Hne).
  rewrite E. cbn [andb]. rewrite andb_false_r.
  rewrite (IH Hx). cbn [rev]. rewrite <- app_assoc. reflexivity.
Qed.

(** At a separator, with a split left, the current piece ends. *)
Lemma split_go_sep (x : N) (k : nat) (rest acc : str) :
  PyStr.split_go [x] (Some (S k)) (x :: rest) acc 0
  = rev acc :: PyStr.split_go [x] (Some k) rest [] 0.
Proof.
  cbn [PyStr.split_go PyStr.startswith]. rewrite N.eqb_refl. reflexivity.
Qed.

(** With no split left, the rest of the text is the last piece. *)
Lemma split_go_exhausted (sep s : str) :
  forall acc : str, PyStr.split_go sep (Some 0%nat) s acc 0 = [rev acc ++ s].
Proof.
  induction s as [|c s IH]; intros acc.
  - cbn. rewrite app_nil_r. reflexivity.
  - cbn [PyStr.split_go andb]. rewrite IH. cbn [rev].
    rewrite <- app_assoc. reflexivity.
Qed.

Lemma split_field_then_sep (x : N) (k : nat) (a rest : str) :
  x ∉ a ->
  PyStr.split_go [x] (Some (S k)) (a ++ x :: rest) [] 0
  = a :: PyStr.split_go [x] (Some k) rest [] 0.
Proof.
  intros Hx. rewrite (split_go_field x _ a (x :: rest) Hx), split_go_sep.
  rewrite app_nil_r, rev_involutive. reflexivity.
Qed.

Lemma splitn_row (ev : Event) :
  comma_free ev ->
  PyStr.splitn (lit ",") 9 (row_text ev)
  = [lit "Dialogue: 0"; ev_start ev; ev_end ev; ev_style ev; []; lit "0";
     lit "0"; lit "0"; []; ev_text ev].
Proof.
  intros (Hs & He & Hy). unfold PyStr.splitn, row_text.
  change (lit ",") with [44%N].
  change (lit "Dialogue: 0,") with (lit "Dialogue: 0" ++ [44%N]).
  change (lit ",,0,0,0,,")
    with ([44%N] ++ [] ++ [44%N] ++ lit "0" ++ [44%N] ++ lit "0" ++ [44%N]
          ++ lit "0" ++ [44%N] ++ [] ++ [44%N]).
  rewrite <- !app_assoc. cbn [app].
  rewrite (split_field_then_sep 44 8 (lit "Dialogue: 0"))
    by (apply (bool_decide_unpack _); vm_compute; exact I).
  rewrite (split_field_then_sep 44 7 (ev_start ev)) by exact Hs.
  rewrite (split_field_then_sep 44 6 (ev_end ev)) by exact He.
  rewrite (split_field_then_sep 44 5 (ev_style ev)) by exact Hy.
  rewrite split_go_sep. cbn [rev].
  rewrite (split_field_then_sep 44 3 (lit "0"))
    by (apply (bool_decide_unpack _); vm_compute; exact I).
  rewrite (split_field_then_sep 44 2 (lit "0"))
    by (apply (bool_decide_unpack _); vm_compute; exact I).
  rewrite (split_field_then_sep 44 1 (lit "0"))
    by (apply (bool_decide_unpack _); vm_compute; exact I).
  rewrite split_go_sep. cbn [rev].
  rewrite split_go_exhausted. reflexivity.
Qed.

Lemma parse_line_row (ev : Event) :
  comma_free ev ->
  parse_line (row_text ev) = occurrence_in ev <$> findall (ev_text ev).
Proof.
  intros Hfree. unfold parse_line.
  assert (Hstart : PyStr.startswith (lit "Dialogue:") (row_text ev) = true).
  { unfold row_text.
    change (lit "Dialogue: 0,") with (lit "Dialogue:" ++ lit " 0,").
    rewrite <- app_assoc. apply startswith_app. }
  rewrite Hstart, (splitn_row ev Hfree). reflexivity.
Qed.

Lemma uint_digits_no_comma (d : Decimal.uint) : 44%N ∉ PyStr.uint_digits d.
Proof.
  induction d; cbn [PyStr.uint_digits];
    [apply not_elem_of_nil | apply not_elem_of_cons; split; [discriminate | assumption]..].
Qed.

Lemma digits_no_comma (n : N) : 44%N ∉ PyStr.digits n.
Proof.
  destruct n; cbn [PyStr.digits].
  - apply not_elem_of_cons. split; [discriminate | apply not_elem_of_nil].
  - apply uint_digits_no_comma.
Qed.

Lemma of_int_no_comma (z : Z) : 44%N ∉ PyStr.of_int z.
Proof.
  unfold PyStr.of_int. destruct (z <? 0); [|apply digits_no_comma].
  apply not_elem_of_cons. split; [discriminate | apply digits_no_comma].
Qed.

Lemma of_int_02d_no_comma (z : Z) : 44%N ∉ PyStr.of_int_02d z.
Proof.
  unfold PyStr.of_int_02d.
  destruct (z <? 0); [|destruct (z <? 10)]; try apply digits_no_comma;
    apply not_elem_of_cons; (split; [discriminate | apply digits_no_comma]).
Qed.

Lemma literal_no_comma (l : str) : bool_decide (44%N ∉ l) = true -> 44%N ∉ l.
Proof. apply bool_decide_eq_true_1. Qed.

Lemma format_timestamp_ass_no_comma (seconds : PyFloat.float) (t : str) :
  format_timestamp_ass seconds = inr t -> 44%N ∉ t.
Proof.
  unfold format_timestamp_ass, rbind.
  assert (Hc : 44%N ∉ lit ":") by (apply literal_no_comma; vm_compute; reflexivity).
  assert (Hd : 44%N ∉ lit ".") by (apply literal_no_comma; vm_compute; reflexivity).
  revert Hc Hd. generalize (lit ":") (lit "."). intros colon dot Hc Hd.
  repeat match goal with
         | |- context [match ?x with inl _ => _ | inr _ => _ end] =>
             destruct x; [discriminate|]
         end.
  intros [= <-]. rewrite !not_elem_of_app.
  repeat split; try assumption;
    try apply of_int_no_comma; apply of_int_02d_no_comma.
Qed.

Lemma choose_style_no_comma (ai : AIEnhancer) (i : nat) (word_lower : str) :
  44%N ∉ choose_style ai i word_lower.
Proof.
  unfold choose_style.
  destruct (should_emphasize ai word_lower); [apply literal_no_comma; vm_compute; reflexivity|].
  destruct (PyStr.in_list word_lower celebration_words);
    [apply literal_no_comma; vm_compute; reflexivity|].
  destruct (mem word_lower (energetic_words ai));
    [apply literal_no_comma; vm_compute; reflexivity|].
  assert (Hlt : (i mod 6 < 6)%nat) by (apply Nat.mod_upper_bound; lia).
  destruct (i mod 6)%nat as [|[|[|[|[|[|k]]]]]]; try lia;
    apply literal_no_comma; vm_compute; reflexivity.
Qed.

(** The row that one turn of the word loop appends. *)
Lemma process_word_appends (ai : AIEnhancer) (sentiment : str) (st st' : Loop) (w : Word) :
  process_word ai sentiment st w = inr st' ->
  exists ev,
    written st' = written st ++ [ev]
    /\ format_timestamp_ass (Transcribe.start w) = inr (ev_start ev)
    /\ format_timestamp_ass (Transcribe.end_ w) = inr (ev_end ev)
    /\ ev_style ev = choose_style ai (word_count st) (word_lower_of w).
Proof.
  unfold process_word.
  destruct (format_timestamp_ass (Transcribe.start w)) as [e|t1]; [discriminate|].
  destruct (format_timestamp_ass (Transcribe.end_ w)) as [e|t2]; [discriminate|].
  cbn [rbind]. destruct (choose_emoji ai _ sentiment) as [emoji smart].
  cbv beta iota zeta. destruct (PyStr.encodable _); [|discriminate].
  intros [= <-]. eexists. cbn [written]. split; [reflexivity|].
  cbn [ev_start ev_end ev_style]. repeat split.
Qed.

Lemma words_loop_Forall (ai : AIEnhancer) (P : Event -> Prop) (sentiment : str)
      (ws : list Word) :
  (forall st st' w, process_word ai sentiment st w = inr st' ->
                    exists ev, written st' = written st ++ [ev] /\ P ev) ->
  forall st : Loop,
    Forall P (written st) ->
    Forall P (written (words_loop ai sentiment ws st).1).
Proof.
  intros Hstep. induction ws as [|w ws IH]; intros st Hst; [exact Hst|].
  cbn [words_loop]. destruct (process_word ai sentiment st w) as [e|st'] eqn:E;
    [exact Hst|].
  apply IH. destruct (Hstep _ _ _ E) as (ev & -> & Hev).
  apply Forall_app. split; [exact Hst|]. constructor; [exact Hev | constructor].
Qed.

Lemma segments_loop_Forall (ai : AIEnhancer) (P : Event -> Prop)
      (segments_list : list Segment) :
  (forall sentiment st st' w, process_word ai sentiment st w = inr st' ->
                              exists ev, written st' = written st ++ [ev] /\ P ev) ->
  forall st : Loop,
    Forall P (written st) ->
    Forall P (written (segments_loop ai segments_list st).1).
Proof.
  intros Hstep. induction segments_list as [|segment rest IH]; intros st Hst;
    [exact Hst|].
  cbn [segments_loop]. destruct (segment_words segment) as [|w0 ws0]; [apply IH; exact Hst|].
  match goal with
  | |- context [words_loop ai ?s ?ws ?st1] =>
      pose proof (words_loop_Forall ai P s ws (Hstep s) st1 Hst) as Hw;
      destruct (words_loop ai s ws st1) as [st2 [e|]]
  end; cbn [fst] in *; [exact Hw|]. apply IH. exact Hw.
Qed.

(** The fields before the text hold no comma in any row of a run. *)
Lemma emitted_comma_free (ai : AIEnhancer) (segments_list : list Segment) :
  Forall comma_free (emitted ai segments_list).
Proof.
  unfold emitted. apply segments_loop_Forall; [|constructor].
  intros sentiment st st' w Hstep.
  destruct (process_word_appends _ _ _ _ _ Hstep) as (ev' & Hw & Hs & He & Hy).
  exists ev'. split; [exact Hw|]. repeat split.
  - exact (format_timestamp_ass_no_comma _ _ Hs).
  - exact (format_timestamp_ass_no_comma _ _ He).
  - rewrite Hy. apply choose_style_no_comma.
Qed.

End RowsAndOccurrences.


(** ** The clauses of the overlay filter *)

Section Clauses.
Context `{PyBuiltins}.
Import Overlays.

(** The clause at position [j] of a list that starts at position [i]. *)
Lemma overlay_loop_clauses (emoji_map : gmap str str) (emojis_data : list EmojiData) :
  forall (i : nat) (overlays : list str) (w w' : World) (result : list str),
    overlay_loop emoji_map i emojis_data overlays w = (inr result, w') ->
    exists new,
      result = overlays ++ new
      /\ Forall2 (fun j clause =>
                    (i <= j)%nat
                    /\ exists data image_path start_sec end_sec,
                         emojis_data !! (j - i)%nat = Some data
                         /\ emoji_map !! decoded data = Some image_path
                         /\ time_to_seconds (start data) = inr start_sec
                         /\ time_to_seconds (end_ data) = inr end_sec
                         /\ clause = overlay_clause j image_path start_sec end_sec)
                 (surviving_from emoji_map i emojis_data) new.
Proof.
  induction emojis_data as [|data rest IH]; intros i overlays w w' result Hloop.
  - cbn in Hloop. injection Hloop as <- _. exists []. rewrite app_nil_r.
    split; [reflexivity | constructor].
  - cbn [surviving_from]. unfold has_key.
    destruct (emoji_map !! decoded data) as [image_path|] eqn:E.
    + cbn [overlay_loop] in Hloop. rewrite E in Hloop. unfold bind, lift in Hloop.
      destruct (time_to_seconds (start data)) as [e|t1] eqn:E1; [discriminate|].
      destruct (time_to_seconds (end_ data)) as [e|t2] eqn:E2; [discriminate|].
      destruct (IH _ _ _ _ _ Hloop) as (new & -> & Hall).
      exists (overlay_clause i image_path t1 t2 :: new).
      rewrite <- app_assoc. split; [reflexivity|]. constructor.
      * split; [lia|]. exists data, image_path, t1, t2.
        rewrite Nat.sub_diag. repeat split; assumption.
      * eapply Forall2_impl; [exact Hall|].
        intros j clause (Hle & d & p & a & b & Hd & Hrest). split; [lia|].
        exists d, p, a, b. split; [|exact Hrest].
        replace (j - i)%nat with (S (j - S i)) by lia. exact Hd.
    + destruct (PyStr.encodable (decoded data)) eqn:Henc;
        [rewrite overlay_loop_absent in Hloop by assumption
        |rewrite overlay_loop_unprintable in Hloop by assumption; discriminate].
      destruct (IH _ _ _ _ _ Hloop) as (new & -> & Hall).
      exists new. split; [reflexivity|].
      eapply Forall2_impl; [exact Hall|].
      intros j clause (Hle & d & p & a & b & Hd & Hrest). split; [lia|].
      exists d, p, a, b. split; [|exact Hrest].
      replace (j - i)%nat with (S (j - S i)) by lia. exact Hd.
Qed.

Lemma surviving_all (emoji_map : gmap str str) (emojis_data : list EmojiData) :
  (forall data, data ∈ emojis_data -> is_Some (emoji_map !! decoded data)) ->
  forall i : nat, surviving_from emoji_map i emojis_data = seq i (length emojis_data).
Proof.
  induction emojis_data as [|data rest IH]; intros Hall i; [reflexivity|].
  cbn [surviving_from length seq]. unfold has_key.
  destruct (Hall data) as [p Hp]; [left|]. rewrite Hp. f_equal.
  apply IH. intros d Hd. apply Hall. right. exact Hd.
Qed.

Lemma surviving_none (emoji_map : gmap str str) (emojis_data : list EmojiData) :
  forall i : nat,
    surviving_from emoji_map i emojis_data = []
    <-> forall data, data ∈ emojis_data -> emoji_map !! decoded data = None.
Proof.
  induction emojis_data as [|data rest IH]; intros i.
  - split; [|reflexivity]. intros _ d Hd. apply elem_of_nil in Hd. contradiction.
  - cbn [surviving_from]. unfold has_key.
    destruct (emoji_map !! decoded data) as [p|] eqn:E.
    + split; [discriminate|]. intros Hall.
      rewrite (Hall data) in E by left. discriminate.
    + rewrite IH. split.
      * intros Hall d Hd. apply elem_of_cons in Hd as [->|Hd]; [exact E | exact (Hall d Hd)].
      * intros Hall d Hd. apply Hall. right. exact Hd.
Qed.

(** X7.  When the loop over the occurrences ends without an exception,
    the clauses it has collected are those of the occurrences that have
    an image, in order, and each clause carries the position of its
    occurrence in the input list as its layer number.  When every
    occurrence has an image, the clause of rank [k] is the one of
    position [k]: it reads the layer [v{k}] and produces [v{k+1}]. *)
Theorem overlay_clauses_by_position (emoji_map : gmap str str)
        (emojis_data : list EmojiData) (w w' : World) (overlays : list str) :
  overlay_loop emoji_map 0 emojis_data [] w = (inr overlays, w') ->
  Forall2 (clause_at emoji_map emojis_data)
          (surviving_from emoji_map 0 emojis_data) overlays
  /\ ((forall data, data ∈ emojis_data -> is_Some (emoji_map !! decoded data)) ->
      length overlays = length emojis_data
      /\ forall k clause, overlays !! k = Some clause ->
                          clause_at emoji_map emojis_data k clause).
Proof.
  intros Hloop.
  destruct (overlay_loop_clauses _ _ _ _ _ _ _ Hloop) as (new & -> & Hall).
  cbn [app] in *.
  assert (Hpos : Forall2 (clause_at emoji_map emojis_data)
                         (surviving_from emoji_map 0 emojis_data) new).
  { eapply Forall2_impl; [exact Hall|].
    intros j clause (_ & d & p & a & b & Hd & Hrest).
    rewrite Nat.sub_0_r in Hd. exists d, p, a, b. split; assumption. }
  split; [exact Hpos|]. intros Hevery.
  rewrite (surviving_all _ _ Hevery 0) in Hpos.
  split.
  - rewrite <- (Forall2_length _ _ _ Hpos). apply length_seq.
  - intros k clause Hk.
    destruct (Forall2_lookup_r _ _ _ _ _ Hpos Hk) as (j & Hj & Hc).
    apply lookup_seq in Hj as [-> _]. exact Hc.
Qed.

Lemma overlay_clause_nonempty (i : nat) (image_path : str)
      (start_sec end_sec : PyFloat.float) :
  overlay_clause i image_path start_sec end_sec <> [].
Proof.
  unfold overlay_clause. change (lit "movie=") with (109%N :: lit "ovie=").
  discriminate.
Qed.

Lemma join_nonempty (sep x : str) (l : list str) :
  x <> [] -> PyStr.join sep (x :: l) <> [].
Proof.
  intros Hx. destruct x as [|c x]; [contradiction|].
  destruct l; cbn [PyStr.join]; discriminate.
Qed.

(** X8.  With a readable image map, the generator returns the empty
    string exactly when no occurrence has an image: a non-empty result
    means that at least one clause was built. *)
Theorem empty_filter_iff_nothing_survives (emojis_data : list EmojiData)
        (dir content : str) (emoji_map : gmap str str) (w w' : World)
        (filter_str : str) :
  files w !! map_file_of dir = Some content ->
  json_load (PyStr.universal_newlines content) = inr emoji_map ->
  generate_overlay_filter emojis_data dir w = (inr filter_str, w') ->
  (filter_str = []
   <-> forall data, data ∈ emojis_data -> emoji_map !! decoded data = None).
Proof.
  intros Hmap Hjson. rewrite (generate_with_map _ _ _ _ Hmap), Hjson.
  destruct (overlay_loop emoji_map 0 emojis_data [] w) as [[e|overlays] w1] eqn:Eloop;
    [discriminate|].
  destruct (overlay_loop_clauses _ _ _ _ _ _ _ Eloop) as (new & -> & Hall).
  cbn [app] in *. rewrite <- (surviving_none emoji_map emojis_data 0).
  destruct new as [|clause new].
  - intros Heq. assert (Hf : [] = filter_str) by congruence. subst filter_str.
    apply Forall2_nil_inv_r in Hall. rewrite Hall. tauto.
  - intros Heq.
    assert (Hf : PyStr.join (lit ";") (clause :: new) = filter_str) by congruence.
    rewrite <- Hf. split.
    + intros Hj. exfalso. revert Hj. apply join_nonempty.
      apply Forall2_cons_inv_r in Hall as (j & js & (_ & d & p & a & b & Hc) & _ & _).
      destruct Hc as (_ & _ & _ & _ & ->). apply overlay_clause_nonempty.
    + intros Hs. rewrite Hs in Hall. apply Forall2_nil_inv_l in Hall. discriminate.
Qed.

End Clauses.


(** ** The command line of the overlay script at its edges *)

Section CliEdges.
Context `{PyBuiltins}.
Import Overlays.

Lemma replace_go_absent (old new s : str) :
  PyStr.contains old s = false -> PyStr.replace_go old new s 0 = s.
Proof.
  induction s as [|c s IH]; intros Hc; [reflexivity|].
  cbn [PyStr.contains] in Hc. apply orb_false_elim in Hc as [Hs Hc].
  cbn [PyStr.replace_go]. rewrite Hs, (IH Hc). reflexivity.
Qed.

Lemma write_text_unencodable (p content : str) (w : World) :
  denied w !! p = None ->
  PyStr.encodable content = false ->
  write_text p content w
  = (inl UnicodeEncodeError,
     {| files := <[p := []]> (files w); stdout := stdout w; denied := denied w |}).
Proof. intros Hd He. unfold write_text. rewrite Hd, He. reflexivity. Qed.

(** X9.  When the markup file cannot be opened, the script ends with
    exit status 1 and no file is written: on [FileNotFoundError] after
    its first message when the file name can be printed, and on
    [UnicodeEncodeError] at that first message when it cannot. *)
Theorem main_missing_markup (prog ass_file : str) (rest : list str) (w : World) :
  files w !! ass_file = None ->
  exit_status (main (prog :: ass_file :: rest) w).1 = 1
  /\ files (main (prog :: ass_file :: rest) w).2 = files w
  /\ (PyStr.encodable ass_file = true ->
      (main (prog :: ass_file :: rest) w).1 = inl FileNotFoundError
      /\ stdout (main (prog :: ass_file :: rest) w).2
         = stdout w ++ [parsing_line ass_file])
  /\ (PyStr.encodable ass_file = false ->
      (main (prog :: ass_file :: rest) w).1 = inl UnicodeEncodeError
      /\ stdout (main (prog :: ass_file :: rest) w).2 = stdout w).
Proof.
  intros Hnone. destruct (PyStr.encodable ass_file) eqn:Henc.
  - rewrite (main_missing_file _ _ _ _ Henc Hnone).
    split; [reflexivity|]. split; [reflexivity|].
    split; [intros _; split; reflexivity | discriminate].
  - rewrite (main_unprintable _ _ _ _ Henc).
    split; [reflexivity|]. split; [reflexivity|].
    split; [discriminate | intros _; split; reflexivity].
Qed.

(** X10.  When the image map file is missing and the markup, under a
    name that can be printed, holds at least one occurrence, the script
    prints the error line and goes on to write the empty string: when
    the filter file can be opened it is written, reported as saved, and
    the run ends normally; when it cannot, the run ends on the exception
    of the open and no file is written. *)
Theorem main_missing_map (prog ass_file content : str) (rest : list str) (w : World) :
  PyStr.encodable ass_file = true ->
  files w !! ass_file = Some content ->
  parse_content (PyStr.universal_newlines content) <> [] ->
  files w !! map_file_of (lit "emoji_images") = None ->
  (denied w !! output_file_of ass_file = None ->
   (main (prog :: ass_file :: rest) w).1 = inr tt
   /\ exit_status (main (prog :: ass_file :: rest) w).1 = 0
   /\ files (main (prog :: ass_file :: rest) w).2
      = <[output_file_of ass_file := []]> (files w)
   /\ stdout (main (prog :: ass_file :: rest) w).2
      = stdout w ++ [parsing_line ass_file;
                     found_line (length (parse_content
                                           (PyStr.universal_newlines content)));
                     error_line (lit "emoji_images");
                     saved_line (output_file_of ass_file)])
  /\ (forall e, denied w !! output_file_of ass_file = Some e ->
      (main (prog :: ass_file :: rest) w).1 = inl e
      /\ files (main (prog :: ass_file :: rest) w).2 = files w
      /\ stdout (main (prog :: ass_file :: rest) w).2
         = stdout w ++ [parsing_line ass_file;
                        found_line (length (parse_content
                                              (PyStr.universal_newlines content)));
                        error_line (lit "emoji_images")]).
Proof.
  intros Henc Hfile Hne Hmap. rewrite (main_with_file _ _ _ _ _ Henc Hfile). cbv zeta.
  destruct (parse_content (PyStr.universal_newlines content)) as [|data more] eqn:Ep;
    [contradiction|].
  rewrite generate_without_map by exact Hmap.
  change (PyStr.encodable (lit "emoji_images")) with true. cbv iota.
  rewrite after_print_app. split.
  - intros Hopen. rewrite write_text_ok by (try reflexivity; exact Hopen).
    cbn [fst snd files stdout after_print exit_status app]. repeat split.
    rewrite <- !app_assoc. reflexivity.
  - intros e Hopen. rewrite (write_text_denied _ _ _ e) by exact Hopen.
    cbn [fst snd files stdout after_print app]. repeat split.
Qed.

(** X11.  When the generation of the filter raises, whether on an
    image map that is not valid JSON, on a timestamp that does not
    convert or on a warning that cannot be printed, no file is written,
    not even for the occurrences handled before, and the script ends on
    that exception with exit status 1; for a file name that cannot be
    printed it has ended before, on [UnicodeEncodeError]. *)
Theorem main_generation_raises (prog ass_file content : str) (rest : list str)
        (w : World) (e : exn) :
  files w !! ass_file = Some content ->
  parse_content (PyStr.universal_newlines content) <> [] ->
  (generate_overlay_filter (parse_content (PyStr.universal_newlines content))
                           (lit "emoji_images") w).1 = inl e ->
  files (main (prog :: ass_file :: rest) w).2 = files w
  /\ (PyStr.encodable ass_file = true ->
      (main (prog :: ass_file :: rest) w).1 = inl e
      /\ ((forall code, e <> SystemExit code) ->
          exit_status (main (prog :: ass_file :: rest) w).1 = 1))
  /\ (PyStr.encodable ass_file = false ->
      (main (prog :: ass_file :: rest) w).1 = inl UnicodeEncodeError
      /\ exit_status (main (prog :: ass_file :: rest) w).1 = 1).
Proof.
  intros Hfile Hne Hgen. destruct (PyStr.encodable ass_file) eqn:Henc.
  - rewrite (main_with_file _ _ _ _ _ Henc Hfile). cbv zeta.
    destruct (parse_content (PyStr.universal_newlines content)) as [|data more] eqn:Ep;
      [contradiction|].
    destruct (generate_shape (data :: more) (lit "emoji_images")
                             (files w !! map_file_of (lit "emoji_images")))
      as (r & out & Hr).
    rewrite (Hr w eq_refl) in Hgen. cbn [fst] in Hgen. subst r.
    rewrite (Hr (after_print w _) eq_refl).
    cbn [fst snd files after_print].
    split; [reflexivity|]. split; [|discriminate]. intros _.
    split; [reflexivity|].
    intros Hexit. destruct e; try reflexivity. exfalso. exact (Hexit code eq_refl).
  - rewrite (main_unprintable _ _ _ _ Henc).
    split; [reflexivity|]. split; [discriminate|]. intros _. split; reflexivity.
Qed.

(** X12.  For a file argument in which [.ass] does not occur, the
    output path is the argument itself.  After a run that found an
    occurrence and generated a filter, the markup file holds the filter
    string in place of the markup when the file can be opened for
    writing; when the filter cannot be encoded the markup file is left
    empty; when the file cannot be opened for writing it is unchanged
    and the run ends on the exception of the open. *)
Theorem main_overwrites_markup (prog ass_file content filter_str : str)
        (rest : list str) (w : World) :
  PyStr.contains (lit ".ass") ass_file = false ->
  PyStr.encodable ass_file = true ->
  files w !! ass_file = Some content ->
  parse_content (PyStr.universal_newlines content) <> [] ->
  (generate_overlay_filter (parse_content (PyStr.universal_newlines content))
                           (lit "emoji_images") w).1
  = inr filter_str ->
  output_file_of ass_file = ass_file
  /\ (denied w !! ass_file = None -> PyStr.encodable filter_str = true ->
      (main (prog :: ass_file :: rest) w).1 = inr tt
      /\ files (main (prog :: ass_file :: rest) w).2 !! ass_file = Some filter_str)
  /\ (denied w !! ass_file = None -> PyStr.encodable filter_str = false ->
      (main (prog :: ass_file :: rest) w).1 = inl UnicodeEncodeError
      /\ files (main (prog :: ass_file :: rest) w).2 !! ass_file = Some [])
  /\ (forall e, denied w !! ass_file = Some e ->
      (main (prog :: ass_file :: rest) w).1 = inl e
      /\ files (main (prog :: ass_file :: rest) w).2 = files w).
Proof.
  intros Hnone Henc Hfile Hne Hgen.
  assert (Hout : output_file_of ass_file = ass_file)
    by (apply replace_go_absent; exact Hnone).
  split; [exact Hout|].
  destruct (main_generated prog _ rest _ _ w Henc Hfile Hne Hgen) as (out & _ & ->).
  cbv zeta. rewrite Hout. split; [|split].
  - intros Hopen Hfilter. rewrite write_text_ok by (try exact Hfilter; exact Hopen).
    cbn [fst snd files after_print]. split; [reflexivity|]. apply lookup_insert_eq.
  - intros Hopen Hfilter. rewrite write_text_unencodable by (try exact Hfilter; exact Hopen).
    cbn [fst snd files after_print]. split; [reflexivity|]. apply lookup_insert_eq.
  - intros e Hopen. rewrite (write_text_denied _ _ _ e) by exact Hopen.
    cbn [fst snd files after_print]. split; reflexivity.
Qed.

Lemma split_without_separator (x : N) (s : str) :
  x ∉ s -> PyStr.split [x] s = [s].
Proof.
  intros Hx. unfold PyStr.split.
  rewrite <- (app_nil_r s) at 1.
  rewrite (split_go_field x None s [] Hx). cbn [PyStr.split_go].
  rewrite app_nil_r, rev_involutive. reflexivity.
Qed.

(** X13.  A time string without a colon never converts to seconds:
    [time_to_seconds] raises [ValueError] when the string is not an
    integer, and [IndexError] when it is one. *)
Theorem time_to_seconds_without_colon (time_str : str) :
  58%N ∉ time_str ->
  time_to_seconds time_str
  = match int_of_str time_str with
    | None => inl ValueError
    | Some _ => inl IndexError
    end.
Proof.
  intros Hc. unfold time_to_seconds. change (lit ":") with [58%N].
  rewrite (split_without_separator 58 time_str Hc). cbn [nth].
  destruct (int_of_str time_str); reflexivity.
Qed.

(** X29.  The warning for a glyph without image is printed outside
    the [try] block that guards the decoding: when the glyph cannot be
    printed, the turn of the loop raises [UnicodeEncodeError] in place
    of passing the occurrence over, and the clauses collected so far
    are lost.  A run whose first occurrence is such a glyph ends there
    with exit status 1 and writes no file. *)
Theorem unprintable_glyph_aborts (emoji_map : gmap str str) (data : EmojiData) :
  emoji_map !! decoded data = None ->
  PyStr.encodable (decoded data) = false ->
  (forall (i : nat) (rest : list EmojiData) (overlays : list str) (w : World),
      overlay_loop emoji_map i (data :: rest) overlays w
      = (inl UnicodeEncodeError, w))
  /\ (forall (prog ass_file content map_content : str) (rest : list str)
             (more : list EmojiData) (w : World),
        PyStr.encodable ass_file = true ->
        files w !! ass_file = Some content ->
        parse_content (PyStr.universal_newlines content) = data :: more ->
        files w !! map_file_of (lit "emoji_images") = Some map_content ->
        json_load (PyStr.universal_newlines map_content) = inr emoji_map ->
        (main (prog :: ass_file :: rest) w).1 = inl UnicodeEncodeError
        /\ exit_status (main (prog :: ass_file :: rest) w).1 = 1
        /\ files (main (prog :: ass_file :: rest) w).2 = files w
        /\ stdout (main (prog :: ass_file :: rest) w).2
           = stdout w ++ [parsing_line ass_file; found_line (S (length more))]).
Proof.
  intros Habs Hglyph. split.
  - intros i rest overlays w. apply overlay_loop_unprintable; assumption.
  - intros prog ass_file content map_content rest more w Henc Hfile Hparse Hmap Hjson.
    rewrite (main_with_file _ _ _ _ _ Henc Hfile). rewrite Hparse. cbv zeta.
    rewrite (generate_with_map _ _ map_content) by exact Hmap.
    rewrite Hjson, overlay_loop_unprintable by assumption.
    cbn [fst snd files stdout after_print exit_status length]. repeat split.
Qed.

End CliEdges.


(** ** The classifier and the emitter, further *)

Section EmitterFacts.
Context `{PyBuiltins}.
Import Transcribe.

Lemma analyze_sentiment_counts (self : AIEnhancer) (words_list : list str) :
  analyze_sentiment self words_list
  = let ws := words_lower_of words_list in
    let p := count_in (positive_words self) ws in
    let n := count_in (negative_words self) ws in
    if (1 <=? count_in (energetic_words self) ws)%nat then value ENERGETIC
    else if (n <? p)%nat && (1 <=? p)%nat then value POSITIVE
    else if (p <? n)%nat && (1 <=? n)%nat then value NEGATIVE
    else value NEUTRAL.
Proof. destruct words_list; reflexivity. Qed.

Lemma count_in_permutation (lexicon : gset str) (l l' : list str) :
  l ≡ₚ l' ->
  count_in lexicon (words_lower_of l) = count_in lexicon (words_lower_of l').
Proof.
  unfold count_in, words_lower_of.
  induction 1 as [|x l l' Hp IH|x y l|l l' l'' Hp1 IH1 Hp2 IH2].
  - reflexivity.
  - cbn [List.filter]. destruct (negb (PyStr.eqb x [])); [|exact IH].
    cbn [List.map List.filter]. destruct (mem _ lexicon); cbn [length]; congruence.
  - cbn [List.filter].
    destruct (negb (PyStr.eqb x [])), (negb (PyStr.eqb y []));
      cbn [List.map List.filter];
      repeat match goal with
             | |- context [mem ?a lexicon] => destruct (mem a lexicon)
             end; reflexivity.
  - congruence.
Qed.

(** X14.  The sentiment of a segment does not depend on the order of
    its words. *)
Theorem analyze_sentiment_order_free (self : AIEnhancer) (l l' : list str) :
  l ≡ₚ l' -> analyze_sentiment self l = analyze_sentiment self l'.
Proof.
  intros Hp. rewrite !analyze_sentiment_counts. cbv zeta.
  rewrite !(count_in_permutation _ l l' Hp). reflexivity.
Qed.

Lemma assign_fallback_nonempty (ai : AIEnhancer) (word sentiment : str) :
  emoji_map ai !! word = None -> assign_smart_emoji ai word sentiment <> [].
Proof.
  intros Hnone. unfold assign_smart_emoji. rewrite Hnone.
  repeat match goal with
         | |- (if ?b then _ else _) <> [] => destruct b
         end; discriminate.
Qed.

Lemma filler_is_not_important (ai : AIEnhancer) (word : str) :
  word ∈ filler_words ai -> is_important_word ai word = false.
Proof.
  intros Hf. apply mem_true in Hf. unfold is_important_word. rewrite Hf.
  destruct (PyStr.eqb word [] || (MAX_WORD_LENGTH <? length word)%nat); reflexivity.
Qed.

(** X15.  How the emitter chooses the emoji of a word.  A word of the
    map with a non-empty glyph gets that glyph and is not counted as
    AI-assigned.  A word outside the map gets a non-empty glyph from the
    smart assigner, and is counted, exactly when it is important, and
    gets nothing otherwise.  A filler word is never counted: it gets a
    glyph only from the map. *)
Theorem emoji_choice_by_importance (ai : AIEnhancer) (word sentiment : str) :
  (forall g, emoji_map ai !! word = Some g -> g <> [] ->
             choose_emoji ai word sentiment = (Some g, false))
  /\ (emoji_map ai !! word = None -> is_important_word ai word = true ->
      choose_emoji ai word sentiment
      = (Some (assign_smart_emoji ai word sentiment), true)
      /\ assign_smart_emoji ai word sentiment <> [])
  /\ (emoji_map ai !! word = None -> is_important_word ai word = false ->
      choose_emoji ai word sentiment = (None, false))
  /\ (word ∈ filler_words ai ->
      choose_emoji ai word sentiment = (emoji_map ai !! word, false)).
Proof.
  assert (Hlook : get_contextual_emoji ai word None None = emoji_map ai !! word).
  { unfold get_contextual_emoji. destruct (emoji_map ai !! word); reflexivity. }
  unfold choose_emoji. rewrite Hlook. split; [|split; [|split]].
  - intros g Hg Hne. rewrite Hg. destruct g; [contradiction | reflexivity].
  - intros Hnone Himp. split.
    + rewrite Hnone, Himp. reflexivity.
    + apply assign_fallback_nonempty. exact Hnone.
  - intros Hnone Himp. rewrite Hnone, Himp. reflexivity.
  - intros Hf. rewrite (filler_is_not_important ai word Hf), andb_false_r. reflexivity.
Qed.



(** X17.  A time that is not a number or is infinite makes both
    formatters raise [ValueError], and a word with such a start time
    makes the turn of the word loop raise it: no row is written for the
    word. *)
Theorem non_finite_time_raises (ai : AIEnhancer) (sentiment : str) (st : Loop)
        (w : Word) :
  not_finite (start w) ->
  format_timestamp_ass (start w) = inl ValueError
  /\ Annotator.format_timestamp_srt (start w) = inl ValueError
  /\ process_word ai sentiment st w = inl ValueError.
Proof.
  intros Hnf.
  assert (Hass : format_timestamp_ass (start w) = inl ValueError).
  { destruct (start w) as [s|[|]| |s m e]; try contradiction; vm_compute; reflexivity. }
  split; [exact Hass|]. split.
  - destruct (start w) as [s|[|]| |s m e]; try contradiction; vm_compute; reflexivity.
  - unfold process_word. rewrite Hass. reflexivity.
Qed.

End EmitterFacts.


(** ** The formatters on whole seconds and on centiseconds *)

Section FormatterRuns.
Import Transcribe.

Lemma same_text_eq (a b : str) : same_text a b = true -> a = b.
Proof.
  revert b. induction a as [|x a IH]; intros [|y b] Hs; try discriminate Hs.
  - reflexivity.
  - cbn [same_text] in Hs. apply andb_prop in Hs as [Hx Ha].
    apply N.eqb_eq in Hx. subst y. f_equal. apply IH. exact Ha.
Qed.

(** X18.  On every whole number of seconds below ten minutes both
    formatters are exact: [format_timestamp_ass] prints [0:MM:SS.00] and
    [format_timestamp_srt] prints [00:MM:SS,000] for the minutes and
    seconds of the number. *)
Theorem whole_seconds_are_exact (n : nat) :
  (n < 600)%nat ->
  format_timestamp_ass (PyFloat.of_Z (Z.of_nat n)) = inr (stamp (100 * Z.of_nat n))
  /\ Annotator.format_timestamp_srt (PyFloat.of_Z (Z.of_nat n))
     = inr (stamp_srt (1000 * Z.of_nat n)).
Proof.
  intros Hn.
  assert (Hall : forallb whole_second_ok (seq 0 600) = true)
    by (vm_compute; reflexivity).
  rewrite forallb_forall in Hall.
  assert (Hok : whole_second_ok n = true) by (apply Hall, in_seq; lia).
  unfold whole_second_ok in Hok.
  destruct (format_timestamp_ass _) as [e|a]; [discriminate|].
  destruct (Annotator.format_timestamp_srt _) as [e|b]; [discriminate|].
  apply andb_prop in Hok as [Ha Hb].
  rewrite (same_text_eq _ _ Ha), (same_text_eq _ _ Hb). split; reflexivity.
Qed.

(** X19.  With the reference builtins, every markup timestamp of the
    first minute comes back from the round trip through
    [time_to_seconds] and [format_timestamp_ass] either unchanged or one
    centisecond early, never later and never further off. *)
Theorem first_minute_round_trips (cs : nat) :
  (cs < 6000)%nat ->
  round_trip (H := Reference.builtins) (stamp (Z.of_nat cs))
  = inr (stamp (Z.of_nat cs))
  \/ round_trip (H := Reference.builtins) (stamp (Z.of_nat cs))
     = inr (stamp (Z.of_nat cs - 1)).
Proof.
  intros Hcs.
  assert (Hall : forallb (comes_back_near (H := Reference.builtins)) (seq 0 6000)
                 = true)
    by (vm_compute; reflexivity).
  rewrite forallb_forall in Hall.
  assert (Hok : comes_back_near (H := Reference.builtins) cs = true)
    by (apply Hall, in_seq; lia).
  unfold comes_back_near in Hok.
  destruct (round_trip _) as [e|t]; [discriminate|].
  apply orb_prop in Hok as [Hok|Hok]; [left|right];
    rewrite (same_text_eq _ _ Hok); reflexivity.
Qed.

Lemma whole_seconds_are_exact_witness :
  format_timestamp_ass (PyFloat.of_Z (Z.of_nat 75)) = inr (stamp (100 * Z.of_nat 75))
  /\ Annotator.format_timestamp_srt (PyFloat.of_Z (Z.of_nat 75))
     = inr (stamp_srt (1000 * Z.of_nat 75)).
Proof. apply (whole_seconds_are_exact 75). lia. Defined.

Lemma first_minute_round_trips_witness :
  round_trip (H := Reference.builtins) (stamp (Z.of_nat 29))
  = inr (stamp (Z.of_nat 29))
  \/ round_trip (H := Reference.builtins) (stamp (Z.of_nat 29))
     = inr (stamp (Z.of_nat 29 - 1)).
Proof.
  apply (first_minute_round_trips 29). apply Nat.ltb_lt. vm_compute. reflexivity.
Defined.

End FormatterRuns.


(** ** The command line of the annotator *)

Section AnnotatorRuns.
Context `{PyBuiltins}.
Import Transcribe Annotator.
Variable Model : Type.
Variable load_model : str -> option Model.
Variable run_model : Model -> str -> option (error + list Segment).

Lemma words_loop_stops (ai : AIEnhancer) (sentiment : str) (ws : list Word) :
  forall (st : Loop) (e : exn),
    (words_loop ai sentiment ws st).2 = Some e ->
    exists pre w suf st1,
      ws = pre ++ w :: suf
      /\ process_word ai sentiment st1 w = inl e
      /\ length (written (words_loop ai sentiment ws st).1)
         = (length (written st) + length pre)%nat.
Proof.
  induction ws as [|w ws IH]; intros st e Hstop; [discriminate|].
  cbn [words_loop] in Hstop |- *.
  destruct (process_word ai sentiment st w) as [e'|st'] eqn:E.
  - injection Hstop as ->. exists [], w, ws, st. cbn [app length fst].
    repeat split; [exact E | lia].
  - destruct (IH st' e Hstop) as (pre & w1 & suf & st1 & -> & Hfail & Hlen).
    exists (w :: pre), w1, suf, st1. repeat split; [exact Hfail|].
    rewrite Hlen.
    destruct (process_word_appends _ _ _ _ _ E) as (ev & -> & _).
    rewrite length_app. cbn [length]. lia.
Qed.

Lemma words_loop_length (ai : AIEnhancer) (sentiment : str) (ws : list Word) :
  forall st : Loop,
    (words_loop ai sentiment ws st).2 = None ->
    length (written (words_loop ai sentiment ws st).1)
    = (length (written st) + length ws)%nat.
Proof.
  induction ws as [|w ws IH]; intros st Hend; [cbn; lia|].
  cbn [words_loop] in Hend |- *.
  destruct (process_word ai sentiment st w) as [e'|st'] eqn:E; [discriminate|].
  rewrite (IH st' Hend).
  destruct (process_word_appends _ _ _ _ _ E) as (ev & -> & _).
  rewrite length_app. cbn [length]. lia.
Qed.

(** A run that stops on an exception stops at a word of the stream, and
    has written one row for each word before it. *)
Lemma segments_loop_stops (ai : AIEnhancer) (segments_list : list Segment) :
  forall (st : Loop) (e : exn),
    (segments_loop ai segments_list st).2 = Some e ->
    exists pre w suf sentiment st1,
      stream segments_list = pre ++ w :: suf
      /\ process_word ai sentiment st1 w = inl e
      /\ length (written (segments_loop ai segments_list st).1)
         = (length (written st) + length pre)%nat.
Proof.
  induction segments_list as [|segment rest IH]; intros st e Hstop; [discriminate|].
  unfold stream. rewrite fmap_cons. cbn [segments_loop concat] in Hstop |- *.
  fold (stream rest).
  destruct (segment_words segment) as [|w0 ws0] eqn:Ews; [apply IH; exact Hstop|].
  match type of Hstop with
  | context [words_loop ai ?s ?ws ?st1] =>
      pose proof (words_loop_stops ai s ws st1) as Hs;
      pose proof (words_loop_length ai s ws st1) as Hl;
      destruct (words_loop ai s ws st1) as [st2 [e'|]] eqn:E
  end; cbn [fst snd] in *.
  - injection Hstop as ->.
    destruct (Hs e eq_refl) as (pre & w & suf & st1 & Hws & Hfail & Hlen).
    exists pre, w, (suf ++ stream rest). eexists. exists st1.
    rewrite Hws, <- app_assoc. repeat split; [exact Hfail | exact Hlen].
  - destruct (IH st2 e Hstop) as (pre & w & suf & sentiment & st1 & Hst & Hfail & Hlen).
    exists ((w0 :: ws0) ++ pre), w, suf, sentiment, st1.
    rewrite Hst, <- app_assoc. repeat split; [exact Hfail|].
    rewrite Hlen, (Hl eq_refl), length_app. cbn [written]. lia.
Qed.

(** The model size that [main] passes on. *)
Lemma main_steps (prog audio_file output_file : str) (rest : list str) (w : World) :
  main Model load_model run_model (prog :: audio_file :: output_file :: rest) w
  = let model_size := match rest with [] => DEFAULT_MODEL_SIZE | size :: _ => size end in
    (exit_code (transcribe_to_srt Model load_model run_model
                                  audio_file output_file model_size w).1,
     (transcribe_to_srt Model load_model run_model
                        audio_file output_file model_size w).2).
Proof.
  unfold main. cbn [length Nat.ltb Nat.leb nth].
  destruct rest as [|size rest']; cbn [length Nat.ltb Nat.leb nth];
    destruct (transcribe_to_srt _ _ _ _ _ _ _) as [r w']; reflexivity.
Qed.

(** The run once the model has returned its lazy sequence. *)
Lemma main_transcribed (prog audio_file output_file content : str) (rest : list str)
      (model : Model) (segments : error + list Segment) (w : World) :
  let model_size := match rest with [] => DEFAULT_MODEL_SIZE | size :: _ => size end in
  files w !! audio_file = Some content ->
  load_model model_size = Some model ->
  run_model model audio_file = Some segments ->
  main Model load_model run_model (prog :: audio_file :: output_file :: rest) w
  = let ass_output := PyStr.replace (lit ".srt") (lit ".ass") output_file in
    match denied w !! ass_output with
    | Some e => (exit_code (inl (reraised (Raised e))), w)
    | None =>
        match segments with
        | inl err => (exit_code (inl (reraised err)), with_subtitles ass_output [] w)
        | inr segments_list =>
            (match (segments_loop init segments_list loop_start).2 with
             | Some e => exit_code (inl (reraised (Raised e)))
             | None => 0
             end,
             with_subtitles ass_output (emitted init segments_list) w)
        end
    end.
Proof.
  intros model_size Hfile Hload Hrun. rewrite main_steps. cbv zeta.
  unfold transcribe_to_srt, emitted. rewrite Hfile. fold model_size.
  rewrite Hload, Hrun.
  destruct (denied w !! _) as [e|]; [reflexivity|].
  destruct segments as [err|segments_list]; [reflexivity|].
  destruct (segments_loop init segments_list loop_start) as [st [e|]]; reflexivity.
Qed.

(** X20.  The annotator ends before it creates or changes any file in
    these cases: with fewer than two arguments, exit status 1; when the
    audio file does not exist, 2; when the speech model cannot be loaded
    or the transcription call raises, 4. *)
Theorem annotator_refusals (prog audio_file output_file : str) (rest : list str)
        (w : World) :
  let model_size := match rest with [] => DEFAULT_MODEL_SIZE | size :: _ => size end in
  (forall argv, (length argv < 3)%nat ->
                main Model load_model run_model argv w = (1, w))
  /\ (files w !! audio_file = None ->
      main Model load_model run_model (prog :: audio_file :: output_file :: rest) w
      = (2, w))
  /\ (is_Some (files w !! audio_file) ->
      (load_model model_size = None
       \/ exists model, load_model model_size = Some model
                        /\ run_model model audio_file = None) ->
      main Model load_model run_model (prog :: audio_file :: output_file :: rest) w
      = (4, w)).
Proof.
  intros model_size. split; [|split].
  - intros argv Hlen. unfold main. apply Nat.ltb_lt in Hlen. rewrite Hlen. reflexivity.
  - intros Hnone. rewrite main_steps. cbv zeta. unfold transcribe_to_srt.
    rewrite Hnone. reflexivity.
  - intros [content Hfile] Hfail. rewrite main_steps. cbv zeta.
    unfold transcribe_to_srt. rewrite Hfile. fold model_size.
    destruct Hfail as [Hload|(model & Hload & Hrun)]; rewrite Hload; [reflexivity|].
    rewrite Hrun. reflexivity.
Qed.

(** X21.  When the model returns its segments, the subtitle file can
    be opened for writing and no word fails, the annotator ends with
    exit status 0 and has written, at the output path with [.srt]
    replaced by [.ass], the header followed by one [Dialogue] row for
    each word of the stream, in order. *)
Theorem annotator_writes_every_word (prog audio_file output_file content : str)
        (rest : list str) (model : Model) (segments_list : list Segment) (w : World) :
  let model_size := match rest with [] => DEFAULT_MODEL_SIZE | size :: _ => size end in
  let ass_output := PyStr.replace (lit ".srt") (lit ".ass") output_file in
  files w !! audio_file = Some content ->
  load_model model_size = Some model ->
  run_model model audio_file = Some (inr segments_list) ->
  denied w !! ass_output = None ->
  (segments_loop init segments_list loop_start).2 = None ->
  main Model load_model run_model (prog :: audio_file :: output_file :: rest) w
  = (0, with_subtitles ass_output (emitted init segments_list) w)
  /\ files (with_subtitles ass_output (emitted init segments_list) w) !! ass_output
     = Some (ass_text (emitted init segments_list))
  /\ length (emitted init segments_list) = length (stream segments_list).
Proof.
  intros model_size ass_output Hfile Hload Hrun Hopen Hend. split; [|split].
  - rewrite (main_transcribed _ _ _ _ _ _ _ _ Hfile Hload Hrun). cbv zeta.
    fold ass_output. rewrite Hopen, Hend. reflexivity.
  - apply lookup_insert_eq.
  - unfold emitted.
    destruct (segments_loop_rows init segments_list loop_start [] (rows_of_start init))
      as (pre & suf & Eq & (_ & Hl & _) & Hsuf).
    rewrite (Hsuf Hend), app_nil_r in Eq. rewrite Eq. exact Hl.
Qed.

(** X22.  When a word fails, because one of its times does not format
    or because its row cannot be encoded, the annotator ends with the
    exit status of that exception (3 for [ValueError] and for
    [UnicodeEncodeError]) and leaves the subtitle file behind with the
    header and the rows of the words before the failing one only. *)
Theorem annotator_leaves_partial_file (prog audio_file output_file content : str)
        (rest : list str) (model : Model) (segments_list : list Segment) (w : World)
        (e : exn) :
  let model_size := match rest with [] => DEFAULT_MODEL_SIZE | size :: _ => size end in
  let ass_output := PyStr.replace (lit ".srt") (lit ".ass") output_file in
  files w !! audio_file = Some content ->
  load_model model_size = Some model ->
  run_model model audio_file = Some (inr segments_list) ->
  denied w !! ass_output = None ->
  (segments_loop init segments_list loop_start).2 = Some e ->
  main Model load_model run_model (prog :: audio_file :: output_file :: rest) w
  = (exit_code (inl (reraised (Raised e))),
     with_subtitles ass_output (emitted init segments_list) w)
  /\ (e = ValueError \/ e = UnicodeEncodeError ->
      (main Model load_model run_model
            (prog :: audio_file :: output_file :: rest) w).1 = 3)
  /\ exists before word after,
       stream segments_list = before ++ word :: after
       /\ length (emitted init segments_list) = length before
       /\ (format_timestamp_ass (start word) = inl e
           \/ format_timestamp_ass (end_ word) = inl e
           \/ e = UnicodeEncodeError).
Proof.
  intros model_size ass_output Hfile Hload Hrun Hopen Hstop.
  assert (Hmain : main Model load_model run_model
                       (prog :: audio_file :: output_file :: rest) w
                  = (exit_code (inl (reraised (Raised e))),
                     with_subtitles ass_output (emitted init segments_list) w)).
  { rewrite (main_transcribed _ _ _ _ _ _ _ _ Hfile Hload Hrun). cbv zeta.
    fold ass_output. rewrite Hopen, Hstop. reflexivity. }
  split; [exact Hmain|]. split.
  - intros [->| ->]; rewrite Hmain; reflexivity.
  - destruct (segments_loop_stops init segments_list loop_start e Hstop)
      as (pre & word & suf & sentiment & st1 & Hst & Hfail & Hlen).
    exists pre, word, suf. split; [exact Hst|]. split; [exact Hlen|].
    unfold process_word in Hfail.
    destruct (format_timestamp_ass (start word)) as [e1|t1];
      [left; cbn in Hfail; congruence|].
    destruct (format_timestamp_ass (end_ word)) as [e2|t2];
      [right; left; cbn in Hfail; congruence|].
    cbn [rbind] in Hfail. destruct (choose_emoji _ _ _).
    cbv beta iota zeta in Hfail. destruct (PyStr.encodable _); [discriminate|].
    right. right. congruence.
Qed.

(** X23.  Whatever its arguments and its outcome, the annotator
    changes no file other than the subtitle file at the output path with
    [.srt] replaced by [.ass], and prints nothing on the standard
    output. *)
Theorem annotator_touches_one_file (argv : list str) (w : World) (path : str) :
  path <> PyStr.replace (lit ".srt") (lit ".ass") (nth 2 argv []) ->
  files (main Model load_model run_model argv w).2 !! path = files w !! path
  /\ stdout (main Model load_model run_model argv w).2 = stdout w.
Proof.
  intros Hpath. unfold main.
  destruct (length argv <? 3)%nat; [split; reflexivity|].
  cbv zeta. unfold transcribe_to_srt.
  destruct (files w !! nth 1 argv []); [|split; reflexivity].
  destruct (load_model _) as [model|]; [|split; reflexivity].
  destruct (run_model model _) as [segments|]; [|split; reflexivity].
  destruct (denied w !! _) as [e|]; [split; reflexivity|].
  destruct segments as [err|segments_list].
  - cbn [fst snd files stdout with_subtitles]. split; [|reflexivity].
    apply lookup_insert_ne. congruence.
  - destruct (segments_loop init segments_list loop_start) as [st [e|]];
      cbn [fst snd files stdout with_subtitles]; (split; [|reflexivity]);
      apply lookup_insert_ne; congruence.
Qed.

(** X30.  What the annotator does when the subtitle file or the
    sequence of segments fails.  When the subtitle file cannot be opened
    for writing, the run ends with no file created or changed, with
    exit status 5 for an exception of the [IOError] family, which
    [transcribe_to_srt] replaces by a plain [IOError].  When the
    sequence of segments raises while it is consumed, the file has been
    opened already: it is left with the header alone. *)
Theorem annotator_output_failures (prog audio_file output_file content : str)
        (rest : list str) (model : Model) (segments : error + list Segment)
        (w : World) :
  let model_size := match rest with [] => DEFAULT_MODEL_SIZE | size :: _ => size end in
  let ass_output := PyStr.replace (lit ".srt") (lit ".ass") output_file in
  files w !! audio_file = Some content ->
  load_model model_size = Some model ->
  run_model model audio_file = Some segments ->
  (forall e, denied w !! ass_output = Some e ->
             main Model load_model run_model
                  (prog :: audio_file :: output_file :: rest) w
             = (exit_code (inl (reraised (Raised e))), w)
             /\ (is_oserror e = true ->
                 main Model load_model run_model
                      (prog :: audio_file :: output_file :: rest) w = (5, w)))
  /\ (forall err, denied w !! ass_output = None -> segments = inl err ->
                  main Model load_model run_model
                       (prog :: audio_file :: output_file :: rest) w
                  = (exit_code (inl (reraised err)), with_subtitles ass_output [] w)
                  /\ files (with_subtitles ass_output [] w) !! ass_output
                     = Some ass_header).
Proof.
  intros model_size ass_output Hfile Hload Hrun.
  rewrite (main_transcribed _ _ _ _ _ _ _ _ Hfile Hload Hrun). cbv zeta.
  fold ass_output. split.
  - intros e Hopen. rewrite Hopen. split; [reflexivity|].
    intros Hos. unfold reraised. rewrite Hos. reflexivity.
  - intros err Hopen ->. rewrite Hopen. split; [reflexivity|].
    unfold with_subtitles. cbn [files]. rewrite lookup_insert_eq.
    unfold ass_text. cbn [fmap list_fmap concat]. rewrite app_nil_r. reflexivity.
Qed.

End AnnotatorRuns.


(** ** The parser on the file of the annotator *)

Section WholeFile.
Context `{PyBuiltins}.
Import Transcribe Overlays Annotator.

Lemma plain_not_in (x : N) (t : str) :
  plain_char x = false -> Forall (fun c => plain_char c = true) t -> x ∉ t.
Proof.
  intros Hx Ht Hin. rewrite Forall_forall in Ht. specialize (Ht x Hin). congruence.
Qed.

Lemma uint_digits_plain (d : Decimal.uint) :
  Forall (fun c => plain_char c = true) (PyStr.uint_digits d).
Proof.
  induction d; cbn [PyStr.uint_digits]; constructor; try assumption; reflexivity.
Qed.

Lemma digits_plain (n : N) : Forall (fun c => plain_char c = true) (PyStr.digits n).
Proof.
  destruct n; cbn [PyStr.digits]; [repeat constructor | apply uint_digits_plain].
Qed.

Lemma of_int_plain (z : Z) : Forall (fun c => plain_char c = true) (PyStr.of_int z).
Proof.
  unfold PyStr.of_int. destruct (z <? 0); [constructor; [reflexivity|]|];
    apply digits_plain.
Qed.

Lemma of_int_02d_plain (z : Z) :
  Forall (fun c => plain_char c = true) (PyStr.of_int_02d z).
Proof.
  unfold PyStr.of_int_02d.
  destruct (z <? 0); [|destruct (z <? 10)];
    try (constructor; [reflexivity|]); apply digits_plain.
Qed.

Lemma literal_plain (l : str) :
  forallb plain_char l = true -> Forall (fun c => plain_char c = true) l.
Proof.
  intros Hl. rewrite forallb_forall in Hl. apply Forall_forall.
  intros c Hc. apply Hl. apply (proj1 (list_elem_of_In _ _)). exact Hc.
Qed.

Lemma format_timestamp_ass_plain (seconds : PyFloat.float) (t : str) :
  format_timestamp_ass seconds = inr t -> Forall (fun c => plain_char c = true) t.
Proof.
  unfold format_timestamp_ass, rbind.
  assert (Hc : Forall (fun c => plain_char c = true) (lit ":"))
    by (apply literal_plain; vm_compute; reflexivity).
  assert (Hd : Forall (fun c => plain_char c = true) (lit "."))
    by (apply literal_plain; vm_compute; reflexivity).
  revert Hc Hd. generalize (lit ":") (lit "."). intros colon dot Hc Hd.
  repeat match goal with
         | |- context [match ?x with inl _ => _ | inr _ => _ end] =>
             destruct x; [discriminate|]
         end.
  intros [= <-]. rewrite !Forall_app.
  repeat split; try assumption;
    try apply of_int_plain; apply of_int_02d_plain.
Qed.

Lemma choose_style_plain (ai : AIEnhancer) (i : nat) (word_lower : str) :
  Forall (fun c => plain_char c = true) (choose_style ai i word_lower).
Proof.
  unfold choose_style.
  destruct (should_emphasize ai word_lower); [apply literal_plain; vm_compute; reflexivity|].
  destruct (PyStr.in_list word_lower celebration_words);
    [apply literal_plain; vm_compute; reflexivity|].
  destruct (mem word_lower (energetic_words ai));
    [apply literal_plain; vm_compute; reflexivity|].
  assert (Hlt : (i mod 6 < 6)%nat) by (apply Nat.mod_upper_bound; lia).
  destruct (i mod 6)%nat as [|[|[|[|[|[|k]]]]]]; try lia;
    apply literal_plain; vm_compute; reflexivity.
Qed.

(** The fields of the rows of a run before the text are made of plain
    characters. *)
Lemma emitted_fields_plain (ai : AIEnhancer) (segments_list : list Segment) :
  Forall (fun ev => Forall (fun c => plain_char c = true) (ev_start ev)
                    /\ Forall (fun c => plain_char c = true) (ev_end ev)
                    /\ Forall (fun c => plain_char c = true) (ev_style ev))
         (emitted ai segments_list).
Proof.
  unfold emitted. apply segments_loop_Forall; [|constructor].
  intros sentiment st st' w Hstep.
  destruct (process_word_appends _ _ _ _ _ Hstep) as (ev & Hw & Hs & He & Hy).
  exists ev. split; [exact Hw|]. repeat split.
  - exact (format_timestamp_ass_plain _ _ Hs).
  - exact (format_timestamp_ass_plain _ _ He).
  - rewrite Hy. apply choose_style_plain.
Qed.

(** The header is cut at its marker, and the scan goes on in what
    follows the header with the text after the marker as current piece. *)
Lemma header_split (body : str) :
  PyStr.split (lit "[Events]") (ass_header ++ body)
  = header_before :: PyStr.split_go (lit "[Events]") None body (rev header_after) 0.
Proof. vm_compute. reflexivity. Qed.

Lemma header_lines (body : str) :
  PyStr.split [10%N] (header_after ++ body)
  = [] :: lit "Format: Layer, Start, End, Style, Name, MarginL, MarginR, MarginV, Effect, Text"
       :: PyStr.split_go [10%N] None body [] 0.
Proof. vm_compute. reflexivity. Qed.

Lemma header_has_marker (body : str) :
  PyStr.contains (lit "[Events]") (ass_header ++ body) = true.
Proof. vm_compute. reflexivity. Qed.

(** A text without the first character of the separator is one piece. *)
Lemma split_go_first_absent (c0 : N) (sep s : str) :
  c0 ∉ s ->
  forall acc : str, PyStr.split_go (c0 :: sep) None s acc 0 = [rev acc ++ s].
Proof.
  induction s as [|c s IH]; intros Hc acc.
  - cbn. rewrite app_nil_r. reflexivity.
  - apply not_elem_of_cons in Hc as [Hne Hc].
    cbn [PyStr.split_go PyStr.startswith andb].
    assert (E : (c0 =? c)%N = false) by (apply N.eqb_neq; exact Hne).
    rewrite E. cbn [andb]. rewrite (IH Hc). cbn [rev].
    rewrite <- app_assoc. reflexivity.
Qed.

(** The lines of the rows of a file. *)
Lemma rows_lines (events : list Event) :
  (forall ev, ev ∈ events -> 10%N ∉ row_text ev) ->
  PyStr.split_go [10%N] None (concat (dialogue_line <$> events)) [] 0
  = (row_text <$> events) ++ [[]].
Proof.
  induction events as [|ev events IH]; intros Hrows; [reflexivity|].
  rewrite !fmap_cons. cbn [concat app].
  assert (Hline : dialogue_line ev = row_text ev ++ [10%N]).
  { unfold dialogue_line, row_text. rewrite <- !app_assoc. reflexivity. }
  rewrite Hline, <- app_assoc.
  rewrite (split_go_field 10 None (row_text ev)) by (apply Hrows; left).
  cbn [app PyStr.split_go PyStr.startswith andb N.eqb Pos.eqb length Nat.pred option_fmap fmap option_map].
  rewrite app_nil_r, rev_involutive. f_equal.
  apply IH. intros ev' Hev'. apply Hrows. right. exact Hev'.
Qed.

Lemma row_text_avoids (x : N) (ev : Event) :
  plain_char x = false ->
  x <> 32%N -> x <> 44%N ->
  Forall (fun c => plain_char c = true) (ev_start ev) ->
  Forall (fun c => plain_char c = true) (ev_end ev) ->
  Forall (fun c => plain_char c = true) (ev_style ev) ->
  x ∉ ev_text ev ->
  x ∉ row_text ev.
Proof.
  intros Hx Hsp Hco Hs He Hy Ht. unfold row_text.
  assert (Hlit : forall l : str,
             forallb (fun c => plain_char c || (c =? 32)%N || (c =? 44)%N) l = true ->
             x ∉ l).
  { intros l Hl Hin. rewrite forallb_forall in Hl.
    specialize (Hl x (proj1 (list_elem_of_In _ _) Hin)).
    rewrite Hx in Hl. cbn [orb] in Hl. apply orb_prop in Hl as [Hl|Hl];
      apply N.eqb_eq in Hl; contradiction. }
  rewrite !not_elem_of_app. repeat split;
    try (apply plain_not_in; assumption); try exact Ht;
    apply Hlit; vm_compute; reflexivity.
Qed.

Lemma not_in_concat (x : N) (ls : list str) :
  (forall l, l ∈ ls -> x ∉ l) -> x ∉ concat ls.
Proof.
  induction ls as [|l ls IH]; intros Hall; cbn [concat]; [apply not_elem_of_nil|].
  apply not_elem_of_app. split; [apply Hall; left|].
  apply IH. intros l' Hl'. apply Hall. right. exact Hl'.
Qed.

(** The parser on the text of a subtitle file: for each row in order
    the glyphs found in the text of the row, provided that no row text
    holds a line feed or an opening bracket. *)
Lemma parse_content_of_rows (ai : AIEnhancer) (segments_list : list Segment) :
  (forall ev, ev ∈ emitted ai segments_list ->
              (10%N ∉ ev_text ev) /\ (91%N ∉ ev_text ev)) ->
  parse_content (ass_text (emitted ai segments_list))
  = concat ((fun ev => occurrence_in ev <$> findall (ev_text ev))
              <$> emitted ai segments_list).
Proof.
  intros Htext.
  pose proof (emitted_fields_plain ai segments_list) as Hplain.
  rewrite Forall_forall in Hplain.
  set (events := emitted ai segments_list) in *.
  assert (Hnl : forall ev, ev ∈ events -> 10%N ∉ row_text ev).
  { intros ev Hev. destruct (Hplain ev Hev) as (Hs & He & Hy).
    apply row_text_avoids; try assumption; try discriminate; try reflexivity.
    apply Htext. exact Hev. }
  assert (Hbr : 91%N ∉ concat (dialogue_line <$> events)).
  { apply not_in_concat. intros row Hrow.
    apply list_elem_of_fmap in Hrow as (ev & -> & Hev).
    destruct (Hplain ev Hev) as (Hs & He & Hy).
    assert (Hline : dialogue_line ev = row_text ev ++ [10%N]).
    { unfold dialogue_line, row_text. rewrite <- !app_assoc. reflexivity. }
    rewrite Hline. apply not_elem_of_app. split.
    - apply row_text_avoids; try assumption; try discriminate;
        try reflexivity. apply Htext. exact Hev.
    - intros Hin. apply list_elem_of_singleton in Hin. discriminate. }
  unfold parse_content, ass_text.
  rewrite header_has_marker, header_split.
  rewrite (split_go_first_absent 91 (lit "Events]") _ Hbr). cbn [nth].
  rewrite rev_involutive, header_lines, (rows_lines events Hnl).
  rewrite !fmap_cons, fmap_app. cbn [concat].
  assert (Hfmt : parse_line (lit "Format: Layer, Start, End, Style, Name, MarginL, MarginR, MarginV, Effect, Text") = [])
    by (vm_compute; reflexivity).
  rewrite Hfmt. change (parse_line []) with (@nil EmojiData). cbn [app].
  rewrite concat_app. cbn [fmap list_fmap concat]. rewrite !app_nil_r.
  f_equal. rewrite <- list_fmap_compose. apply list_fmap_ext.
  intros i ev Hev. cbn. apply parse_line_row.
  assert (Hin : ev ∈ events) by (eapply list_elem_of_lookup_2; exact Hev).
  destruct (Hplain ev Hin) as (Hs & He & Hy).
  repeat split; apply plain_not_in; (assumption || reflexivity).
Qed.


Lemma universal_newlines_id (s : str) :
  13%N ∉ s -> PyStr.universal_newlines s = s.
Proof.
  induction s as [|c s IH]; intros Hs; [reflexivity|].
  apply not_elem_of_cons in Hs as [Hne Hs]. cbn [PyStr.universal_newlines].
  assert (E : (c =? 13)%N = false) by (apply N.eqb_neq; congruence).
  rewrite E, (IH Hs). reflexivity.
Qed.

(** The text of a subtitle file holds no carriage return when no row
    text holds one. *)
Lemma ass_text_without_return (ai : AIEnhancer) (segments_list : list Segment) :
  (forall ev, ev ∈ emitted ai segments_list -> 13%N ∉ ev_text ev) ->
  13%N ∉ ass_text (emitted ai segments_list).
Proof.
  intros Htext.
  pose proof (emitted_fields_plain ai segments_list) as Hplain.
  rewrite Forall_forall in Hplain.
  unfold ass_text. apply not_elem_of_app. split.
  - apply (bool_decide_unpack _). vm_compute. exact I.
  - apply not_in_concat. intros row Hrow.
    apply list_elem_of_fmap in Hrow as (ev & -> & Hev).
    destruct (Hplain ev Hev) as (Hs & He & Hy).
    assert (Hline : dialogue_line ev = row_text ev ++ [10%N]).
    { unfold dialogue_line, row_text. rewrite <- !app_assoc. reflexivity. }
    rewrite Hline. apply not_elem_of_app. split.
    + apply row_text_avoids; try assumption; try discriminate;
        try reflexivity. apply Htext. exact Hev.
    + intros Hin. apply list_elem_of_singleton in Hin. discriminate.
Qed.

(** X6.  The parser reads back each row that the annotator writes.
    Applied to the row without its line end, the step that the parser
    runs on a line extracts the glyphs found in the text of the row,
    each with the start and end times of the row and with its whole
    text, commas included; and when the text of the row holds no line
    feed and no carriage return, the row is read back from the file as
    that one line. *)
Theorem emitted_rows_parse_back (ai : AIEnhancer) (segments_list : list Segment)
        (ev : Event) :
  ev ∈ emitted ai segments_list ->
  parse_line (row_text ev) = occurrence_in ev <$> findall (ev_text ev)
  /\ dialogue_line ev = row_text ev ++ [10%N]
  /\ ((10%N ∉ ev_text ev) -> (13%N ∉ ev_text ev) ->
      PyStr.split [10%N] (PyStr.universal_newlines (dialogue_line ev))
      = [row_text ev; []]).
Proof.
  intros Hin.
  assert (Hline : dialogue_line ev = row_text ev ++ [10%N]).
  { unfold dialogue_line, row_text. rewrite <- !app_assoc. reflexivity. }
  split; [|split; [exact Hline|]].
  - apply parse_line_row.
    pose proof (emitted_comma_free ai segments_list) as Hall.
    rewrite Forall_forall in Hall. apply Hall. exact Hin.
  - intros Hlf Hcr.
    pose proof (emitted_fields_plain ai segments_list) as Hplain.
    rewrite Forall_forall in Hplain. destruct (Hplain ev Hin) as (Hs & He & Hy).
    assert (Hrow : forall x, plain_char x = false -> x <> 32%N -> x <> 44%N ->
                             x ∉ ev_text ev -> x ∉ row_text ev).
    { intros x Hx Hsp Hco Ht. apply row_text_avoids; assumption. }
    rewrite universal_newlines_id.
    + unfold PyStr.split.
      assert (Hone : dialogue_line ev = concat (dialogue_line <$> [ev])).
      { rewrite fmap_cons. cbn [fmap list_fmap concat]. rewrite app_nil_r.
        reflexivity. }
      rewrite Hone, rows_lines; [reflexivity|].
      intros ev' Hev'. apply list_elem_of_singleton in Hev'. subst ev'.
      apply Hrow; [reflexivity | discriminate | discriminate | exact Hlf].
    + rewrite Hline. apply not_elem_of_app. split.
      * apply Hrow; [reflexivity | discriminate | discriminate | exact Hcr].
      * intros Hin13. apply list_elem_of_singleton in Hin13. discriminate.
Qed.

Variable Model : Type.
Variable load_model : str -> option Model.
Variable run_model : Model -> str -> option (error + list Segment).

(** X24.  The two scripts compose.  After a run of the annotator that
    reached the rows, whether it ended normally or on a failing word,
    the parser of the overlay script reads the subtitle file left
    behind and returns, for each row in order, the glyphs found in the
    text of the row, each with the start and end times of the row,
    provided that no row text holds a line feed, a carriage return or
    an opening bracket. *)
Theorem parser_reads_annotator_file (prog audio_file output_file content : str)
        (rest : list str) (model : Model) (segments_list : list Segment) (w : World) :
  let model_size := match rest with [] => DEFAULT_MODEL_SIZE | size :: _ => size end in
  let ass_output := PyStr.replace (lit ".srt") (lit ".ass") output_file in
  let w' := (Annotator.main Model load_model run_model
                            (prog :: audio_file :: output_file :: rest) w).2 in
  files w !! audio_file = Some content ->
  load_model model_size = Some model ->
  run_model model audio_file = Some (inr segments_list) ->
  denied w !! ass_output = None ->
  (forall ev, ev ∈ emitted init segments_list ->
              (10%N ∉ ev_text ev) /\ (13%N ∉ ev_text ev) /\ (91%N ∉ ev_text ev)) ->
  files w' !! ass_output = Some (ass_text (emitted init segments_list))
  /\ parse_ass_file ass_output w'
     = (inr (concat ((fun ev => occurrence_in ev <$> findall (ev_text ev))
                       <$> emitted init segments_list)), w').
Proof.
  intros model_size ass_output w' Hfile Hload Hrun Hopen Htext.
  assert (Hw' : w' = with_subtitles ass_output (emitted init segments_list) w).
  { unfold w'.
    rewrite (main_transcribed Model load_model run_model _ _ _ _ _ _ _ _
                              Hfile Hload Hrun).
    cbv zeta. fold ass_output. rewrite Hopen. reflexivity. }
  assert (Hlook : files w' !! ass_output = Some (ass_text (emitted init segments_list))).
  { rewrite Hw'. apply lookup_insert_eq. }
  split; [exact Hlook|].
  unfold parse_ass_file, bind, read_text, ret. rewrite Hlook.
  rewrite universal_newlines_id
    by (apply ass_text_without_return; intros ev Hev; apply (Htext ev Hev)).
  rewrite parse_content_of_rows; [reflexivity|].
  intros ev Hev. destruct (Htext ev Hev) as (Hlf & _ & Hbr). split; assumption.
Qed.

End WholeFile.


(** ** The further properties on concrete runs *)

Section FurtherRuns.
Import Transcribe Overlays Scenario Cases.
Existing Instance Reference.builtins.

Lemma findall_returns_single_tokens_witness :
  token_shape [0x1F525]%N
  /\ exists before after,
       lit "TEST " ++ [0x1F525]%N = before ++ [0x1F525]%N ++ after.
Proof.
  apply (findall_returns_single_tokens (lit "TEST " ++ [0x1F525]%N) [0x1F525]%N).
  apply list_elem_of_In. vm_compute. left. reflexivity.
Defined.

Lemma findall_keeps_last_of_run_witness :
  findall ([0x1F525; 0x1F600]%N ++ lit " ok")
  = [List.last [0x1F525; 0x1F600]%N 0%N] :: findall (lit " ok").
Proof.
  apply (findall_keeps_last_of_run [0x1F525; 0x1F600]%N (lit " ok")).
  - discriminate.
  - repeat (constructor; [vm_compute; reflexivity|]). constructor.
  - vm_compute. reflexivity.
Defined.

Lemma findall_plain_text_witness : findall (lit "HELLO") = [].
Proof.
  apply (findall_plain_text (lit "HELLO")).
  repeat (constructor; [split; [vm_compute; reflexivity|discriminate]|]).
  constructor.
Defined.

Lemma emitted_rows_parse_back_witness :
  parse_line (row_text glyph_event)
  = occurrence_in glyph_event <$> findall (ev_text glyph_event)
  /\ dialogue_line glyph_event = row_text glyph_event ++ [10%N]
  /\ PyStr.split [10%N] (PyStr.universal_newlines (dialogue_line glyph_event))
     = [row_text glyph_event; []].
Proof.
  destruct (emitted_rows_parse_back init glyph_segments glyph_event)
    as (Hparse & Hline & Hread).
  - apply (list_elem_of_lookup_2 _ 0%nat). vm_compute. reflexivity.
  - split; [exact Hparse|]. split; [exact Hline|].
    apply Hread; apply (bool_decide_unpack _); vm_compute; exact I.
Defined.

(** The row of the witness holds a glyph, which the parser finds. *)
Example glyph_row_is_found :
  parse_line (row_text glyph_event)
  = [{| emoji := [0x1F525]%N; Overlays.start := lit "0:00:00.00";
        Overlays.end_ := lit "0:00:00.50"; text := ev_text glyph_event |}].
Proof. vm_compute. reflexivity. Qed.

Lemma overlay_clauses_by_position_witness :
  Forall2 (clause_at fire_map skipped_then_kept)
          (surviving_from fire_map 0 skipped_then_kept) [lone_clause]
  /\ ((forall data, data ∈ skipped_then_kept -> is_Some (fire_map !! decoded data)) ->
      length [lone_clause] = length skipped_then_kept
      /\ forall k clause, [lone_clause] !! k = Some clause ->
                          clause_at fire_map skipped_then_kept k clause).
Proof.
  apply (overlay_clauses_by_position fire_map skipped_then_kept world_escaped
                                     world_after_skip [lone_clause]).
  vm_compute. reflexivity.
Defined.

Lemma empty_filter_iff_nothing_survives_witness :
  lone_clause = []
  <-> forall data, data ∈ skipped_then_kept -> fire_map !! decoded data = None.
Proof.
  apply (empty_filter_iff_nothing_survives skipped_then_kept (lit "emoji_images")
           fire_map_json fire_map world_escaped world_after_skip lone_clause);
    vm_compute; reflexivity.
Defined.

Lemma main_missing_markup_witness :
  exit_status (main [lit "generate_emoji_overlays.py"; lit "missing.ass"]
                    world_plain).1 = 1
  /\ files (main [lit "generate_emoji_overlays.py"; lit "missing.ass"] world_plain).2
     = files world_plain
  /\ (main [lit "generate_emoji_overlays.py"; lit "missing.ass"] world_plain).1
     = inl FileNotFoundError
  /\ stdout (main [lit "generate_emoji_overlays.py"; lit "missing.ass"] world_plain).2
     = stdout world_plain ++ [parsing_line (lit "missing.ass")].
Proof.
  destruct (main_missing_markup (lit "generate_emoji_overlays.py") (lit "missing.ass")
                                [] world_plain)
    as (Hstatus & Hfiles & Hprintable & _); [vm_compute; reflexivity|].
  split; [exact Hstatus|]. split; [exact Hfiles|].
  apply Hprintable. vm_compute. reflexivity.
Defined.

Lemma main_missing_map_witness :
  (main [lit "generate_emoji_overlays.py"; lit "clip.ass"] world_no_map).1 = inr tt
  /\ exit_status (main [lit "generate_emoji_overlays.py"; lit "clip.ass"]
                       world_no_map).1 = 0
  /\ files (main [lit "generate_emoji_overlays.py"; lit "clip.ass"] world_no_map).2
     = <[output_file_of (lit "clip.ass") := []]> (files world_no_map)
  /\ stdout (main [lit "generate_emoji_overlays.py"; lit "clip.ass"] world_no_map).2
     = stdout world_no_map
       ++ [parsing_line (lit "clip.ass");
           found_line (length (parse_content (PyStr.universal_newlines escaped_ass)));
           error_line (lit "emoji_images");
           saved_line (output_file_of (lit "clip.ass"))].
Proof.
  apply (proj1 (main_missing_map (lit "generate_emoji_overlays.py") (lit "clip.ass")
                                 escaped_ass [] world_no_map
                                 ltac:(vm_compute; reflexivity)
                                 ltac:(vm_compute; reflexivity)
                                 ltac:(vm_compute; discriminate)
                                 ltac:(vm_compute; reflexivity))).
  vm_compute. reflexivity.
Defined.

Lemma main_generation_raises_witness :
  files (main [lit "generate_emoji_overlays.py"; lit "clip.ass"] world_bad_map).2
  = files world_bad_map
  /\ (main [lit "generate_emoji_overlays.py"; lit "clip.ass"] world_bad_map).1
     = inl JSONDecodeError
  /\ exit_status (main [lit "generate_emoji_overlays.py"; lit "clip.ass"]
                       world_bad_map).1 = 1.
Proof.
  destruct (main_generation_raises (lit "generate_emoji_overlays.py") (lit "clip.ass")
                                   escaped_ass [] world_bad_map JSONDecodeError)
    as (Hfiles & Hprintable & _).
  - vm_compute. reflexivity.
  - vm_compute. discriminate.
  - vm_compute. reflexivity.
  - split; [exact Hfiles|].
    destruct Hprintable as [Hres Hstatus]; [vm_compute; reflexivity|].
    split; [exact Hres|]. apply Hstatus. intros code. discriminate.
Defined.

Lemma main_overwrites_markup_witness :
  output_file_of (lit "clip") = lit "clip"
  /\ (main [lit "generate_emoji_overlays.py"; lit "clip"] world_bare_name).1 = inr tt
  /\ files (main [lit "generate_emoji_overlays.py"; lit "clip"] world_bare_name).2
       !! lit "clip" = Some lone_clause.
Proof.
  destruct (main_overwrites_markup (lit "generate_emoji_overlays.py") (lit "clip")
                                   escaped_ass lone_clause [] world_bare_name)
    as (Hout & Hwritten & _).
  - vm_compute. reflexivity.
  - vm_compute. reflexivity.
  - vm_compute. reflexivity.
  - vm_compute. discriminate.
  - vm_compute. reflexivity.
  - split; [exact Hout|]. apply Hwritten; vm_compute; reflexivity.
Defined.

Lemma time_to_seconds_without_colon_witness :
  time_to_seconds (lit "90")
  = match int_of_str (lit "90") with
    | None => inl ValueError
    | Some _ => inl IndexError
    end.
Proof.
  apply (time_to_seconds_without_colon (lit "90")).
  apply (bool_decide_unpack _). vm_compute. exact I.
Defined.

Lemma analyze_sentiment_order_free_witness :
  analyze_sentiment init [lit "love"; lit "hate"]
  = analyze_sentiment init [lit "hate"; lit "love"].
Proof.
  apply (analyze_sentiment_order_free init [lit "love"; lit "hate"]
                                      [lit "hate"; lit "love"]).
  apply perm_swap.
Defined.

Lemma emoji_choice_by_importance_witness :
  choose_emoji init (lit "the") (lit "neutral") = (emoji_map init !! lit "the", false).
Proof.
  apply (proj2 (proj2 (proj2
           (emoji_choice_by_importance init (lit "the") (lit "neutral"))))).
  apply mem_true. vm_compute. reflexivity.
Defined.


Lemma non_finite_time_raises_witness :
  format_timestamp_ass (Transcribe.start timeless_word) = inl ValueError
  /\ Annotator.format_timestamp_srt (Transcribe.start timeless_word) = inl ValueError
  /\ process_word init (lit "neutral") loop_start timeless_word = inl ValueError.
Proof.
  apply (non_finite_time_raises init (lit "neutral") loop_start timeless_word).
  exact I.
Defined.

Lemma annotator_refusals_witness :
  Annotator.main unit stub_load (stub_run (inr segments))
                 [lit "whisper_transcribe.py"; lit "missing.wav"; lit "out.srt"]
                 world_audio
  = (2, world_audio).
Proof.
  apply (proj1 (proj2 (annotator_refusals unit stub_load (stub_run (inr segments))
                         (lit "whisper_transcribe.py") (lit "missing.wav")
                         (lit "out.srt") [] world_audio))).
  vm_compute. reflexivity.
Defined.

Lemma annotator_writes_every_word_witness :
  Annotator.main unit stub_load (stub_run (inr segments))
                 [lit "whisper_transcribe.py"; lit "talk.wav"; lit "out.srt"]
                 world_audio
  = (0, Annotator.with_subtitles (lit "out.ass") (emitted init segments) world_audio)
  /\ files (Annotator.with_subtitles (lit "out.ass") (emitted init segments)
                                     world_audio) !! lit "out.ass"
     = Some (Annotator.ass_text (emitted init segments))
  /\ length (emitted init segments) = length (stream segments).
Proof.
  apply (annotator_writes_every_word unit stub_load (stub_run (inr segments))
           (lit "whisper_transcribe.py") (lit "talk.wav") (lit "out.srt")
           (lit "RIFF") [] tt segments world_audio);
    vm_compute; reflexivity.
Defined.

Lemma annotator_leaves_partial_file_witness :
  Annotator.main unit stub_load (stub_run (inr broken_segments))
                 [lit "whisper_transcribe.py"; lit "talk.wav"; lit "out.srt"]
                 world_audio
  = (3, Annotator.with_subtitles (lit "out.ass") (emitted init broken_segments)
                                 world_audio)
  /\ length (emitted init broken_segments) = 1%nat.
Proof.
  destruct (annotator_leaves_partial_file unit stub_load
              (stub_run (inr broken_segments))
              (lit "whisper_transcribe.py") (lit "talk.wav") (lit "out.srt")
              (lit "RIFF") [] tt broken_segments world_audio ValueError)
    as (Hmain & _ & _); try (vm_compute; reflexivity).
  split; [exact Hmain | vm_compute; reflexivity].
Defined.

Lemma annotator_touches_one_file_witness :
  files (Annotator.main unit stub_load (stub_run (inr segments))
           [lit "whisper_transcribe.py"; lit "talk.wav"; lit "out.srt"]
           world_audio).2 !! lit "talk.wav"
  = files world_audio !! lit "talk.wav"
  /\ stdout (Annotator.main unit stub_load (stub_run (inr segments))
               [lit "whisper_transcribe.py"; lit "talk.wav"; lit "out.srt"]
               world_audio).2
     = stdout world_audio.
Proof.
  apply (annotator_touches_one_file unit stub_load (stub_run (inr segments))
           [lit "whisper_transcribe.py"; lit "talk.wav"; lit "out.srt"]
           world_audio (lit "talk.wav")).
  vm_compute. discriminate.
Defined.

Lemma parser_reads_annotator_file_witness :
  (parse_ass_file (lit "out.ass")
     (Annotator.main unit stub_load (stub_run (inr glyph_segments))
        [lit "whisper_transcribe.py"; lit "talk.wav"; lit "out.srt"] world_audio).2).1
  = inr [occurrence_in glyph_event [0x1F525]%N].
Proof.
  destruct (parser_reads_annotator_file unit stub_load
              (stub_run (inr glyph_segments))
              (lit "whisper_transcribe.py") (lit "talk.wav") (lit "out.srt")
              (lit "RIFF") [] tt glyph_segments world_audio)
    as (_ & Hparse).
  - vm_compute. reflexivity.
  - vm_compute. reflexivity.
  - vm_compute. reflexivity.
  - vm_compute. reflexivity.
  - intros ev Hev.
    assert (Hall : Forall (fun ev => (10%N ∉ ev_text ev) /\ (13%N ∉ ev_text ev)
                                     /\ (91%N ∉ ev_text ev))
                          (emitted init glyph_segments))
      by (apply (bool_decide_unpack _); vm_compute; exact I).
    rewrite Forall_forall in Hall. exact (Hall ev Hev).
  - cbv zeta in Hparse. refine (eq_trans (f_equal fst Hparse) _).
    vm_compute. reflexivity.
Defined.

Lemma unprintable_glyph_aborts_witness :
  (main [lit "generate_emoji_overlays.py"; lit "lone.ass"] world_surrogate).1
  = inl UnicodeEncodeError
  /\ exit_status (main [lit "generate_emoji_overlays.py"; lit "lone.ass"]
                       world_surrogate).1 = 1
  /\ files (main [lit "generate_emoji_overlays.py"; lit "lone.ass"] world_surrogate).2
     = files world_surrogate
  /\ stdout (main [lit "generate_emoji_overlays.py"; lit "lone.ass"] world_surrogate).2
     = stdout world_surrogate ++ [parsing_line (lit "lone.ass"); found_line 1].
Proof.
  assert (Habs : fire_map !! decoded surrogate_occurrence = None)
    by (vm_compute; reflexivity).
  assert (Hglyph : PyStr.encodable (decoded surrogate_occurrence) = false)
    by (vm_compute; reflexivity).
  apply (proj2 (unprintable_glyph_aborts fire_map surrogate_occurrence Habs Hglyph)
               (lit "generate_emoji_overlays.py") (lit "lone.ass") surrogate_ass
               fire_map_json [] [] world_surrogate);
    vm_compute; reflexivity.
Defined.

Lemma annotator_output_failures_witness :
  Annotator.main unit stub_load (stub_run (inr segments))
                 [lit "whisper_transcribe.py"; lit "talk.wav"; lit "out.srt"]
                 world_audio_locked
  = (5, world_audio_locked)
  /\ Annotator.main unit stub_load (stub_run (inl Annotator.RuntimeError))
                    [lit "whisper_transcribe.py"; lit "talk.wav"; lit "out.srt"]
                    world_audio
     = (4, Annotator.with_subtitles (lit "out.ass") [] world_audio).
Proof.
  split.
  - destruct (annotator_output_failures unit stub_load (stub_run (inr segments))
                (lit "whisper_transcribe.py") (lit "talk.wav") (lit "out.srt")
                (lit "RIFF") [] tt (inr segments) world_audio_locked)
      as (Hopen & _).
    + vm_compute. reflexivity.
    + vm_compute. reflexivity.
    + vm_compute. reflexivity.
    + apply (proj2 (Hopen PermissionError ltac:(vm_compute; reflexivity))).
      reflexivity.
  - destruct (annotator_output_failures unit stub_load
                (stub_run (inl Annotator.RuntimeError))
                (lit "whisper_transcribe.py") (lit "talk.wav") (lit "out.srt")
                (lit "RIFF") [] tt (inl Annotator.RuntimeError) world_audio)
      as (_ & Hlazy).
    + vm_compute. reflexivity.
    + vm_compute. reflexivity.
    + vm_compute. reflexivity.
    + refine (eq_trans (proj1 (Hlazy Annotator.RuntimeError
                                     ltac:(vm_compute; reflexivity) eq_refl)) _).
      vm_compute. reflexivity.
Defined.

End FurtherRuns.


(** ** The per-sentiment segment counts *)

Section SegmentCounts.
Context `{PyBuiltins}.
Import Transcribe.

Lemma stats_total_bump (stats : gmap str nat) (label : str) :
  stats_total (<[label := S (default O (stats !! label))]> stats)
  = S (stats_total stats).
Proof.
  unfold stats_total.
  assert (Hcomm : forall (m : gmap str nat) (j1 j2 : str) (z1 z2 y : nat),
             j1 <> j2 -> m !! j1 = Some z1 -> m !! j2 = Some z2 ->
             (z1 + (z2 + y) = z2 + (z1 + y))%nat) by (intros; lia).
  destruct (stats !! label) as [n|] eqn:E; cbn [default].
  - rewrite <- insert_delete_eq.
    rewrite map_fold_insert_L; [|apply Hcomm|apply lookup_delete_eq].
    rewrite (map_fold_delete_L _ _ label n stats); [cbv beta; unfold id; lia|apply Hcomm|exact E].
  - rewrite map_fold_insert_L; [cbv beta; unfold id; lia|apply Hcomm|exact E].
Qed.

Lemma words_loop_keeps_stats (ai : AIEnhancer) (sentiment : str) (ws : list Word) :
  forall st, sentiment_stats (words_loop ai sentiment ws st).1 = sentiment_stats st.
Proof.
  induction ws as [|w ws IH]; intros st; [reflexivity|].
  cbn [words_loop].
  destruct (process_word ai sentiment st w) as [e|st'] eqn:E; [reflexivity|].
  rewrite IH. unfold process_word in E.
  destruct (format_timestamp_ass (start w)) as [e|t1]; [discriminate|].
  destruct (format_timestamp_ass (end_ w)) as [e|t2]; [discriminate|].
  cbn [rbind] in E. destruct (choose_emoji ai _ sentiment) as [emoji smart].
  cbv beta iota zeta in E. destruct (PyStr.encodable _); [|discriminate].
  injection E as <-. reflexivity.
Qed.

Lemma analyze_sentiment_label (ai : AIEnhancer) (words_list : list str) :
  analyze_sentiment ai words_list ∈ labels.
Proof.
  rewrite analyze_sentiment_counts. cbv zeta. unfold labels.
  rewrite !fmap_cons.
  repeat match goal with
         | |- (if ?b then _ else _) ∈ _ => destruct b
         end; set_solver.
Qed.

Lemma segments_loop_stats (ai : AIEnhancer) (segments_list : list Segment) :
  forall st,
    (stats_total (sentiment_stats (segments_loop ai segments_list st).1)
     <= stats_total (sentiment_stats st) + length (worded segments_list))%nat
    /\ ((segments_loop ai segments_list st).2 = None ->
        stats_total (sentiment_stats (segments_loop ai segments_list st).1)
        = (stats_total (sentiment_stats st) + length (worded segments_list))%nat)
    /\ ((forall label n, sentiment_stats st !! label = Some n ->
                         label ∈ labels /\ (1 <= n)%nat) ->
        forall label n,
          sentiment_stats (segments_loop ai segments_list st).1 !! label = Some n ->
          label ∈ labels /\ (1 <= n)%nat).
Proof.
  induction segments_list as [|segment rest IH]; intros st.
  - cbn [segments_loop worded List.filter length fst snd].
    split; [lia|]. split; [intros _; lia|]. intros Hst. exact Hst.
  - cbn [segments_loop worded List.filter].
    destruct (segment_words segment) as [|w0 ws0] eqn:Ews.
    + exact (IH st).
    + cbn [length].
      set (sentiment := analyze_sentiment ai (word <$> w0 :: ws0)).
      set (st1 := {| word_count := word_count st;
                     emoji_count := emoji_count st;
                     important_word_count := important_word_count st;
                     sentiment_stats := _;
                     written := written st |}).
      pose proof (words_loop_keeps_stats ai sentiment (w0 :: ws0) st1) as Hkeep.
      assert (Hbump : stats_total (sentiment_stats st1)
                      = S (stats_total (sentiment_stats st)))
        by apply stats_total_bump.
      assert (Hkeys : (forall label n, sentiment_stats st !! label = Some n ->
                                       label ∈ labels /\ (1 <= n)%nat) ->
                      forall label n, sentiment_stats st1 !! label = Some n ->
                                      label ∈ labels /\ (1 <= n)%nat).
      { intros Hst label n. unfold st1. cbn [sentiment_stats].
        destruct (decide (label = sentiment)) as [->|Hne].
        - rewrite lookup_insert_eq. intros [= <-].
          split; [apply analyze_sentiment_label | lia].
        - rewrite lookup_insert_ne by congruence. apply Hst. }
      destruct (words_loop ai sentiment (w0 :: ws0) st1) as [st2 [e|]] eqn:E;
        cbn [fst snd] in *.
      * rewrite Hkeep, Hbump. fold (worded rest).
        split; [lia|]. split; [discriminate|].
        intros Hst. apply Hkeys. exact Hst.
      * destruct (IH st2) as (Hle & Heq & Hk). fold (worded rest) in *.
        rewrite Hkeep, Hbump in Hle, Heq.
        split; [lia|]. split; [intros Hn; rewrite (Heq Hn); lia|].
        intros Hst. apply Hk. rewrite Hkeep. apply Hkeys. exact Hst.
Qed.

(** X25.  The per-sentiment segment counts of a run add up to at most
    the number of segments that have words, and to exactly that number
    when the run ends without an exception; every label counted is one
    of the four sentiment labels, with a count of at least one. *)
Theorem segment_counts_add_up (ai : AIEnhancer) (segments_list : list Segment) :
  let stats := sentiment_stats (segments_loop ai segments_list loop_start).1 in
  (stats_total stats <= length (worded segments_list))%nat
  /\ ((segments_loop ai segments_list loop_start).2 = None ->
      stats_total stats = length (worded segments_list))
  /\ forall label n, stats !! label = Some n -> label ∈ labels /\ (1 <= n)%nat.
Proof.
  destruct (segments_loop_stats ai segments_list loop_start) as (Hle & Heq & Hk).
  assert (H0 : stats_total (sentiment_stats loop_start) = O) by reflexivity.
  rewrite H0 in Hle, Heq. cbn [Nat.add] in Hle, Heq.
  split; [exact Hle|]. split; [exact Heq|].
  apply Hk. intros label n Hl. cbn [loop_start sentiment_stats] in Hl.
  rewrite lookup_empty in Hl. discriminate Hl.
Qed.

End SegmentCounts.


(** ** Glyphs written literally and the image map *)

Section LiteralGlyphs.
Import Overlays.

Lemma decode_bytes (b : list N) :
  Forall (fun c => c <> 92%N) b -> Reference.decode b = Some b.
Proof.
  induction 1 as [|c b Hc Hb IH]; [reflexivity|].
  assert (E : Reference.decode (c :: b) = cons c <$> Reference.decode b).
  { destruct c as [|p]; [reflexivity|].
    repeat (destruct p as [p|p|]; try reflexivity;
            try (exfalso; apply Hc; reflexivity)). }
  rewrite E, IH. reflexivity.
Qed.

(** X26.  With the reference codec, an occurrence whose glyph is one
    character of the classes written literally (not as an escape, and
    not a lone surrogate) is looked up under the 3 or 4 characters
    U+0080..U+00FF that stand for its UTF-8 bytes, and not under the
    glyph: an image map whose keys are single characters has no image
    for it. *)
Theorem literal_glyph_is_mangled (data : EmojiData) (c : N) :
  emoji data = [c] ->
  emoji_class c = true ->
  in_range 0xD800 0xDFFF c = false ->
  Reference.utf8 c = Some (decoded (H := Reference.builtins) data)
  /\ (3 <= length (decoded (H := Reference.builtins) data) <= 4)%nat
  /\ Forall (fun b => (128 <= b < 256)%N) (decoded (H := Reference.builtins) data)
  /\ forall emoji_map : gmap str str,
       (forall key, is_Some (emoji_map !! key) -> length key = 1%nat) ->
       emoji_map !! decoded (H := Reference.builtins) data = None.
Proof.
  intros He Hc Hs.
  assert (Hr : (0x24C2 <= c /\ c <= 0x1F6FF)%N).
  { revert Hc. unfold emoji_class, in_range.
    rewrite !orb_true_iff, !andb_true_iff, !N.leb_le. lia. }
  assert (Hbytes : exists bytes,
             Reference.utf8 c = Some bytes
             /\ (3 <= length bytes <= 4)%nat
             /\ Forall (fun b => (128 <= b < 256)%N) bytes).
  { unfold Reference.utf8. rewrite Hs.
    destruct (N.ltb_spec c 0x80) as [?|_]; [lia|].
    destruct (N.ltb_spec c 0x800) as [?|_]; [lia|].
    destruct (N.ltb_spec c 0x10000) as [Hlt|Hge].
    - eexists. split; [reflexivity|]. split; [cbn [length]; lia|].
      assert (H1 : (c / 4096 < 16)%N) by (apply N.Div0.div_lt_upper_bound; lia).
      assert (H2 : ((c / 64) mod 64 < 64)%N) by (apply N.mod_upper_bound; discriminate).
      assert (H3 : (c mod 64 < 64)%N) by (apply N.mod_upper_bound; discriminate).
      revert H1 H2 H3.
      generalize (c / 4096)%N, ((c / 64) mod 64)%N, (c mod 64)%N.
      intros b1 b2 b3 H1 H2 H3.
      repeat (constructor; [cbv beta; lia|]). constructor.
    - destruct (N.ltb_spec c 0x110000) as [_|?]; [|lia].
      eexists. split; [reflexivity|]. split; [cbn [length]; lia|].
      assert (H1 : (c / 262144 < 1)%N) by (apply N.Div0.div_lt_upper_bound; lia).
      assert (H2 : ((c / 4096) mod 64 < 64)%N) by (apply N.mod_upper_bound; discriminate).
      assert (H3 : ((c / 64) mod 64 < 64)%N) by (apply N.mod_upper_bound; discriminate).
      assert (H4 : (c mod 64 < 64)%N) by (apply N.mod_upper_bound; discriminate).
      revert H1 H2 H3 H4.
      generalize (c / 262144)%N, ((c / 4096) mod 64)%N, ((c / 64) mod 64)%N,
                 (c mod 64)%N.
      intros b1 b2 b3 b4 H1 H2 H3 H4.
      repeat (constructor; [cbv beta; lia|]). constructor. }
  destruct Hbytes as (bytes & Hu & Hlen & Hall).
  assert (Hd : decoded (H := Reference.builtins) data = bytes).
  { unfold decoded. rewrite He.
    change (unicode_escape [c]) with (Reference.escape [c]).
    unfold Reference.escape. cbn [Reference.encode]. rewrite Hu, app_nil_r.
    rewrite decode_bytes; [reflexivity|].
    eapply Forall_impl; [exact Hall|]. cbn. intros b Hb. lia. }
  rewrite Hd. split; [exact Hu|]. split; [exact Hlen|]. split; [exact Hall|].
  intros emoji_map Hkeys.
  destruct (emoji_map !! bytes) as [image|] eqn:E; [|reflexivity].
  assert (Hone : length bytes = 1%nat) by (apply Hkeys; rewrite E; eexists; reflexivity).
  lia.
Qed.

End LiteralGlyphs.


(** ** The counts and the literal glyphs on concrete runs *)

Section CountRuns.
Import Transcribe Overlays Scenario Cases.
Existing Instance Reference.builtins.

Lemma segment_counts_add_up_witness :
  let stats := sentiment_stats (segments_loop init segments loop_start).1 in
  (stats_total stats <= length (worded segments))%nat
  /\ stats_total stats = length (worded segments)
  /\ forall label n, stats !! label = Some n -> label ∈ labels /\ (1 <= n)%nat.
Proof.
  destruct (segment_counts_add_up init segments) as (Hle & Heq & Hk).
  split; [exact Hle|]. split; [|exact Hk].
  apply Heq. vm_compute. reflexivity.
Defined.

Lemma literal_glyph_is_mangled_witness :
  decoded fire_occurrence = [0xF0; 0x9F; 0x94; 0xA5]%N
  /\ fire_map !! decoded fire_occurrence = None.
Proof.
  destruct (literal_glyph_is_mangled fire_occurrence 0x1F525%N)
    as (Hu & _ & _ & Hmap); [reflexivity | vm_compute; reflexivity..|].
  split.
  - vm_compute. reflexivity.
  - apply Hmap. intros key [image Hkey].
    destruct (decide (key = [0x1F525]%N)) as [->|Hne]; [reflexivity|].
    unfold fire_map, py_dict in Hkey. cbn [fold_left fst snd] in Hkey.
    rewrite lookup_insert_ne in Hkey by congruence.
    rewrite lookup_empty in Hkey. discriminate Hkey.
Defined.

End CountRuns.
